(** * CBC question generator: curriculum importer, storage model and API endpoints

    A shallow embedding of [commands.py], [models.py] and [app.py].

    - Python strings are modelled as [string]; every character stands for one
      code point below 256.
    - A mapped row (an ORM instance) is a dictionary from column names to
      values, primary key included; a table is the list of its committed rows
      in insertion order; the database maps [__tablename__] to its table.
    - Request payloads are JSON values whose numbers are integers.
    - The relational engine, the generative AI client, [bcrypt], [json.loads]
      and the built-ins [int] and [repr] are collaborators of the program:
      the engine is modelled from the constraints declared in [models.py],
      the others are parameters of the endpoints. *)

From stdpp Require Import gmap strings list fin_maps pretty.
From stdpp Require Import sorting.
From Stdlib Require Import ZArith Lia.
From Stdlib Require Import Ascii.

Open Scope Z_scope.

(** ** Python string methods used by the program *)

Module PyStr.

(** Code points below 256 for which [str.isspace] holds. *)
Definition is_space (c : ascii) : bool :=
  let n := N_of_ascii c in
  (((9 <=? n) && (n <=? 13)) || ((28 <=? n) && (n <=? 32))
   || (n =? 133) || (n =? 160))%N.

Definition is_upper (c : ascii) : bool :=
  let n := N_of_ascii c in
  (((65 <=? n) && (n <=? 90)) || ((192 <=? n) && (n <=? 214))
   || ((216 <=? n) && (n <=? 222)))%N.

Definition lower_char (c : ascii) : ascii :=
  if is_upper c then ascii_of_N (N_of_ascii c + 32) else c.

(** [str.lower] *)
Fixpoint lower (s : string) : string :=
  match s with
  | EmptyString => EmptyString
  | String c s' => String (lower_char c) (lower s')
  end.

(** [str.lstrip], [str.rstrip] and [str.strip] without argument *)
Fixpoint lstrip (s : string) : string :=
  match s with
  | EmptyString => EmptyString
  | String c s' => if is_space c then lstrip s' else s
  end.

Fixpoint rstrip (s : string) : string :=
  match s with
  | EmptyString => EmptyString
  | String c s' =>
      match rstrip s' with
      | EmptyString => if is_space c then EmptyString else String c EmptyString
      | t => String c t
      end
  end.

Definition strip (s : string) : string := rstrip (lstrip s).

(** [str.removeprefix] *)
Fixpoint drop_prefix (p s : string) : option string :=
  match p, s with
  | EmptyString, _ => Some s
  | String a p', String b s' => if Ascii.eqb a b then drop_prefix p' s' else None
  | String _ _, EmptyString => None
  end.

Definition removeprefix (p s : string) : string :=
  match drop_prefix p s with Some t => t | None => s end.

(** [str.removesuffix] *)
Fixpoint removesuffix (suf s : string) : string :=
  match s with
  | EmptyString => EmptyString
  | String c s' =>
      if String.eqb s suf then EmptyString else String c (removesuffix suf s')
  end.

Definition startswith (p s : string) : bool :=
  match drop_prefix p s with Some _ => true | None => false end.

(** [sep.join(parts)] *)
Fixpoint join (sep : string) (parts : list string) : string :=
  match parts with
  | [] => EmptyString
  | [p] => p
  | p :: ps => p +:+ sep +:+ join sep ps
  end.

(** Truth value of a string: [not s] holds exactly for the empty string. *)
Definition nonempty (s : string) : bool :=
  match s with EmptyString => false | String _ _ => true end.

Definition LF : string := String "010"%char EmptyString.
Definition DQ : string := String "034"%char EmptyString.

End PyStr.

Import PyStr.

(** ** The storage engine, from [models.py] *)

Inductive value :=
| VInt (n : Z)
| VStr (s : string).

Global Instance value_eq_dec : EqDecision value.
Proof. solve_decision. Defined.

(** A mapped class: its table name and the column sets declared unique
    ([unique=True] and [UniqueConstraint]).  Timestamps are filled by column
    defaults and are left out. *)
Record model := Model { tablename : string; uniques : list (list string) }.

Definition Subject : model := Model "subjects" [["name"]].
Definition Grade : model := Model "grades" [["name"]].
Definition Strand : model := Model "strands" [["subject_id"; "grade_id"; "name"]].
Definition SubStrand : model := Model "substrands" [["strand_id"; "name"]].
Definition LearningOutcome : model := Model "learning_outcomes" [].
Definition KeyInquiryQuestion : model := Model "key_inquiry_questions" [].
Definition User : model := Model "users" [["email"]].

Definition table (db : gmap string (list (gmap string value))) (m : model)
  : list (gmap string value) :=
  default [] (db !! tablename m).

(** [query(model).filter_by(kwargs)]: the rows that carry every keyword
    with the given value. *)
Definition filter_by (kwargs r : gmap string value) : bool :=
  bool_decide (kwargs ⊆ r).

(** [.first()] *)
Definition query_first (db : gmap string (list (gmap string value)))
  (m : model) (kwargs : gmap string value) : option (gmap string value) :=
  find (filter_by kwargs) (table db m).

(** The next value of the primary-key sequence. *)
Definition next_id (tbl : list (gmap string value)) : Z :=
  1 + foldr (fun r acc => match r !! "id" with
                          | Some (VInt n) => Z.max n acc
                          | _ => acc
                          end) 0 tbl.

(** Two rows collide on a unique column set when they agree on each of its
    columns (a missing value never collides). *)
Definition collides (new r : gmap string value) (cols : list string) : bool :=
  forallb (fun c => match new !! c, r !! c with
                    | Some a, Some b => bool_decide (a = b)
                    | _, _ => false
                    end) cols.

Definition violates (m : model) (new : gmap string value)
  (tbl : list (gmap string value)) : bool :=
  existsb (fun r => existsb (collides new r) (["id"] :: uniques m)) tbl.

(** INSERT of one row: the primary key comes from the sequence unless given;
    [None] is the engine's uniqueness failure. *)
Definition db_insert (m : model) (params : gmap string value)
  (tbl : list (gmap string value))
  : option (list (gmap string value) * gmap string value) :=
  let new := match params !! "id" with
             | Some _ => params
             | None => <["id" := VInt (next_id tbl)]> params
             end in
  if violates m new tbl then None else Some (tbl ++ [new], new).

(** ** Exceptions, the environment and the session *)

Inductive exn :=
| IntegrityError
| OperationalError (msg : string)
| AttributeError
| TypeError
| KeyError (key : string)
| ValueError (msg : string)
| OverflowError.

(** What the rest of the world does while one insert is being committed:
    nothing, another writer's insert lands first, or the engine fails. *)
Inductive env_event :=
| Quiet
| Race (m : model) (cols : gmap string value)
| Fault (msg : string).

Record world := World {
  committed : gmap string (list (gmap string value));
  env : list env_event
}.

Definition M (S A : Type) : Type := S -> (exn + A) * S.

Definition ret {S A} (a : A) : M S A := fun s => (inr a, s).
Definition raise {S A} (e : exn) : M S A := fun s => (inl e, s).
Definition bind {S A B} (c : M S A) (k : A -> M S B) : M S B :=
  fun s => match c s with
           | (inr a, s') => k a s'
           | (inl e, s') => (inl e, s')
           end.
Definition try_except {S A} (c : M S A) (h : exn -> M S A) : M S A :=
  fun s => match c s with
           | (inr a, s') => (inr a, s')
           | (inl e, s') => h e s'
           end.

Declare Scope py_scope.
Delimit Scope py_scope with py.
Notation "'let*' x := c 'in' k" := (bind c (fun x => k))
  (at level 10, x name, c at level 100, k at level 200, only parsing)
  : py_scope.
Notation "'let*' ' p := c 'in' k" :=
  (bind c (fun x => match x with p => k end))
  (at level 10, p pattern, c at level 100, k at level 200, only parsing)
  : py_scope.
Notation "c ;; k" := (bind c (fun _ => k))
  (at level 100, k at level 200, right associativity, only parsing)
  : py_scope.

Definition next_event (es : list env_event) : env_event * list env_event :=
  match es with
  | [] => (Quiet, [])
  | e :: es' => (e, es')
  end.

(** The other writer's insert goes through the same constraints; a rejected
    one leaves no trace. *)
Definition concurrent_write (ev : env_event)
  (db : gmap string (list (gmap string value)))
  : gmap string (list (gmap string value)) :=
  match ev with
  | Race m' cols =>
      match db_insert m' cols (table db m') with
      | Some (tbl', _) => <[tablename m' := tbl']> db
      | None => db
      end
  | _ => db
  end.

(** [session.query(model).filter_by(kwargs).first()] *)
Definition session_query_first (m : model) (kwargs : gmap string value)
  : M world (option (gmap string value)) :=
  fun w => (inr (query_first (committed w) m kwargs), w).

(** [session.add(instance); session.commit()]: the two calls always come
    together; the instance comes back with its primary key. *)
Definition session_add_commit (m : model) (params : gmap string value)
  : M world (gmap string value) :=
  fun w =>
    let (ev, rest) := next_event (env w) in
    match ev with
    | Fault msg => (inl (OperationalError msg), World (committed w) rest)
    | _ =>
        let db1 := concurrent_write ev (committed w) in
        match db_insert m params (table db1 m) with
        | None => (inl IntegrityError, World db1 rest)
        | Some (tbl', new) =>
            (inr new, World (<[tablename m := tbl']> db1) rest)
        end
    end.

(** [session.rollback()]: nothing is pending outside a failed commit, so the
    committed state stays as it is. *)
Definition session_rollback : M world unit := fun w => (inr tt, w).

(** ** [commands.py] *)

(** [get_or_create] with [defaults] and the keyword arguments [kwargs] *)
Definition get_or_create (m : model) (defaults : option (gmap string value))
  (kwargs : gmap string value) : M world (option (gmap string value) * bool) :=
  (let* instance := session_query_first m kwargs in
   match instance with
   | Some r => ret (Some r, false)
   | None =>
       let params := default ∅ defaults ∪ kwargs in
       try_except
         (let* new := session_add_commit m params in
          ret (Some new, true))
         (fun e =>
            match e with
            | IntegrityError =>
                session_rollback ;;
                let* instance := session_query_first m kwargs in
                ret (instance, false)
            | _ =>
                session_rollback ;;
                raise e
            end)
   end)%py.

(** The locals of [import_curriculum] next to the session. *)
Record importer := Importer {
  session : world;
  processed_count : nat;
  created_counts : gmap string nat;
  error_count : nat
}.

Definition initial_counts : gmap string nat :=
  <["KeyInquiryQuestion" := 0%nat]>
    (<["LearningOutcome" := 0%nat]>
       (<["SubStrand" := 0%nat]>
          (<["Strand" := 0%nat]>
             (<["Grade" := 0%nat]> (<["Subject" := 0%nat]> ∅))))).

Definition with_session {A} (c : M world A) : M importer A :=
  fun st => match c (session st) with
            | (r, w) => (r, Importer w (processed_count st)
                                     (created_counts st) (error_count st))
            end.

Definition incr_processed : M importer unit :=
  fun st => (inr tt, Importer (session st) (S (processed_count st))
                              (created_counts st) (error_count st)).

Definition incr_error : M importer unit :=
  fun st => (inr tt, Importer (session st) (processed_count st)
                              (created_counts st) (S (error_count st))).

(** [if created: created_counts[kind] += 1] *)
Definition bump (kind : string) (created : bool) (counts : gmap string nat)
  : gmap string nat :=
  if created then <[kind := S (counts !!! kind)]> counts else counts.

Definition count_created (kind : string) (created : bool) : M importer unit :=
  fun st => (inr tt, Importer (session st) (processed_count st)
                              (bump kind created (created_counts st))
                              (error_count st)).

(** [row.get(column, '').strip()]: a short CSV line leaves [None] under the
    columns it lacks, and [None] has no [strip]. *)
Definition field {S} (row : gmap string (option string)) (column : string)
  : M S string :=
  match row !! column with
  | None => ret EmptyString
  | Some None => raise AttributeError
  | Some (Some s) => ret (strip s)
  end.

(** [instance.id] *)
Definition attr {S} (instance : option (gmap string value)) (column : string)
  : M S value :=
  match instance with
  | Some r => match r !! column with
              | Some v => ret v
              | None => raise AttributeError
              end
  | None => raise AttributeError
  end.

(** Steps 1 to 4 of a row: Subject, Grade, Strand, SubStrand. *)
Definition resolve_hierarchy
  (subject_name grade_name strand_name substrand_name : string)
  : M importer (option (gmap string value)) :=
  (let* '(subject, created) := with_session
       (get_or_create Subject None {[ "name" := VStr subject_name ]}) in
   count_created "Subject" created ;;
   let* '(grade, created) := with_session
       (get_or_create Grade None {[ "name" := VStr grade_name ]}) in
   count_created "Grade" created ;;
   let* subject_id := attr subject "id" in
   let* grade_id := attr grade "id" in
   let* '(strand, created) := with_session
       (get_or_create Strand None
          (<["name" := VStr strand_name]>
             (<["subject_id" := subject_id]> {[ "grade_id" := grade_id ]}))) in
   count_created "Strand" created ;;
   let* strand_id := attr strand "id" in
   let* '(substrand, created) := with_session
       (get_or_create SubStrand None
          (<["name" := VStr substrand_name]> {[ "strand_id" := strand_id ]})) in
   count_created "SubStrand" created ;;
   ret substrand)%py.

(** Step 5 of a row: the learning outcome or key inquiry question. *)
Definition import_item (substrand : option (gmap string value))
  (item_type item_text : string) : M importer unit :=
  (if String.eqb item_type "LearningOutcome" then
     let* substrand_id := attr substrand "id" in
     let* '(lo, created) := with_session
         (get_or_create LearningOutcome None
            (<["substrand_id" := substrand_id]>
               {[ "description" := VStr item_text ]})) in
     count_created "LearningOutcome" created
   else if String.eqb item_type "KeyInquiryQuestion" then
     let* substrand_id := attr substrand "id" in
     let* '(kiq, created) := with_session
         (get_or_create KeyInquiryQuestion None
            (<["substrand_id" := substrand_id]>
               {[ "question_text" := VStr item_text ]})) in
     count_created "KeyInquiryQuestion" created
   else incr_error)%py.

(** The [try] block inside the loop. *)
Definition import_row_body (row : gmap string (option string))
  : M importer unit :=
  (let* subject_name := field row "Subject" in
   let* grade_name := field row "Grade" in
   let* strand_name := field row "Strand" in
   let* substrand_name := field row "SubStrand" in
   let* item_type := field row "ItemType" in
   let* item_text := field row "ItemText" in
   if negb (forallb nonempty [subject_name; grade_name; strand_name;
                              substrand_name; item_type; item_text])
   then incr_error
   else
     let* substrand := resolve_hierarchy subject_name grade_name strand_name
                         substrand_name in
     import_item substrand item_type item_text)%py.

(** The body of the [for row in reader] loop. *)
Definition import_row (row : gmap string (option string)) : M importer unit :=
  (incr_processed ;;
   try_except (import_row_body row)
     (fun e => with_session session_rollback ;; incr_error))%py.

Fixpoint import_rows (rows : list (gmap string (option string)))
  : M importer unit :=
  match rows with
  | [] => ret tt
  | row :: rest => (import_row row ;; import_rows rest)%py
  end.

(** What [open(csv_filepath)] and [csv.DictReader] hand to the command. *)
Inductive csv_source :=
| FileNotFound
| CsvFile (fieldnames : option (list string))
          (rows : list (gmap string (option string))).

Definition required_columns : list string :=
  ["Subject"; "Grade"; "Strand"; "SubStrand"; "ItemType"; "ItemText"].

(** The command either returns early without a summary or prints one. *)
Inductive import_report :=
| Aborted (message : string)
| Summary (processed : nat) (created : gmap string nat) (errors : nat).

Definition import_curriculum (csv_filepath : string) (source : csv_source)
  (w : world) : import_report * world :=
  let start := Importer w 0 initial_counts 0 in
  match source with
  | FileNotFound =>
      (Aborted ("Error: File not found at " +:+ csv_filepath), w)
  | CsvFile None rows =>
      (* [col in reader.fieldnames] on [None]: the outer handler *)
      (Summary 0 initial_counts 1, w)
  | CsvFile (Some fieldnames) rows =>
      if negb (forallb (fun col => bool_decide (col ∈ fieldnames))
                       required_columns)
      then
        (Aborted
           "Error: CSV file missing required columns (Subject, Grade, Strand, SubStrand, ItemType, ItemText)",
         w)
      else
        match import_rows rows start with
        | (inr _, st) =>
            (Summary (processed_count st) (created_counts st) (error_count st),
             session st)
        | (inl _, st) =>
            (Summary (processed_count st) (created_counts st)
                     (S (error_count st)),
             session st)
        end
  end.

(** ** [app.py]: request payloads, responses and observable effects *)

(** A number that [json.loads] reads as a float: a fraction, or what
    [1e999], [Infinity] and [NaN] decode to. *)
Inductive pyfloat :=
| Finite (numerator : Z) (denominator : positive)
| Infinite (negative : bool)
| NaN.

#[warnings="-register-all"]
Inductive json :=
| JNull
| JBool (b : bool)
| JInt (n : Z)
| JFloat (x : pyfloat)
| JStr (s : string)
| JList (items : list json)
| JObj (fields : list (string * json)).

(** [dict.get(key)] on a payload object (each key occurs once). *)
Definition dict_get (key : string) (fields : list (string * json))
  : option json :=
  snd <$> find (fun p => String.eqb key (fst p)) fields.

(** Truth value of a payload value, as [not x] and [all([...])] see it. *)
Definition truthy (v : json) : bool :=
  match v with
  | JNull => false
  | JBool b => b
  | JInt n => negb (n =? 0)
  | JFloat (Finite n _) => negb (n =? 0)
  | JFloat _ => true
  | JStr s => nonempty s
  | JList items => match items with [] => false | _ => true end
  | JObj fields => match fields with [] => false | _ => true end
  end.

(** [needle in haystack] on strings *)
Fixpoint contains (needle haystack : string) : bool :=
  startswith needle haystack ||
  match haystack with
  | EmptyString => false
  | String _ rest => contains needle rest
  end.

Definition is_str (s : string) (v : json) : bool :=
  match v with JStr t => String.eqb s t | _ => false end.

(** [f in data]; [None] where Python raises [TypeError]. *)
Definition py_in (f : string) (data : json) : option bool :=
  match data with
  | JObj fields => Some (bool_decide (is_Some (dict_get f fields)))
  | JList items => Some (existsb (is_str f) items)
  | JStr s => Some (contains f s)
  | _ => None
  end.

(** [all(f in data for f in req)], stopping at the first miss. *)
Fixpoint all_in (req : list string) (data : json) : option bool :=
  match req with
  | [] => Some true
  | f :: rest =>
      match py_in f data with
      | None => None
      | Some false => Some false
      | Some true => all_in rest data
      end
  end.

(** [data[key]] *)
Definition subscript (data : json) (key : string) : exn + json :=
  match data with
  | JObj fields =>
      match dict_get key fields with
      | Some v => inr v
      | None => inl (KeyError key)
      end
  | _ => inl TypeError
  end.

Inductive http_result :=
| Response (status : Z) (body : json)
| Unhandled (e : exn).

(** What a request does besides answering: reads of the store, calls of the
    AI service and log records. *)
Inductive event :=
| StoreRead (table_name : string)
| AiCall (prompt : string)
| Log (level message : string).

Record outcome := Outcome { result : http_result; trace : list event }.

Definition respond (status : Z) (body : json) : outcome :=
  Outcome (Response status body) [].

Definition after (e : event) (o : outcome) : outcome :=
  Outcome (result o) (e :: trace o).

Definition error_body (message : string) : json :=
  JObj [("error", JStr message)].

Definition error_details (message details : string) : json :=
  JObj [("error", JStr message); ("details", JStr details)].

Definition json_of_value (v : value) : json :=
  match v with VInt n => JInt n | VStr s => JStr s end.

(** A column value inside an f-string. *)
Definition format_value (v : value) : string :=
  match v with VInt n => pretty n | VStr s => s end.

(** [str(e)]; the texts of the interpreter's own errors are abbreviated. *)
Definition str_exn (e : exn) : string :=
  match e with
  | IntegrityError => "IntegrityError"
  | OperationalError msg => msg
  | AttributeError => "AttributeError"
  | TypeError => "TypeError"
  | KeyError key => "'" +:+ key +:+ "'"
  | ValueError msg => msg
  | OverflowError => "OverflowError"
  end.

(** [db.session.get(model, ident)] for a key already bound. *)
Definition get_by_id (db : gmap string (list (gmap string value)))
  (m : model) (key : value) : option (gmap string value) :=
  find (fun r => bool_decide (r !! "id" = Some key)) (table db m).

(** A many-to-one relationship attribute such as [lo.substrand]. *)
Definition related (db : gmap string (list (gmap string value)))
  (m : model) (r : gmap string value) (fk : string)
  : option (gmap string value) :=
  match r !! fk with
  | Some key => get_by_id db m key
  | None => None
  end.

Definition allowed_q : list string :=
  ["multiple_choice"; "short_answer"; "true_false"; "fill_in_the_blank"].

(** [{ "mcq": "multiple_choice", **{t:t for t in allowed_q} }] *)
Definition q_type_map : gmap string string :=
  list_to_map ((fun t => (t, t)) <$> allowed_q)
  ∪ {[ "mcq" := "multiple_choice" ]}.

(** The f-string of the single-outcome prompt. *)
Definition question_prompt (num_q : Z) (mapped_q_type subject grade strand
  substrand outcome_description : string) : string :=
  join EmptyString
    [LF; "        Generate "; pretty num_q;
     " unique question(s) based on the Kenyan CBC curriculum."; LF;
     "        Question Type: "; mapped_q_type; "."; LF; "        Context:";
     LF; "        - Subject: "; subject; LF; "        - Grade: "; grade; LF;
     "        - Strand: "; strand; LF; "        - Sub-Strand: "; substrand;
     LF; "        - Specific Learning Outcome: "; DQ; outcome_description;
     DQ; LF; LF; "        Instructions:"; LF;
     "        1.  Strictly assess the specified Learning Outcome."; LF;
     "        2.  Ensure questions are clear, concise, and grade-appropriate for ";
     grade; "."; LF;
     "        3.  Vary the cognitive skill level of the questions according to Bloom's Taxonomy. Aim for a mix of levels (e.g., Remembering, Understanding, Applying, Analyzing).";
     LF;
     "        4.  For each question, indicate the targeted Bloom's Taxonomy level.";
     LF; LF; "        Output Format:"; LF;
     "        Respond ONLY with a valid JSON list of question objects. No extra text before or after the list.";
     LF;
     "        Each question object MUST include 'type', 'question', 'taxonomy_level', and 'answer'.";
     LF;
     "        For 'multiple_choice', also include 'options' (a list of 4 strings).";
     LF; LF; "        Example JSON Output (list of objects):"; LF;
     "        ["; LF; "            {"; LF; "                "; DQ; "type";
     DQ; ": "; DQ; "multiple_choice"; DQ; ","; LF; "                "; DQ;
     "question"; DQ; ": "; DQ; "Which of these is a primary color?"; DQ; ",";
     LF; "                "; DQ; "options"; DQ; ": ["; DQ; "Green"; DQ; ", ";
     DQ; "Orange"; DQ; ", "; DQ; "Blue"; DQ; ", "; DQ; "Purple"; DQ; "],";
     LF; "                "; DQ; "answer"; DQ; ": "; DQ; "Blue"; DQ; ","; LF;
     "                "; DQ; "taxonomy_level"; DQ; ": "; DQ; "Remembering";
     DQ; LF; "            }"; LF; "        ]"; LF; "        "].

(** One section of the full-test prompt. *)
Definition section_prompt (i : Z) (strand_name num_questions lo_texts : string)
  : string :=
  join EmptyString
    [LF; "---"; LF; "**Section "; pretty (i + 1); ": "; strand_name; "**";
     LF; "Generate "; num_questions;
     " questions (mix of multiple_choice and short_answer) that assess the following learning outcomes:";
     LF; "- "; lo_texts; LF; "---"; LF].

(** The f-string of the full-test prompt. *)
Definition test_prompt (grade_name subject_name prompt_sections : string)
  : string :=
  join EmptyString
    [LF;
     "            You are an expert exam creator for the Kenyan CBC curriculum.";
     LF; "            Create a full, well-structured "; grade_name; " ";
     subject_name; " test paper."; LF;
     "            The test must have the following sections, with the specified number of questions for each.";
     LF; "            "; prompt_sections; LF;
     "            GLOBAL INSTRUCTIONS:"; LF;
     "            1. For the entire test, ensure a good mix of question types (multiple_choice, short_answer) and cognitive levels based on Bloom's Taxonomy (Remembering, Understanding, Applying, Analyzing).";
     LF;
     "            2. Each generated question must be a JSON object with 'type', 'question', 'answer', and 'taxonomy_level'. Multiple choice questions must also have an 'options' list.";
     LF; "            FINAL OUTPUT FORMAT:"; LF;
     "            Respond ONLY with a single, valid JSON object. Do not include any text before or after the JSON.";
     LF; "            The JSON object should have the structure: {"; DQ;
     "test_title"; DQ; ": "; DQ; "..."; DQ; ", "; DQ; "sections"; DQ; ": [{";
     DQ; "section_title"; DQ; ": "; DQ; "..."; DQ; ", "; DQ; "questions"; DQ;
     ": [...]}]}"; LF; "            "].

(** [response.text.strip().removeprefix("```json").removesuffix("```").strip()] *)
Definition clean_response_text (text : string) : string :=
  strip (removesuffix "```" (removeprefix "```json" (strip text))).

(** The exception [int] raises on a payload value it does not convert: an
    infinite float overflows, a string or a NaN has no integer value, the
    other values have no conversion. *)
Definition int_error (v : json) : exn :=
  match v with
  | JFloat (Infinite _) => OverflowError
  | JFloat _ | JStr _ => ValueError "invalid literal for int()"
  | _ => TypeError
  end.

(** [except (ValueError, TypeError)] around the conversions of the
    single-outcome endpoint; any other exception leaves the view. *)
Definition conversion_failure (e : exn) : outcome :=
  match e with
  | ValueError _ | TypeError =>
      respond 400 (error_body "Invalid data types for required fields")
  | _ => Outcome (Unhandled e) []
  end.

Section Endpoints.

(** The built-in [int]: [None] where it raises. *)
Variable py_int : json -> option Z.
(** [str] of a payload value that is neither a string nor an integer. *)
Variable repr : json -> string.
(** [json.loads]: the decoded value, or the text of the
    [JSONDecodeError]. *)
Variable json_loads : string -> string + json.
(** The global [ai_model] ([None] when no API key is configured);
    [generate_content(prompt)] followed by [response.text]. *)
Variable ai_model : option (string -> exn + string).
(** How the driver binds a payload value as a key; [None] where the engine
    rejects it. *)
Variable bind_param : json -> option value.
(** [bcrypt.generate_password_hash] (with the salt it draws) and
    [bcrypt.check_password_hash]. *)
Variable generate_password_hash : string -> string -> string.
Variable check_password_hash : string -> string -> bool.

(** [str(x)] *)
Definition py_str (v : json) : string :=
  match v with
  | JStr s => s
  | JInt n => pretty n
  | _ => repr v
  end.

(** The three conversions of the first [try] block. *)
Definition parse_fields (data : json) : exn + (Z * Z * string) :=
  match subscript data "learning_outcome_id" with
  | inl e => inl e
  | inr a =>
      match py_int a with
      | None => inl (int_error a)
      | Some lo_id =>
          match subscript data "num_questions" with
          | inl e => inl e
          | inr b =>
              match py_int b with
              | None => inl (int_error b)
              | Some num_q =>
                  match subscript data "question_type" with
                  | inl e => inl e
                  | inr c => inr (lo_id, num_q, lower (py_str c))
                  end
              end
          end
      end
  end.

(** The names looked up for the prompt; [None] where an attribute access
    raises. *)
Definition context_names (subj gr s ss lo : gmap string value)
  : option (string * string * string * string * string) :=
  match subj !! "name", gr !! "name", s !! "name", ss !! "name",
        lo !! "description" with
  | Some a, Some b, Some c, Some d, Some e =>
      Some (format_value a, format_value b, format_value c,
            format_value d, format_value e)
  | _, _, _, _, _ => None
  end.

(** The inner [try] of the single-outcome endpoint: clean, parse, check. *)
Definition parse_questions (current_user_email : string) (lo_id : Z)
  (text : string) : outcome :=
  let clean_text := clean_response_text text in
  if negb (nonempty clean_text) then
    after (Log "warning"
             ("AI returned an empty string for LO ID " +:+ pretty lo_id))
          (respond 500 (error_body "AI returned an empty response."))
  else
    match json_loads clean_text with
    | inl json_err =>
        after (Log "error"
                 ("JSON Parse Error: " +:+ json_err +:+ " on text: '"
                  +:+ clean_text +:+ "'"))
              (respond 500
                 (error_details "AI response format error (JSON)." json_err))
    | inr (JList gen_q) =>
        let answer :=
          after (Log "info"
                   ("User '" +:+ current_user_email +:+ "' generated "
                    +:+ pretty (length gen_q) +:+ " questions for LO ID "
                    +:+ pretty lo_id))
                (respond 200 (JList gen_q)) in
        match gen_q with
        | [] =>
            after (Log "warning"
                     ("AI returned an empty JSON list [] for LO ID "
                      +:+ pretty lo_id +:+ "."))
                  answer
        | _ => answer
        end
    | inr _ =>
        let e := ValueError "AI response is not a JSON list." in
        after (Log "error"
                 ("AI Generation Error for LO ID " +:+ pretty lo_id +:+ ": "
                  +:+ str_exn e))
              (respond 500 (error_details "AI generation failed." (str_exn e)))
    end.

(** The second [try] of the single-outcome endpoint: call the AI. *)
Definition call_ai (current_user_email : string) (lo_id : Z)
  (prompt : string) : outcome :=
  match ai_model with
  | None =>
      after (Log "error" "AI Model not configured during request.")
            (respond 500 (error_body "AI Model not available"))
  | Some generate_content =>
      after (AiCall prompt)
        match generate_content prompt with
        | inl e =>
            after (Log "error"
                     ("AI Generation Error for LO ID " +:+ pretty lo_id
                      +:+ ": " +:+ str_exn e))
                  (respond 500
                     (error_details "AI generation failed." (str_exn e)))
        | inr text => parse_questions current_user_email lo_id text
        end
  end.

(** The [try] that fetches the context: the reads it makes, and either
    the answer it returns early or the five names of [ctx]. *)
Definition fetch_context (db : gmap string (list (gmap string value)))
  (lo_id : Z)
  : list event * (outcome + string * string * string * string * string) :=
  let incomplete :=
    after (Log "error" ("Incomplete context for LO ID " +:+ pretty lo_id))
          (respond 500 (error_body "Could not retrieve full context.")) in
  match get_by_id db LearningOutcome (VInt lo_id) with
  | None =>
      ([StoreRead (tablename LearningOutcome)],
       inl (respond 404
              (error_body ("Learning Outcome ID " +:+ pretty lo_id
                           +:+ " not found."))))
  | Some lo =>
      match related db SubStrand lo "substrand_id" with
      | None =>
          ([StoreRead (tablename LearningOutcome);
            StoreRead (tablename SubStrand)], inl incomplete)
      | Some ss =>
          match related db Strand ss "strand_id" with
          | None =>
              ([StoreRead (tablename LearningOutcome);
                StoreRead (tablename SubStrand);
                StoreRead (tablename Strand)], inl incomplete)
          | Some s =>
              ([StoreRead (tablename LearningOutcome);
                StoreRead (tablename SubStrand);
                StoreRead (tablename Strand);
                StoreRead (tablename Subject);
                StoreRead (tablename Grade)],
               match related db Subject s "subject_id",
                     related db Grade s "grade_id" with
               | Some subj, Some gr =>
                   match context_names subj gr s ss lo with
                   | Some ctx => inr ctx
                   | None =>
                       inl (after
                              (Log "error"
                                 ("DB error fetching context for LO "
                                  +:+ pretty lo_id +:+ ": "
                                  +:+ str_exn AttributeError))
                              (respond 500
                                 (error_body
                                    "Database error fetching context")))
                   end
               | _, _ => inl incomplete
               end)
          end
      end
  end.

Definition emit (events : list event) (o : outcome) : outcome :=
  Outcome (result o) (events ++ trace o).

(** [POST /api/questions/generate]; [None] is a request that is not JSON. *)
Definition generate_questions_endpoint
  (db : gmap string (list (gmap string value)))
  (current_user_email : string) (request : option json) : outcome :=
  match request with
  | None => respond 400 (error_body "Request must be JSON")
  | Some data =>
      if negb (truthy data) then
        respond 400 (error_body "Missing required fields")
      else
        match all_in ["learning_outcome_id"; "num_questions";
                      "question_type"] data with
        | None => Outcome (Unhandled TypeError) []
        | Some false => respond 400 (error_body "Missing required fields")
        | Some true =>
            match parse_fields data with
            | inl e => conversion_failure e
            | inr (lo_id, num_q, q_type) =>
                if negb ((0 <? num_q) && (num_q <=? 20)) then
                  respond 400
                    (error_body "num_questions must be between 1 and 20")
                else
                  match q_type_map !! q_type with
                  | None | Some EmptyString =>
                      respond 400
                        (error_body
                           "Unsupported question_type. Use one of: ['mcq', 'multiple_choice', 'short_answer', 'true_false', 'fill_in_the_blank']")
                  | Some mapped_q_type =>
                      match fetch_context db lo_id with
                      | (reads, inl answer) => emit reads answer
                      | (reads, inr (subject, grade, strand, substrand,
                                     outcome_description)) =>
                          emit reads
                            (call_ai current_user_email lo_id
                               (question_prompt num_q mapped_q_type subject
                                  grade strand substrand
                                  outcome_description))
                      end
                  end
            end
        end
  end.

(** [db.session.get(model, ident)] for an identifier taken from the
    payload. *)
Definition session_get (db : gmap string (list (gmap string value)))
  (m : model) (ident : json) : exn + option (gmap string value) :=
  match bind_param ident with
  | None => inl (OperationalError "DataError")
  | Some key => inr (get_by_id db m key)
  end.

(** [LearningOutcome.query.join(SubStrand)
      .filter(SubStrand.strand_id == strand_id).all()] *)
Definition outcomes_of_strand (db : gmap string (list (gmap string value)))
  (strand_id : json) : exn + list (gmap string value) :=
  match bind_param strand_id with
  | None => inl (OperationalError "DataError")
  | Some key =>
      inr (filter
             (fun lo =>
                match lo !! "substrand_id" with
                | Some fk =>
                    existsb
                      (fun ss => bool_decide (ss !! "id" = Some fk)
                                 && bool_decide (ss !! "strand_id" = Some key))
                      (table db SubStrand)
                | None => false
                end = true)
             (table db LearningOutcome))
  end.

(** [[lo.description for lo in learning_outcomes]]; [join] only takes
    strings. *)
Fixpoint descriptions (los : list (gmap string value))
  : option (list string) :=
  match los with
  | [] => Some []
  | lo :: rest =>
      match lo !! "description", descriptions rest with
      | Some (VStr d), Some ds => Some (d :: ds)
      | _, _ => None
      end
  end.

(** The [for i, topic in enumerate(topics)] loop: the text appended to
    [prompt_sections] from topic [i] on, with the reads it makes. *)
Fixpoint build_sections (db : gmap string (list (gmap string value)))
  (i : Z) (topics : list json) : (exn + string) * list event :=
  match topics with
  | [] => (inr EmptyString, [])
  | topic :: rest =>
      match topic with
      | JObj fields =>
          let strand_id := default JNull (dict_get "strand_id" fields) in
          let num_questions :=
            default (JInt 3) (dict_get "num_questions" fields) in
          let continue := build_sections db (i + 1) rest in
          match session_get db Strand strand_id with
          | inl e => (inl e, [StoreRead (tablename Strand)])
          | inr None =>
              (fst continue, StoreRead (tablename Strand) :: snd continue)
          | inr (Some strand) =>
              match outcomes_of_strand db strand_id with
              | inl e =>
                  (inl e, [StoreRead (tablename Strand);
                           StoreRead (tablename LearningOutcome)])
              | inr [] =>
                  (fst continue,
                   StoreRead (tablename Strand)
                     :: StoreRead (tablename LearningOutcome)
                     :: snd continue)
              | inr learning_outcomes =>
                  match descriptions learning_outcomes, strand !! "name" with
                  | Some texts, Some name =>
                      (* the separator is a backslash, the letter n, a dash
                         and a space, as the source spells it *)
                      let lo_texts := join "\n- " texts in
                      let section :=
                        section_prompt i (format_value name)
                          (py_str num_questions) lo_texts in
                      (match fst continue with
                       | inr sections => inr (section +:+ sections)
                       | inl e => inl e
                       end,
                       StoreRead (tablename Strand)
                         :: StoreRead (tablename LearningOutcome)
                         :: snd continue)
                  | Some _, None =>
                      (inl AttributeError,
                       [StoreRead (tablename Strand);
                        StoreRead (tablename LearningOutcome)])
                  | None, _ =>
                      (inl TypeError,
                       [StoreRead (tablename Strand);
                        StoreRead (tablename LearningOutcome)])
                  end
              end
          end
      | _ => (inl AttributeError, [])
      end
  end.

(** The handler of the endpoint's [try]. *)
Definition test_failure (e : exn) : outcome :=
  after (Log "error" ("Full test generation failed: " +:+ str_exn e))
        (respond 500
           (error_details
              "An internal error occurred during test generation."
              (str_exn e))).

(** Cleaning and decoding the answer of the full-test call. *)
Definition parse_test (text : string) : outcome :=
  let clean_text := clean_response_text text in
  if negb (nonempty clean_text) then
    respond 500 (error_body "AI returned an empty response.")
  else
    match json_loads clean_text with
    | inl json_err => test_failure (ValueError json_err)
    | inr generated_test => respond 200 generated_test
    end.

(** From [prompt_sections] on. *)
Definition send_test (subject grade : gmap string value)
  (prompt_sections : string) : outcome :=
  if negb (nonempty prompt_sections) then
    respond 400
      (error_body "No valid topics with learning outcomes found.")
  else
    match grade !! "name", subject !! "name" with
    | Some grade_name, Some subject_name =>
        let prompt := test_prompt (format_value grade_name)
                        (format_value subject_name) prompt_sections in
        match ai_model with
        | None => respond 500 (error_body "AI Model not available")
        | Some generate_content =>
            after (AiCall prompt)
              match generate_content prompt with
              | inl e => test_failure e
              | inr text => parse_test text
              end
        end
    | _, _ => test_failure AttributeError
    end.

Definition is_list (v : json) : bool :=
  match v with JList _ => true | _ => false end.

Definition items_of (v : json) : list json :=
  match v with JList items => items | _ => [] end.

(** [POST /api/tests/generate] *)
Definition generate_full_test_endpoint
  (db : gmap string (list (gmap string value))) (request : option json)
  : outcome :=
  match request with
  | None => respond 400 (error_body "Request must be JSON")
  | Some (JObj fields) =>
      let subject_id := default JNull (dict_get "subject_id" fields) in
      let grade_id := default JNull (dict_get "grade_id" fields) in
      let topics := default JNull (dict_get "topics" fields) in
      if negb (forallb truthy [subject_id; grade_id; topics])
         || negb (is_list topics)
         || (length (items_of topics) =? 0)%nat
      then
        respond 400
          (error_body
             "Missing or invalid required fields: subject_id, grade_id, topics")
      else
        after (StoreRead (tablename Subject))
          match session_get db Subject subject_id with
          | inl e => test_failure e
          | inr subject =>
              after (StoreRead (tablename Grade))
                match session_get db Grade grade_id with
                | inl e => test_failure e
                | inr grade =>
                    match subject, grade with
                    | Some subject, Some grade =>
                        let (sections, reads) :=
                          build_sections db 0 (items_of topics) in
                        emit reads
                          match sections with
                          | inl e => test_failure e
                          | inr prompt_sections =>
                              send_test subject grade prompt_sections
                          end
                    | _, _ =>
                        respond 404
                          (error_body "Invalid subject_id or grade_id")
                    end
                end
          end
  | Some _ => Outcome (Unhandled AttributeError) []
  end.

(** [user.to_dict()] *)
Definition user_to_dict (user : gmap string value) : json :=
  JObj [("id", default JNull (json_of_value <$> user !! "id"));
        ("email", default JNull (json_of_value <$> user !! "email"))].

(** The common head of [register] and [login]: [request.is_json],
    [data.get('email')], [data.get('password')] and the
    [not email or not password] check. *)
Inductive credentials :=
| NotJson
| NotAnObject
| Missing
| Credentials (email password : json).

Definition read_credentials (request : option json) : credentials :=
  match request with
  | None => NotJson
  | Some (JObj fields) =>
      let email := default JNull (dict_get "email" fields) in
      let password := default JNull (dict_get "password" fields) in
      if negb (truthy email) || negb (truthy password) then Missing
      else Credentials email password
  | Some _ => NotAnObject
  end.

(** [POST /api/register]; [salt] is what [bcrypt] draws for this call.
    Only strings have [strip], and [bcrypt] only hashes strings. *)
Definition register (db : gmap string (list (gmap string value)))
  (salt : string) (request : option json)
  : http_result * gmap string (list (gmap string value)) :=
  match read_credentials request with
  | NotJson => (Response 400 (error_body "Request must be JSON"), db)
  | NotAnObject => (Unhandled AttributeError, db)
  | Missing => (Response 400 (error_body "Missing credentials"), db)
  | Credentials (JStr email) password =>
      match query_first db User {[ "email" := VStr (lower (strip email)) ]}
      with
      | Some _ => (Response 409 (error_body "Email exists"), db)
      | None =>
          match password with
          | JStr password =>
              let user : gmap string value :=
                <["password_hash" :=
                    VStr (generate_password_hash salt password)]>
                  {[ "email" := VStr (lower (strip email)) ]} in
              match db_insert User user (table db User) with
              | None => (Unhandled IntegrityError, db)
              | Some (tbl', user) =>
                  (Response 201 (user_to_dict user),
                   <[tablename User := tbl']> db)
              end
          | _ => (Unhandled TypeError, db)
          end
      end
  | Credentials _ _ => (Unhandled AttributeError, db)
  end.

(** [POST /api/login] *)
Definition login (db : gmap string (list (gmap string value)))
  (request : option json) : http_result :=
  match read_credentials request with
  | NotJson => Response 400 (error_body "Request must be JSON")
  | NotAnObject => Unhandled AttributeError
  | Missing => Response 400 (error_body "Missing credentials")
  | Credentials (JStr email) password =>
      match query_first db User {[ "email" := VStr (lower (strip email)) ]}
      with
      | Some user =>
          match password, user !! "password_hash" with
          | JStr password, Some (VStr password_hash) =>
              if check_password_hash password_hash password
              then Response 200 (user_to_dict user)
              else Response 401 (error_body "Invalid credentials")
          | _, _ => Unhandled TypeError
          end
      | None => Response 401 (error_body "Invalid credentials")
      end
  | Credentials _ _ => Unhandled AttributeError
  end.

End Endpoints.

(** ** [app.py]: the session loader and the read endpoints *)

(** [to_dict] of a curriculum class: the listed columns, [None] where the
    attribute is not set. *)
Definition to_dict (columns : list string) (r : gmap string value) : json :=
  JObj ((fun c => (c, default JNull (json_of_value <$> r !! c))) <$> columns).

Definition name_of (r : gmap string value) : string :=
  match r !! "name" with Some (VStr s) => s | _ => EmptyString end.

Definition id_of (r : gmap string value) : Z :=
  match r !! "id" with Some (VInt n) => n | _ => 0 end.

(** [.filter_by(kwargs).all()] *)
Definition query_all (db : gmap string (list (gmap string value)))
  (m : model) (kwargs : gmap string value) : list (gmap string value) :=
  filter (fun r => kwargs ⊆ r) (table db m).

(** The handler of the read endpoints. *)
Definition server_error (what : string) (e : exn) : outcome :=
  after (Log "error" ("Error getting " +:+ what +:+ ": " +:+ str_exn e))
        (respond 500 (error_body "Server error")).

(** The order of [order_by(Model.id)]. *)
Definition by_id (r1 r2 : gmap string value) : Prop := id_of r1 <= id_of r2.

Global Instance by_id_dec : RelDecision by_id.
Proof. intros r1 r2. unfold by_id. apply _. Defined.

(** [order_by(Model.id)] *)
Definition order_by_id (rows : list (gmap string value))
  : list (gmap string value) :=
  merge_sort by_id rows.

Section Reads.

(** The built-in [int], as in the endpoints above. *)
Variable py_int : json -> option Z.
(** The collation of the engine: [name_le a b] when [a] sorts no later
    than [b]. *)
Variable name_le : string -> string -> bool.

(** [login_manager.user_loader]; [store] is [inl e] when the engine raises
    [e] on the query. *)
Definition load_user
  (store : exn + gmap string (list (gmap string value))) (user_id : json)
  : option (gmap string value) :=
  match py_int user_id with
  | None => None
  | Some n =>
      match store with
      | inl _ => None
      | inr db => get_by_id db User (VInt n)
      end
  end.

(** The order of [order_by(Model.name)]. *)
Definition by_name (r1 r2 : gmap string value) : Prop :=
  name_le (name_of r1) (name_of r2) = true.

Global Instance by_name_dec : RelDecision by_name.
Proof. intros r1 r2. unfold by_name. apply _. Defined.

(** [order_by(Model.name)]; the engine leaves the order of equal names
    open, the model takes the one of a merge sort. *)
Definition order_by_name (rows : list (gmap string value))
  : list (gmap string value) :=
  merge_sort by_name rows.

(** [request.args.get(key, type=int)]: [None] when the key is missing or
    the conversion raises. *)
Definition arg_int (args : gmap string string) (key : string) : option Z :=
  match args !! key with
  | Some text => py_int (JStr text)
  | None => None
  end.

(** Truth value of such an argument. *)
Definition given (v : option Z) : bool :=
  match v with Some n => negb (n =? 0) | None => false end.

(** [GET /api/subjects] *)
Definition get_subjects
  (store : exn + gmap string (list (gmap string value))) : outcome :=
  after (StoreRead (tablename Subject))
    match store with
    | inl e => server_error "subjects" e
    | inr db =>
        respond 200
          (JList (to_dict ["id"; "name"]
                    <$> order_by_name (table db Subject)))
    end.

(** [GET /api/grades] *)
Definition get_grades
  (store : exn + gmap string (list (gmap string value))) : outcome :=
  after (StoreRead (tablename Grade))
    match store with
    | inl e => server_error "grades" e
    | inr db =>
        respond 200
          (JList (to_dict ["id"; "name"] <$> order_by_name (table db Grade)))
    end.

(** [GET /api/strands] *)
Definition get_strands
  (store : exn + gmap string (list (gmap string value)))
  (args : gmap string string) : outcome :=
  let subject_id := arg_int args "subject_id" in
  let grade_id := arg_int args "grade_id" in
  let columns := ["id"; "name"; "subject_id"; "grade_id"] in
  if bool_decide (args !! "all" = Some "true") then
    after (StoreRead (tablename Strand))
      match store with
      | inl e => server_error "all strands" e
      | inr db =>
          respond 200
            (JList (to_dict columns <$> order_by_name (table db Strand)))
      end
  else if negb (given subject_id && given grade_id) then
    respond 400 (error_body "subject_id and grade_id are required")
  else
    after (StoreRead (tablename Strand))
      match store with
      | inl e => server_error "strands" e
      | inr db =>
          respond 200
            (JList
               (to_dict columns
                  <$> order_by_name
                        (query_all db Strand
                           (<["subject_id" := VInt (default 0 subject_id)]>
                              {[ "grade_id" :=
                                   VInt (default 0 grade_id) ]}))))
      end.

(** [GET /api/substrands] *)
Definition get_substrands
  (store : exn + gmap string (list (gmap string value)))
  (args : gmap string string) : outcome :=
  let strand_id := arg_int args "strand_id" in
  if negb (given strand_id) then
    respond 400 (error_body "strand_id is required")
  else
    after (StoreRead (tablename SubStrand))
      match store with
      | inl e => server_error "substrands" e
      | inr db =>
          respond 200
            (JList
               (to_dict ["id"; "name"; "strand_id"]
                  <$> order_by_name
                        (query_all db SubStrand
                           {[ "strand_id" := VInt (default 0 strand_id) ]})))
      end.

(** [GET /api/learning_outcomes] *)
Definition get_learning_outcomes
  (store : exn + gmap string (list (gmap string value)))
  (args : gmap string string) : outcome :=
  let substrand_id := arg_int args "substrand_id" in
  if negb (given substrand_id) then
    respond 400 (error_body "substrand_id is required")
  else
    after (StoreRead (tablename LearningOutcome))
      match store with
      | inl e => server_error "learning outcomes" e
      | inr db =>
          respond 200
            (JList
               (to_dict ["id"; "description"; "substrand_id"]
                  <$> order_by_id
                        (query_all db LearningOutcome
                           {[ "substrand_id" :=
                                VInt (default 0 substrand_id) ]})))
      end.

End Reads.

(** ** Stand-ins for the collaborators and sample data, to run the model *)

Module Examples.

Definition int_of (v : json) : option Z :=
  match v with
  | JInt n => Some n
  | JBool b => Some (if b then 1 else 0)
  | JFloat (Finite n d) => Some (Z.quot n (Z.pos d))
  | _ => None
  end.

Definition repr_of (v : json) : string := "<object>".

Definition loads (s : string) : string + json :=
  if String.eqb s "[]" then inr (JList [])
  else if String.eqb s "{}" then inr (JObj [])
  else if String.eqb s "null" then inr JNull
  else inl "Expecting value: line 1 column 1 (char 0)".

Definition ai (reply : string) : option (string -> exn + string) :=
  Some (fun _ => inr reply).

Definition key_of (v : json) : option value :=
  match v with
  | JInt n => Some (VInt n)
  | _ => None
  end.

Definition hash (salt password : string) : string := salt +:+ password.

Definition check (password_hash password : string) : bool :=
  bool_decide (removesuffix password password_hash +:+ password
               = password_hash).

(** The row of the specification's example. *)
Definition math_row : gmap string (option string) :=
  list_to_map
    [("Subject", Some "Math"); ("Grade", Some "Grade4");
     ("Strand", Some "Numbers"); ("SubStrand", Some "Addition");
     ("ItemType", Some "LearningOutcome");
     ("ItemText", Some "Add two digit numbers")].

(** The same row with an item type the importer does not know. *)
Definition odd_row : gmap string (option string) :=
  <["ItemType" := Some "Assessment"]> math_row.

(** The same row with a strand of white space only. *)
Definition blank_row : gmap string (option string) :=
  <["Strand" := Some "   "]> math_row.

(** The store after importing [math_row] into an empty database. *)
Definition school : gmap string (list (gmap string value)) :=
  committed
    (snd (import_curriculum "curriculum.csv"
            (CsvFile (Some required_columns) [math_row]) (World ∅ []))).

(** The store after importing [odd_row]: a strand without outcomes. *)
Definition bare_school : gmap string (list (gmap string value)) :=
  committed
    (snd (import_curriculum "curriculum.csv"
            (CsvFile (Some required_columns) [odd_row]) (World ∅ []))).

Definition question_request (count : Z) (kind : string)
  : list (string * json) :=
  [("learning_outcome_id", JInt 1); ("num_questions", JInt count);
   ("question_type", JStr kind)].

Definition test_request : list (string * json) :=
  [("subject_id", JInt 1); ("grade_id", JInt 1);
   ("topics", JList [JObj [("strand_id", JInt 1)];
                     JObj [("strand_id", JInt 99);
                           ("num_questions", JInt 2)]])].

Definition credentials_request (email password : string)
  : list (string * json) :=
  [("email", JStr email); ("password", JStr password)].

End Examples.

(** More sample data: query arguments and a larger store. *)

Module Fixtures.

(** [int] on the query-string texts of the examples. *)
Definition text_int (v : json) : option Z :=
  match v with
  | JInt n => Some n
  | JStr "0" => Some 0
  | JStr "1" => Some 1
  | JStr "2" => Some 2
  | _ => None
  end.

(** A second outcome under the sub-strand of the example. *)
Definition subtract_row : gmap string (option string) :=
  <["ItemText" := Some "Subtract two digit numbers"]> Examples.math_row.

(** The store after importing both outcomes. *)
Definition bigger_school : gmap string (list (gmap string value)) :=
  committed
    (snd (import_curriculum "curriculum.csv"
            (CsvFile (Some required_columns)
               [subtract_row; Examples.math_row]) (World ∅ []))).

End Fixtures.

(** ** Well-formed stores and the statements' vocabulary *)

(** Every stored row has a primary key. *)
Definition has_ids (db : gmap string (list (gmap string value))) : Prop :=
  forall t rows r, db !! t = Some rows -> r ∈ rows -> is_Some (r !! "id").

(** Tables only ever grow at their end. *)
Definition grows (db db' : gmap string (list (gmap string value))) : Prop :=
  forall m, exists extra, table db' m = table db m ++ extra.

(** The keywords of a lookup lie inside each declared unique column set. *)
Definition key_within (m : model) (kwargs : gmap string value) : Prop :=
  forall u c, u ∈ uniques m -> is_Some (kwargs !! c) -> c ∈ u.

(** The four levels of a row, resolved in a store. *)
Definition resolved (db : gmap string (list (gmap string value)))
  (a b c d : string) (subject grade strand substrand : gmap string value)
  : Prop :=
  exists sid gid stid,
    query_first db Subject {[ "name" := VStr a ]} = Some subject
    /\ subject !! "id" = Some sid
    /\ query_first db Grade {[ "name" := VStr b ]} = Some grade
    /\ grade !! "id" = Some gid
    /\ query_first db Strand
         (<["name" := VStr c]> (<["subject_id" := sid]> {[ "grade_id" := gid ]}))
       = Some strand
    /\ strand !! "id" = Some stid
    /\ query_first db SubStrand
         (<["name" := VStr d]> {[ "strand_id" := stid ]}) = Some substrand.

(** [created] tells whether the lookup had missed in [db]; when it had not,
    [r] is the row it found. *)
Definition was_new (db : gmap string (list (gmap string value))) (m : model)
  (kw : gmap string value) (created : bool) (r : gmap string value) : Prop :=
  if created then query_first db m kw = None
  else query_first db m kw = Some r.

(** The CSV line has a text under [column], and it trims to [v]. *)
Definition field_is (row : gmap string (option string)) (column v : string)
  : Prop :=
  exists s, row !! column = Some (Some s) /\ strip s = v.

(** The six fields of a line, trimmed, none of them empty. *)
Definition valid_row (row : gmap string (option string))
  (a b c d ty tx : string) : Prop :=
  field_is row "Subject" a /\ field_is row "Grade" b
  /\ field_is row "Strand" c /\ field_is row "SubStrand" d
  /\ field_is row "ItemType" ty /\ field_is row "ItemText" tx
  /\ forallb nonempty [a; b; c; d; ty; tx] = true.


(** [needle] occurs in [text]. *)
Definition occurs (needle text : string) : Prop :=
  exists before rest, text = before +:+ needle +:+ rest.

(** [c] is a sequence of white space. *)
Fixpoint blank (s : string) : bool :=
  match s with
  | EmptyString => true
  | String c s' => is_space c && blank s'
  end.

(** [attempt] is [stored] up to letter case and surrounding white space. *)
Definition same_up_to_case_and_space (attempt stored : string) : Prop :=
  exists left core right,
    attempt = left +:+ core +:+ right /\ blank left = true
    /\ blank right = true /\ lower core = lower stored.

(** The trace holds no read of the store. *)
Definition no_store_read (tr : list event) : Prop :=
  forall t, StoreRead t ∉ tr.

(** The trace holds no call of the AI service. *)
Definition no_ai_call (tr : list event) : Prop :=
  forall p, AiCall p ∉ tr.

(** The validator as the specification words it: trim; when the text begins
    with a fence, annotated as JSON or bare, drop the leading and the
    trailing fence; trim again. *)
Definition spec_clean_response_text (text : string) : string :=
  let t := strip text in
  if startswith "```json" t then
    strip (removesuffix "```" (removeprefix "```json" t))
  else if startswith "```" t then
    strip (removesuffix "```" (removeprefix "```" t))
  else t.

(** ** Constraints, runs and tallies *)

(** The mapped classes of [models.py]. *)
Definition schema : list model :=
  [User; Subject; Grade; Strand; SubStrand; LearningOutcome;
   KeyInquiryQuestion].

(** No two rows of a table share the primary key or a column set declared
    unique. *)
Definition unique_rows (m : model) (tbl : list (gmap string value)) : Prop :=
  forall i j r1 r2 u,
    tbl !! i = Some r1 -> tbl !! j = Some r2 ->
    u ∈ ["id"] :: uniques m -> collides r1 r2 u = true -> i = j.

(** A store that meets the constraints of the models. *)
Definition store_ok (db : gmap string (list (gmap string value))) : Prop :=
  has_ids db /\ forall m, m ∈ schema -> unique_rows m (table db m).

(** The other writers go through the mapped classes as well. *)
Definition env_ok (evs : list env_event) : Prop :=
  Forall (fun ev => match ev with Race m _ => m ∈ schema | _ => True end) evs.

Definition world_ok (w : world) : Prop :=
  store_ok (committed w) /\ env_ok (env w).

(** Every run of [c] relates the world before to the world after. *)
Definition world_steps {A} (R : world -> world -> Prop) (c : M world A)
  : Prop :=
  forall w res w', c w = (res, w') -> R w w'.


(** [row.get(column, '').strip()] as a value: [None] where it raises. *)
Definition field_text (row : gmap string (option string)) (column : string)
  : option string :=
  match row !! column with
  | None => Some EmptyString
  | Some None => None
  | Some (Some s) => Some (strip s)
  end.

(** The six fields of a line, when each of them can be read. *)
Definition row_fields (row : gmap string (option string))
  : option (string * string * string * string * string * string) :=
  match field_text row "Subject", field_text row "Grade",
        field_text row "Strand", field_text row "SubStrand",
        field_text row "ItemType", field_text row "ItemText" with
  | Some a, Some b, Some c, Some d, Some ty, Some tx =>
      Some (a, b, c, d, ty, tx)
  | _, _, _, _, _, _ => None
  end.

(** The lines that cannot be imported whatever the store holds: a field
    that cannot be read, an empty field, an unknown item type. *)
Definition bad_row (row : gmap string (option string)) : bool :=
  match row_fields row with
  | Some (a, b, c, d, ty, tx) =>
      negb (forallb nonempty [a; b; c; d; ty; tx])
      || negb (String.eqb ty "LearningOutcome"
               || String.eqb ty "KeyInquiryQuestion")
  | None => true
  end.

(** The keys of [created_counts] with the class each one counts. *)
Definition kinds : list (string * model) :=
  [("Subject", Subject); ("Grade", Grade); ("Strand", Strand);
   ("SubStrand", SubStrand); ("LearningOutcome", LearningOutcome);
   ("KeyInquiryQuestion", KeyInquiryQuestion)].

(** From [db] with the counts [cs] to [db'] with the counts [cs']: each
    count went up by the number of rows its table gained. *)
Definition accounted (db : gmap string (list (gmap string value)))
  (cs : gmap string nat) (db' : gmap string (list (gmap string value)))
  (cs' : gmap string nat) : Prop :=
  forall kind m, (kind, m) ∈ kinds ->
    (length (table db' m) + cs !!! kind
     = length (table db m) + cs' !!! kind)%nat.

(** A stretch of a quiet run. *)
Definition advances (db : gmap string (list (gmap string value)))
  (cs : gmap string nat) (db' : gmap string (list (gmap string value)))
  (cs' : gmap string nat) : Prop :=
  grows db db' /\ has_ids db' /\ accounted db cs db' cs'.

(** Everything a line asks for is in the store already. *)
Definition settled (db : gmap string (list (gmap string value)))
  (row : gmap string (option string)) : Prop :=
  match row_fields row with
  | Some (a, b, c, d, ty, tx) =>
      forallb nonempty [a; b; c; d; ty; tx] = true ->
      exists subject grade strand substrand ssid,
        resolved db a b c d subject grade strand substrand
        /\ substrand !! "id" = Some ssid
        /\ (ty = "LearningOutcome" ->
            is_Some (query_first db LearningOutcome
                       (<["substrand_id" := ssid]>
                          {[ "description" := VStr tx ]})))
        /\ (ty = "KeyInquiryQuestion" ->
            is_Some (query_first db KeyInquiryQuestion
                       (<["substrand_id" := ssid]>
                          {[ "question_text" := VStr tx ]})))
  | None => True
  end.

(** * Properties *)

(** ** Strings *)

Section StringFacts.
Implicit Types (s t p : string) (c : ascii).

Local Arguments String.append !_ _ / : simpl nomatch.


Lemma app_assoc_str s t p : (s +:+ t) +:+ p = s +:+ (t +:+ p).
Proof. induction s as [|c s IH]; simpl; [done|by f_equal]. Qed.

Lemma occurs_here s t : occurs s (s +:+ t).
Proof. exists EmptyString, t. reflexivity. Qed.

Lemma occurs_later s t p : occurs s t -> occurs s (p +:+ t).
Proof.
  intros (before & rest & ->). exists (p +:+ before), rest.
  by rewrite app_assoc_str.
Qed.





Lemma drop_prefix_app p s : drop_prefix p (p +:+ s) = Some s.
Proof.
  induction p as [|c p IH]; simpl; [by destruct s|].
  by rewrite Ascii.eqb_refl.
Qed.

Lemma drop_prefix_spec p s t : drop_prefix p s = Some t -> s = p +:+ t.
Proof.
  revert s. induction p as [|c p IH]; intros s; simpl.
  - destruct s; by intros [= <-].
  - destruct s as [|b s]; [discriminate|].
    destruct (Ascii.eqb c b) eqn:E; [|discriminate].
    apply Ascii.eqb_eq in E as ->. intros H. by rewrite (IH _ H).
Qed.

Lemma removeprefix_app p s : removeprefix p (p +:+ s) = s.
Proof. unfold removeprefix. by rewrite drop_prefix_app. Qed.

Lemma removeprefix_other p s : startswith p s = false -> removeprefix p s = s.
Proof. unfold startswith, removeprefix. by destruct (drop_prefix p s). Qed.

Lemma startswith_app p s : startswith p (p +:+ s) = true.
Proof. unfold startswith. by rewrite drop_prefix_app. Qed.

Lemma length_app_str s t :
  String.length (s +:+ t) = (String.length s + String.length t)%nat.
Proof. induction s as [|c s IH]; simpl; [done|by f_equal]. Qed.

Lemma removesuffix_app suf s : removesuffix suf (s +:+ suf) = s.
Proof.
  induction s as [|c s IH].
  - simpl. destruct suf as [|c suf]; [done|].
    cbn [removesuffix]. by rewrite String.eqb_refl.
  - simpl String.append. cbn [removesuffix].
    destruct (String.eqb_spec (String c (s +:+ suf)) suf) as [E|N].
    + exfalso. apply (f_equal String.length) in E. simpl in E.
      rewrite length_app_str in E. lia.
    + by rewrite IH.
Qed.

Lemma removesuffix_other suf s :
  (forall before, s <> before +:+ suf) -> removesuffix suf s = s.
Proof.
  induction s as [|c s IH]; intros H; [done|]. cbn [removesuffix].
  destruct (String.eqb_spec (String c s) suf) as [E|N].
  - exfalso. apply (H EmptyString). simpl. done.
  - rewrite IH; [done|]. intros before ->. apply (H (String c before)).
    reflexivity.
Qed.

Lemma is_space_lower c : is_space (lower_char c) = is_space c.
Proof. destruct c as [[] [] [] [] [] [] [] []]; reflexivity. Qed.

Lemma lower_char_idem c : lower_char (lower_char c) = lower_char c.
Proof. destruct c as [[] [] [] [] [] [] [] []]; reflexivity. Qed.

Lemma lower_idem s : lower (lower s) = lower s.
Proof.
  induction s as [|c s IH]; simpl; [done|].
  by rewrite lower_char_idem, IH.
Qed.

Lemma lower_lstrip s : lstrip (lower s) = lower (lstrip s).
Proof.
  induction s as [|c s IH]; simpl; [done|].
  rewrite is_space_lower. by destruct (is_space c).
Qed.

Lemma lower_rstrip s : rstrip (lower s) = lower (rstrip s).
Proof.
  induction s as [|c s IH]; simpl; [done|].
  rewrite IH, is_space_lower.
  destruct (rstrip s); simpl; [by destruct (is_space c)|done].
Qed.

Lemma lower_strip s : strip (lower s) = lower (strip s).
Proof. unfold strip. by rewrite lower_lstrip, lower_rstrip. Qed.

Lemma lstrip_blank s t : blank s = true -> lstrip (s +:+ t) = lstrip t.
Proof.
  induction s as [|c s IH]; simpl; [done|].
  intros H. apply andb_true_iff in H as [-> H]. auto.
Qed.

Lemma rstrip_blank_only s : blank s = true -> rstrip s = EmptyString.
Proof.
  induction s as [|c s IH]; simpl; [done|].
  intros H. apply andb_true_iff in H as [-> H]. by rewrite IH.
Qed.

Lemma rstrip_blank s t : blank t = true -> rstrip (s +:+ t) = rstrip s.
Proof.
  intros H. induction s as [|c s IH]; simpl.
  - by apply rstrip_blank_only.
  - by rewrite IH.
Qed.

Lemma lstrip_app s t :
  lstrip (s +:+ t) = if blank s then lstrip t else lstrip s +:+ t.
Proof.
  induction s as [|c s IH]; simpl; [done|].
  destruct (is_space c); simpl; [exact IH|done].
Qed.

Lemma lstrip_blank_only s : blank s = true -> lstrip s = EmptyString.
Proof.
  induction s as [|c s IH]; simpl; [done|].
  intros H. apply andb_true_iff in H as [-> H]. auto.
Qed.

(** Surrounding white space does not survive [strip]. *)
Lemma strip_padded l s r :
  blank l = true -> blank r = true -> strip (l +:+ s +:+ r) = strip s.
Proof.
  intros Hl Hr. unfold strip. rewrite (lstrip_blank _ _ Hl), lstrip_app.
  destruct (blank s) eqn:Hs.
  - rewrite (lstrip_blank_only _ Hr), (lstrip_blank_only _ Hs). done.
  - by apply rstrip_blank.
Qed.

Lemma lstrip_idem s : lstrip (lstrip s) = lstrip s.
Proof.
  induction s as [|c s IH]; simpl; [done|].
  destruct (is_space c) eqn:E; [done|]. simpl. by rewrite E.
Qed.

Lemma rstrip_idem s : rstrip (rstrip s) = rstrip s.
Proof.
  induction s as [|c s IH]; simpl; [done|].
  destruct (rstrip s) as [|b t] eqn:E.
  - destruct (is_space c) eqn:Ec; simpl; [done|by rewrite Ec].
  - simpl in *. rewrite IH. done.
Qed.

Lemma lstrip_rstrip s : lstrip s = s -> lstrip (rstrip s) = rstrip s.
Proof.
  destruct s as [|c s]; simpl; [done|].
  destruct (is_space c) eqn:E.
  - intros H. exfalso. clear E.
    assert (Hlen : forall t, (String.length (lstrip t) <= String.length t)%nat).
    { induction t as [|b t IH]; simpl; [lia|].
      destruct (is_space b); simpl; lia. }
    specialize (Hlen s). rewrite H in Hlen. simpl in Hlen. lia.
  - intros _. destruct (rstrip s); simpl; by rewrite E.
Qed.

Lemma strip_idem s : strip (strip s) = strip s.
Proof.
  unfold strip. rewrite (lstrip_rstrip (lstrip s)) by apply lstrip_idem.
  apply rstrip_idem.
Qed.

(** An attempt that differs from a stored, normalised address only in
    letter case and surrounding white space normalises to it. *)
Lemma normalise_variant attempt email :
  same_up_to_case_and_space attempt (lower (strip email)) ->
  lower (strip attempt) = lower (strip email).
Proof.
  intros (l & core & r & -> & Hl & Hr & Hc).
  rewrite lower_idem in Hc.
  rewrite (strip_padded _ _ _ Hl Hr), <- lower_strip, Hc, lower_strip.
  by rewrite strip_idem.
Qed.
End StringFacts.

(** ** Lists and the storage engine *)

Section StoreFacts.

Implicit Types (tbl : list (gmap string value)) (r kw : gmap string value).
Implicit Types (db : gmap string (list (gmap string value))) (m : model).

Lemma find_app_found {A} (f : A -> bool) (l l' : list A) x :
  find f l = Some x -> find f (l ++ l') = Some x.
Proof.
  induction l as [|a l IH]; simpl; [discriminate|].
  destruct (f a); auto.
Qed.

Lemma find_app_missing {A} (f : A -> bool) (l l' : list A) :
  find f l = None -> find f (l ++ l') = find f l'.
Proof.
  induction l as [|a l IH]; simpl; [reflexivity|].
  destruct (f a); [discriminate|auto].
Qed.

Lemma find_missing {A} (f : A -> bool) (l : list A) x :
  find f l = None -> x ∈ l -> f x = false.
Proof.
  induction l as [|a l IH]; simpl; intros Hf Hx.
  - inversion Hx.
  - destruct (f a) eqn:Ha; [discriminate|].
    apply elem_of_cons in Hx as [->|Hx]; auto.
Qed.

Lemma find_found {A} (f : A -> bool) (l : list A) x :
  find f l = Some x -> x ∈ l /\ f x = true.
Proof.
  induction l as [|a l IH]; simpl; [discriminate|].
  destruct (f a) eqn:Ha.
  - intros [= ->]. split; [left|assumption].
  - intros H. destruct (IH H). split; [right|]; assumption.
Qed.

Lemma next_id_above tbl r n :
  r ∈ tbl -> r !! "id" = Some (VInt n) -> n < next_id tbl.
Proof.
  unfold next_id. induction tbl as [|a tbl IH]; intros Hr Hn.
  - inversion Hr.
  - apply elem_of_cons in Hr as [<-|Hr]; simpl.
    + rewrite Hn. lia.
    + specialize (IH Hr Hn). destruct (a !! "id") as [[k|]|]; lia.
Qed.

Lemma filter_by_spec kw r : filter_by kw r = true <-> kw ⊆ r.
Proof. unfold filter_by. apply bool_decide_eq_true. Qed.

Lemma filter_by_fresh kw v :
  kw !! "id" = None -> filter_by kw (<["id" := v]> kw) = true.
Proof. intros H. apply filter_by_spec. by apply insert_subseteq. Qed.

(** A row that collides with the new one on a unique column set covering
    the keywords is a row the lookup would have found. *)
Lemma collides_matches kw new r u :
  kw ⊆ new -> (forall c, is_Some (kw !! c) -> c ∈ u) ->
  collides new r u = true -> kw ⊆ r.
Proof.
  intros Hsub Hin Hcol. apply map_subseteq_spec. intros c v Hc.
  unfold collides in Hcol. rewrite forallb_forall in Hcol.
  assert (Hcu : c ∈ u) by (apply Hin; eauto).
  apply list_elem_of_In in Hcu. specialize (Hcol c Hcu).
  rewrite (lookup_weaken _ _ _ _ Hc Hsub) in Hcol.
  destruct (r !! c) as [b|]; [|discriminate].
  apply bool_decide_eq_true in Hcol. by subst.
Qed.

(** With the keywords inside every unique column set, an insert that
    follows a failed lookup meets no constraint. *)
Lemma db_insert_after_miss m kw tbl :
  find (filter_by kw) tbl = None -> kw !! "id" = None -> key_within m kw ->
  db_insert m kw tbl
  = Some (tbl ++ [<["id" := VInt (next_id tbl)]> kw],
          <["id" := VInt (next_id tbl)]> kw).
Proof.
  intros Hmiss Hid Hkey. unfold db_insert. rewrite Hid.
  set (new := <["id" := VInt (next_id tbl)]> kw).
  assert (Hv : violates m new tbl = false); [|by rewrite Hv].
  unfold violates. apply not_true_is_false. intros Hex.
  apply existsb_exists in Hex as (r & Hr & Hex).
  apply list_elem_of_In in Hr.
  apply existsb_exists in Hex as (u & Hu & Hcol).
  apply list_elem_of_In in Hu. apply elem_of_cons in Hu as [->|Hu].
  - simpl in Hcol. unfold new in Hcol. rewrite lookup_insert_eq in Hcol.
    destruct (r !! "id") as [b|] eqn:Hb; [|discriminate].
    rewrite andb_true_r in Hcol. apply bool_decide_eq_true in Hcol.
    subst b. pose proof (next_id_above _ _ _ Hr Hb). lia.
  - assert (Hsub : kw ⊆ r).
    { eapply collides_matches; [| |exact Hcol].
      - by apply insert_subseteq.
      - intros c Hc. by eapply Hkey. }
    apply filter_by_spec in Hsub.
    rewrite (find_missing _ _ _ Hmiss Hr) in Hsub. discriminate.
Qed.

(** A uniqueness failure on a set that covers the keywords leaves a row
    the lookup finds. *)
Lemma db_insert_conflict m kw tbl :
  kw !! "id" = None -> key_within m kw ->
  db_insert m kw tbl = None ->
  exists r, find (filter_by kw) tbl = Some r.
Proof.
  intros Hid Hkey Hins.
  destruct (find (filter_by kw) tbl) as [r|] eqn:Hf; [eauto|].
  rewrite (db_insert_after_miss _ _ _ Hf Hid Hkey) in Hins. discriminate.
Qed.

Lemma table_insert_same db m tbl :
  table (<[tablename m := tbl]> db) m = tbl.
Proof. unfold table. by rewrite lookup_insert_eq. Qed.

Lemma table_insert_other db m m' tbl :
  tablename m <> tablename m' ->
  table (<[tablename m := tbl]> db) m' = table db m'.
Proof. intros H. unfold table. by rewrite lookup_insert_ne. Qed.

End StoreFacts.

(** ** Find-or-create *)

Section GetOrCreateFacts.

Implicit Types (r kw : gmap string value) (m : model).
Implicit Types (db : gmap string (list (gmap string value))).

Lemma grows_refl db : grows db db.
Proof. intros m. exists []. by rewrite app_nil_r. Qed.

Lemma grows_trans db1 db2 db3 : grows db1 db2 -> grows db2 db3 -> grows db1 db3.
Proof.
  intros H12 H23 m. destruct (H12 m) as [e1 E1], (H23 m) as [e2 E2].
  exists (e1 ++ e2). by rewrite E2, E1, app_assoc.
Qed.

Lemma grows_query db db' m kw r :
  grows db db' -> query_first db m kw = Some r ->
  query_first db' m kw = Some r.
Proof.
  intros Hg Hq. unfold query_first in *. destruct (Hg m) as [e ->].
  by apply find_app_found.
Qed.

Lemma grows_append db m r :
  grows db (<[tablename m := table db m ++ [r]]> db).
Proof.
  intros m'. destruct (decide (tablename m = tablename m')) as [E|N].
  - exists [r]. unfold table at 1. rewrite E, lookup_insert_eq. simpl.
    unfold table. by rewrite E.
  - exists []. rewrite table_insert_other by done. by rewrite app_nil_r.
Qed.

Lemma has_ids_append db m r :
  has_ids db -> is_Some (r !! "id") ->
  has_ids (<[tablename m := table db m ++ [r]]> db).
Proof.
  intros Hdb Hr t rows x Ht Hx.
  destruct (decide (tablename m = t)) as [<-|N].
  - rewrite lookup_insert_eq in Ht. injection Ht as <-.
    apply elem_of_app in Hx as [Hx|Hx].
    + unfold table in Hx. destruct (db !! tablename m) as [rows|] eqn:E.
      * eapply Hdb; eauto.
      * inversion Hx.
    + apply list_elem_of_singleton in Hx as ->. exact Hr.
  - rewrite lookup_insert_ne in Ht by done. eapply Hdb; eauto.
Qed.

Lemma has_ids_query db m kw r :
  has_ids db -> query_first db m kw = Some r -> is_Some (r !! "id").
Proof.
  intros Hdb Hq. unfold query_first in Hq. apply find_found in Hq as [Hin _].
  unfold table in Hin. destruct (db !! tablename m) as [rows|] eqn:E.
  - eapply Hdb; eauto.
  - inversion Hin.
Qed.

(** A lookup that finds a row returns it and touches nothing. *)
Lemma get_or_create_found m defaults kw w r :
  query_first (committed w) m kw = Some r ->
  get_or_create m defaults kw w = (inr (Some r, false), w).
Proof.
  intros Hq. unfold get_or_create, bind, session_query_first.
  by rewrite Hq.
Qed.

(** With nobody else writing, a lookup that misses inserts the row. *)
Lemma get_or_create_missing m kw db :
  kw !! "id" = None -> key_within m kw ->
  query_first db m kw = None ->
  get_or_create m None kw (World db [])
  = (inr (Some (<["id" := VInt (next_id (table db m))]> kw), true),
     World (<[tablename m := table db m
                ++ [<["id" := VInt (next_id (table db m))]> kw]]> db) []).
Proof.
  intros Hid Hkey Hq.
  unfold get_or_create, bind, try_except, session_query_first,
    session_add_commit, ret. simpl.
  rewrite Hq. simpl. rewrite (left_id_L ∅ (∪)).
  unfold query_first in Hq.
  by rewrite (db_insert_after_miss _ _ _ Hq Hid Hkey).
Qed.

(** What one quiet find-or-create does to the store. *)
Lemma get_or_create_quiet m kw db :
  kw !! "id" = None -> key_within m kw ->
  exists r created db',
    get_or_create m None kw (World db []) = (inr (Some r, created), World db' [])
    /\ query_first db' m kw = Some r
    /\ grows db db'
    /\ (has_ids db -> has_ids db')
    /\ (forall m', tablename m <> tablename m' -> table db' m' = table db m')
    /\ (if created then query_first db m kw = None else db' = db).
Proof.
  intros Hid Hkey. destruct (query_first db m kw) as [r|] eqn:Hq.
  - exists r, false, db. split; [|split; [|split; [|split; [|split]]]]; auto.
    + by apply (get_or_create_found m None kw (World db [])).
    + apply grows_refl.
  - eexists _, true, _.
    split; [by apply get_or_create_missing|].
    split; [|split; [|split; [|split]]]; auto.
    + unfold query_first. rewrite table_insert_same.
      unfold query_first in Hq. rewrite (find_app_missing _ _ _ Hq). simpl.
      by rewrite filter_by_fresh.
    + apply grows_append.
    + intros Hdb. apply has_ids_append; [done|].
      rewrite lookup_insert_eq. eauto.
    + intros m' Hne. by apply table_insert_other.
Qed.

Lemma session_add_commit_run m params db evs ev rest :
  next_event evs = (ev, rest) -> (forall msg, ev <> Fault msg) ->
  session_add_commit m params (World db evs)
  = match db_insert m params (table (concurrent_write ev db) m) with
    | None => (inl IntegrityError, World (concurrent_write ev db) rest)
    | Some (tbl', new) =>
        (inr new, World (<[tablename m := tbl']> (concurrent_write ev db)) rest)
    end.
Proof.
  intros Hev Hnf. unfold session_add_commit. cbn [committed env].
  rewrite Hev. destruct ev as [|m' cols|msg]; [| |by destruct (Hnf msg)];
    reflexivity.
Qed.

Lemma get_or_create_miss m defaults kw w :
  query_first (committed w) m kw = None ->
  get_or_create m defaults kw w
  = match session_add_commit m (default ∅ defaults ∪ kw) w with
    | (inr new, w') => (inr (Some new, true), w')
    | (inl IntegrityError, w') =>
        (inr (query_first (committed w') m kw, false), w')
    | (inl e, w') => (inl e, w')
    end.
Proof.
  intros Hq. unfold get_or_create, bind, try_except, session_query_first.
  rewrite Hq.
  destruct (session_add_commit m (default ∅ defaults ∪ kw) w)
    as [[e|new] w']; [destruct e|]; reflexivity.
Qed.

(** C2: the contract of find-or-create.  A lookup that finds a row
    returns it with created=False and changes nothing.  A lookup that
    misses inserts and commits a new row and returns it with created=True
    (and with nobody else writing, a miss on the natural key always ends
    this way).  When the insert meets a uniqueness failure, the session is
    rolled back, the key is looked up again and that result is returned
    with created=False: nothing is raised, our row is not stored, and when
    the keywords are the natural key the second lookup does find a row. *)
Theorem get_or_create_contract m defaults kw db evs :
  (forall r, query_first db m kw = Some r ->
     get_or_create m defaults kw (World db evs)
     = (inr (Some r, false), World db evs))
  /\ (forall ev rest tbl' new,
        query_first db m kw = None -> next_event evs = (ev, rest) ->
        (forall msg, ev <> Fault msg) ->
        db_insert m (default ∅ defaults ∪ kw)
          (table (concurrent_write ev db) m) = Some (tbl', new) ->
        get_or_create m defaults kw (World db evs)
        = (inr (Some new, true),
           World (<[tablename m := tbl']> (concurrent_write ev db)) rest))
  /\ (forall ev rest,
        query_first db m kw = None -> next_event evs = (ev, rest) ->
        (forall msg, ev <> Fault msg) ->
        db_insert m (default ∅ defaults ∪ kw)
          (table (concurrent_write ev db) m) = None ->
        get_or_create m defaults kw (World db evs)
        = (inr (query_first (concurrent_write ev db) m kw, false),
           World (concurrent_write ev db) rest)
        /\ (defaults = None -> kw !! "id" = None -> key_within m kw ->
            is_Some (query_first (concurrent_write ev db) m kw)))
  /\ (query_first db m kw = None -> evs = [] -> defaults = None ->
      kw !! "id" = None -> key_within m kw ->
      let new := <["id" := VInt (next_id (table db m))]> kw in
      get_or_create m defaults kw (World db evs)
      = (inr (Some new, true),
         World (<[tablename m := table db m ++ [new]]> db) [])
      /\ kw ⊆ new).
Proof.
  split; [intros r Hq; by apply (get_or_create_found m defaults kw (World db evs))|].
  split.
  { intros ev rest tbl' new Hq Hev Hnf Hins.
    rewrite get_or_create_miss by exact Hq.
    by rewrite (session_add_commit_run _ _ _ _ _ _ Hev Hnf), Hins. }
  split.
  { intros ev rest Hq Hev Hnf Hins. split.
    - rewrite get_or_create_miss by exact Hq.
      by rewrite (session_add_commit_run _ _ _ _ _ _ Hev Hnf), Hins.
    - intros -> Hid Hkey. simpl in Hins. rewrite (left_id_L ∅ (∪)) in Hins.
      destruct (db_insert_conflict _ _ _ Hid Hkey Hins) as [r Hr].
      exists r. exact Hr. }
  intros Hq -> -> Hid Hkey. split.
  - by apply get_or_create_missing.
  - by apply insert_subseteq.
Qed.

End GetOrCreateFacts.

(** ** The importer, row by row *)

Section ImporterFacts.

Implicit Types (r kw : gmap string value) (m : model) (st : importer).
Implicit Types (db : gmap string (list (gmap string value))).

Lemma bind_ok {S A B} (c : M S A) (k : A -> M S B) s a s' :
  c s = (inr a, s') -> bind c k s = k a s'.
Proof. intros H. unfold bind. by rewrite H. Qed.


Lemma with_session_run {A} (c : M world A) w w' x p cs e :
  c w = (x, w') ->
  with_session c (Importer w p cs e) = (x, Importer w' p cs e).
Proof. intros H. unfold with_session. simpl. by rewrite H. Qed.

Lemma attr_ok {S} r col v (s : S) :
  r !! col = Some v -> attr (Some r) col s = (inr v, s).
Proof. intros H. unfold attr. by rewrite H. Qed.

Lemma key_subject a :
  ({[ "name" := VStr a ]} : gmap string value) !! "id" = None
  /\ key_within Subject {[ "name" := VStr a ]}
  /\ key_within Grade {[ "name" := VStr a ]}.
Proof.
  split; [done|]. split; intros u c Hu [v Hc];
    apply lookup_singleton_Some in Hc as [<- _];
    apply list_elem_of_singleton in Hu as ->; set_solver.
Qed.

Lemma key_strand a sid gid :
  (<["name" := VStr a]> (<["subject_id" := sid]> {[ "grade_id" := gid ]})
     : gmap string value) !! "id" = None
  /\ key_within Strand
       (<["name" := VStr a]> (<["subject_id" := sid]> {[ "grade_id" := gid ]})).
Proof.
  split; [done|]. intros u c Hu [v Hc].
  apply list_elem_of_singleton in Hu as ->.
  apply lookup_insert_Some in Hc as [[<- _]|[_ Hc]]; [set_solver|].
  apply lookup_insert_Some in Hc as [[<- _]|[_ Hc]]; [set_solver|].
  apply lookup_singleton_Some in Hc as [<- _]. set_solver.
Qed.

Lemma key_substrand a stid :
  (<["name" := VStr a]> {[ "strand_id" := stid ]} : gmap string value)
    !! "id" = None
  /\ key_within SubStrand (<["name" := VStr a]> {[ "strand_id" := stid ]}).
Proof.
  split; [done|]. intros u c Hu [v Hc].
  apply list_elem_of_singleton in Hu as ->.
  apply lookup_insert_Some in Hc as [[<- _]|[_ Hc]]; [set_solver|].
  apply lookup_singleton_Some in Hc as [<- _]. set_solver.
Qed.

Lemma key_item col ssid text :
  col <> "id" ->
  (<["substrand_id" := ssid]> {[ col := VStr text ]} : gmap string value)
    !! "id" = None
  /\ key_within LearningOutcome
       (<["substrand_id" := ssid]> {[ col := VStr text ]})
  /\ key_within KeyInquiryQuestion
       (<["substrand_id" := ssid]> {[ col := VStr text ]}).
Proof.
  intros Hcol. split.
  - rewrite lookup_insert_ne by done. by apply lookup_singleton_ne.
  - split; intros u c Hu; inversion Hu.
Qed.

Lemma resolve_hierarchy_replay a b c d subject grade strand substrand st :
  resolved (committed (session st)) a b c d subject grade strand substrand ->
  resolve_hierarchy a b c d st = (inr (Some substrand), st).
Proof.
  intros (sid & gid & stid & H1 & I1 & H2 & I2 & H3 & I3 & H4).
  destruct st as [w p cs e]. simpl in *.
  unfold resolve_hierarchy.
  erewrite bind_ok
    by (apply with_session_run, get_or_create_found; exact H1).
  cbv beta iota. unfold count_created at 1.
  erewrite bind_ok by reflexivity. simpl bump. cbv beta iota.
  erewrite bind_ok
    by (apply with_session_run, get_or_create_found; exact H2).
  cbv beta iota. unfold count_created at 1.
  erewrite bind_ok by reflexivity. simpl bump.
  erewrite bind_ok by (apply attr_ok; exact I1).
  erewrite bind_ok by (apply attr_ok; exact I2).
  erewrite bind_ok
    by (apply with_session_run, get_or_create_found; exact H3).
  cbv beta iota. unfold count_created at 1.
  erewrite bind_ok by reflexivity. simpl bump.
  erewrite bind_ok by (apply attr_ok; exact I3).
  erewrite bind_ok
    by (apply with_session_run, get_or_create_found; exact H4).
  cbv beta iota. unfold count_created at 1.
  erewrite bind_ok by reflexivity. reflexivity.
Qed.

Lemma query_first_table db db' m kw :
  table db' m = table db m -> query_first db' m kw = query_first db m kw.
Proof. intros H. unfold query_first. by rewrite H. Qed.

Lemma resolve_hierarchy_quiet a b c d db p cs e :
  has_ids db ->
  exists subject grade strand substrand sid gid stid ssid c1 c2 c3 c4 db4,
    resolve_hierarchy a b c d (Importer (World db []) p cs e)
    = (inr (Some substrand),
       Importer (World db4 []) p
         (bump "SubStrand" c4
            (bump "Strand" c3 (bump "Grade" c2 (bump "Subject" c1 cs)))) e)
    /\ resolved db4 a b c d subject grade strand substrand
    /\ subject !! "id" = Some sid /\ grade !! "id" = Some gid
    /\ strand !! "id" = Some stid /\ substrand !! "id" = Some ssid
    /\ grows db db4 /\ has_ids db4
    /\ table db4 LearningOutcome = table db LearningOutcome
    /\ table db4 KeyInquiryQuestion = table db KeyInquiryQuestion
    /\ was_new db Subject {[ "name" := VStr a ]} c1 subject
    /\ was_new db Grade {[ "name" := VStr b ]} c2 grade
    /\ was_new db Strand
         (<["name" := VStr c]> (<["subject_id" := sid]> {[ "grade_id" := gid ]}))
         c3 strand
    /\ was_new db SubStrand
         (<["name" := VStr d]> {[ "strand_id" := stid ]}) c4 substrand
    /\ (c1 || c2 || c3 || c4 = false -> db4 = db).
Proof.
  intros Hdb.
  destruct (key_subject a) as (Ka1 & Ka2 & _).
  destruct (key_subject b) as (Kb1 & _ & Kb2).
  destruct (get_or_create_quiet Subject _ db Ka1 Ka2)
    as (subject & c1 & db1 & E1 & Q1 & G1 & W1 & F1 & N1).
  destruct (get_or_create_quiet Grade _ db1 Kb1 Kb2)
    as (grade & c2 & db2 & E2 & Q2 & G2 & W2 & F2 & N2).
  pose proof (W1 Hdb) as Hdb1. pose proof (W2 Hdb1) as Hdb2.
  destruct (has_ids_query _ _ _ _ Hdb1 Q1) as [sid I1].
  destruct (has_ids_query _ _ _ _ Hdb2 Q2) as [gid I2].
  destruct (key_strand c sid gid) as (Kc1 & Kc2).
  destruct (get_or_create_quiet Strand _ db2 Kc1 Kc2)
    as (strand & c3 & db3 & E3 & Q3 & G3 & W3 & F3 & N3).
  pose proof (W3 Hdb2) as Hdb3.
  destruct (has_ids_query _ _ _ _ Hdb3 Q3) as [stid I3].
  destruct (key_substrand d stid) as (Kd1 & Kd2).
  destruct (get_or_create_quiet SubStrand _ db3 Kd1 Kd2)
    as (substrand & c4 & db4 & E4 & Q4 & G4 & W4 & F4 & N4).
  pose proof (W4 Hdb3) as Hdb4.
  destruct (has_ids_query _ _ _ _ Hdb4 Q4) as [ssid I4].
  exists subject, grade, strand, substrand, sid, gid, stid, ssid,
    c1, c2, c3, c4, db4.
  split.
  { unfold resolve_hierarchy.
    erewrite bind_ok by (apply with_session_run; exact E1).
    cbv beta iota. unfold count_created at 1.
    erewrite bind_ok by reflexivity. cbn [session processed_count created_counts error_count].
    erewrite bind_ok by (apply with_session_run; exact E2).
    cbv beta iota. unfold count_created at 1.
    erewrite bind_ok by reflexivity. cbn [session processed_count created_counts error_count].
    erewrite bind_ok by (apply attr_ok; exact I1).
    erewrite bind_ok by (apply attr_ok; exact I2).
    erewrite bind_ok by (apply with_session_run; exact E3).
    cbv beta iota. unfold count_created at 1.
    erewrite bind_ok by reflexivity. cbn [session processed_count created_counts error_count].
    erewrite bind_ok by (apply attr_ok; exact I3).
    erewrite bind_ok by (apply with_session_run; exact E4).
    cbv beta iota. unfold count_created at 1.
    erewrite bind_ok by reflexivity. reflexivity. }
  split.
  { exists sid, gid, stid. repeat split; auto.
    - eapply grows_query; [|exact Q1].
      eapply grows_trans; [exact G2|]. eapply grows_trans; eauto.
    - eapply grows_query; [|exact Q2]. eapply grows_trans; eauto.
    - eapply grows_query; [|exact Q3]. exact G4. }
  repeat (split; [assumption|]).
  split. { eapply grows_trans; [exact G1|]. eapply grows_trans; [exact G2|].
           eapply grows_trans; eauto. }
  split; [assumption|].
  split. { rewrite F4, F3, F2, F1 by done. reflexivity. }
  split. { rewrite F4, F3, F2, F1 by done. reflexivity. }
  assert (T2 : table db1 Grade = table db Grade) by (by apply F1).
  assert (T3 : table db2 Strand = table db Strand)
    by (rewrite F2, F1 by done; reflexivity).
  assert (T4 : table db3 SubStrand = table db SubStrand)
    by (rewrite F3, F2, F1 by done; reflexivity).
  split.
  { unfold was_new. destruct c1; [exact N1|]. subst db1. exact Q1. }
  split.
  { unfold was_new. rewrite <- (query_first_table _ _ _ _ T2).
    destruct c2; [exact N2|]. subst db2. exact Q2. }
  split.
  { unfold was_new. rewrite <- (query_first_table _ _ _ _ T3).
    destruct c3; [exact N3|]. subst db3. exact Q3. }
  split.
  { unfold was_new. rewrite <- (query_first_table _ _ _ _ T4).
    destruct c4; [exact N4|]. subst db4. exact Q4. }
  destruct c1, c2, c3, c4; simpl; try discriminate. intros _.
  by subst.
Qed.

Lemma field_ok {S} row col v (s : S) :
  field_is row col v -> field row col s = (inr v, s).
Proof. intros (x & H & <-). unfold field. by rewrite H. Qed.

Lemma import_row_body_valid row a b c d ty tx st :
  valid_row row a b c d ty tx ->
  import_row_body row st
  = bind (resolve_hierarchy a b c d)
      (fun substrand => import_item substrand ty tx) st.
Proof.
  intros (H1 & H2 & H3 & H4 & H5 & H6 & Hne). unfold import_row_body.
  erewrite bind_ok by (by apply field_ok).
  erewrite bind_ok by (by apply field_ok).
  erewrite bind_ok by (by apply field_ok).
  erewrite bind_ok by (by apply field_ok).
  erewrite bind_ok by (by apply field_ok).
  erewrite bind_ok by (by apply field_ok).
  by rewrite Hne.
Qed.

Lemma import_row_run row st (res : exn + unit) st' :
  import_row_body row
    (Importer (session st) (S (processed_count st)) (created_counts st)
       (error_count st)) = (res, st') ->
  import_row row st
  = (inr tt,
     match res with
     | inr _ => st'
     | inl _ => Importer (session st') (processed_count st')
                  (created_counts st') (S (error_count st'))
     end).
Proof.
  intros H. unfold import_row, incr_processed, bind, try_except.
  rewrite H. destruct res as [e|[]]; [|reflexivity].
  unfold with_session, session_rollback, incr_error. reflexivity.
Qed.

(** A learning-outcome or key-inquiry item on a quiet store. *)
Lemma import_item_quiet m kind col substrand ssid ty tx db p cs e :
  (m = LearningOutcome /\ kind = "LearningOutcome" /\ col = "description"
   \/ m = KeyInquiryQuestion /\ kind = "KeyInquiryQuestion"
      /\ col = "question_text") ->
  ty = kind -> substrand !! "id" = Some ssid ->
  exists item c5 db5,
    import_item (Some substrand) ty tx (Importer (World db []) p cs e)
    = (inr tt, Importer (World db5 []) p (bump kind c5 cs) e)
    /\ query_first db5 m (<["substrand_id" := ssid]> {[ col := VStr tx ]})
       = Some item
    /\ grows db db5
    /\ (if c5 then query_first db m
                    (<["substrand_id" := ssid]> {[ col := VStr tx ]}) = None
        else db5 = db).
Proof.
  intros Hm -> Hid.
  assert (Hcol : col <> "id") by (destruct Hm as [(_&_&->)|(_&_&->)]; done).
  destruct (key_item col ssid tx Hcol) as (K1 & K2 & K3).
  assert (Hk : key_within m (<["substrand_id" := ssid]> {[ col := VStr tx ]}))
    by (destruct Hm as [(->&_&_)|(->&_&_)]; assumption).
  destruct (get_or_create_quiet m _ db K1 Hk)
    as (item & c5 & db5 & E5 & Q5 & G5 & _ & _ & N5).
  exists item, c5, db5. split; [|auto].
  unfold import_item.
  destruct Hm as [(-> & -> & ->)|(-> & -> & ->)].
  - rewrite String.eqb_refl.
    erewrite bind_ok by (apply attr_ok; exact Hid).
    erewrite bind_ok by (apply with_session_run; exact E5).
    reflexivity.
  - assert (String.eqb "KeyInquiryQuestion" "LearningOutcome" = false)
      as -> by reflexivity.
    rewrite String.eqb_refl.
    erewrite bind_ok by (apply attr_ok; exact Hid).
    erewrite bind_ok by (apply with_session_run; exact E5).
    reflexivity.
Qed.

Lemma import_item_other substrand ty tx st :
  ty <> "LearningOutcome" -> ty <> "KeyInquiryQuestion" ->
  import_item substrand ty tx st
  = (inr tt, Importer (session st) (processed_count st) (created_counts st)
               (S (error_count st))).
Proof.
  intros H1 H2. unfold import_item.
  apply String.eqb_neq in H1, H2. by rewrite H1, H2.
Qed.

Lemma resolved_grows db db' a b c d subject grade strand substrand :
  grows db db' -> resolved db a b c d subject grade strand substrand ->
  resolved db' a b c d subject grade strand substrand.
Proof.
  intros Hg (sid & gid & stid & H1 & I1 & H2 & I2 & H3 & I3 & H4).
  exists sid, gid, stid. repeat split; eauto using grows_query.
Qed.

Lemma import_item_found m kind col substrand ssid ty tx st item :
  (m = LearningOutcome /\ kind = "LearningOutcome" /\ col = "description"
   \/ m = KeyInquiryQuestion /\ kind = "KeyInquiryQuestion"
      /\ col = "question_text") ->
  ty = kind -> substrand !! "id" = Some ssid ->
  query_first (committed (session st)) m
    (<["substrand_id" := ssid]> {[ col := VStr tx ]}) = Some item ->
  import_item (Some substrand) ty tx st = (inr tt, st).
Proof.
  intros Hm -> Hid Hq. destruct st as [w p cs e]. simpl in Hq.
  unfold import_item.
  destruct Hm as [(-> & -> & ->)|(-> & -> & ->)].
  - rewrite String.eqb_refl.
    erewrite bind_ok by (apply attr_ok; exact Hid).
    erewrite bind_ok
      by (apply with_session_run, get_or_create_found; exact Hq).
    reflexivity.
  - assert (String.eqb "KeyInquiryQuestion" "LearningOutcome" = false)
      as -> by reflexivity.
    rewrite String.eqb_refl.
    erewrite bind_ok by (apply attr_ok; exact Hid).
    erewrite bind_ok
      by (apply with_session_run, get_or_create_found; exact Hq).
    reflexivity.
Qed.

Lemma query_first_empty m kw : query_first ∅ m kw = None.
Proof. reflexivity. Qed.

Lemma import_one_row path row w :
  import_curriculum path (CsvFile (Some required_columns) [row]) w
  = match import_row row (Importer w 0 initial_counts 0) with
    | (_, st) =>
        (Summary (processed_count st) (created_counts st) (error_count st),
         session st)
    end.
Proof.
  unfold import_curriculum.
  assert (forallb (fun col => bool_decide (col ∈ required_columns))
            required_columns = true) as -> by reflexivity.
  simpl negb. cbv iota. simpl import_rows. unfold bind, ret.
  destruct (import_row row _) as [[ex|[]] st] eqn:E; [|reflexivity].
  unfold import_row, bind, try_except, incr_processed in E.
  destruct (import_row_body row _) as [[?|?] ?]; discriminate.
Qed.

(** C1: importing the same learning-outcome row a second time creates
    nothing.  On a store whose rows have primary keys and with nobody else
    writing, the first run of the importer on a row with six non-empty
    fields ends without error in some store; the second run on that store
    reports no created item of any kind, no error, and leaves the store as
    it is.  Started on the empty store, the first run creates each of
    Subject, Grade, Strand, SubStrand and LearningOutcome once. *)
Theorem import_twice_creates_nothing path db row a b c d tx :
  has_ids db -> valid_row row a b c d "LearningOutcome" tx ->
  exists counts db1,
    import_curriculum path (CsvFile (Some required_columns) [row])
      (World db [])
    = (Summary 1 counts 0, World db1 [])
    /\ import_curriculum path (CsvFile (Some required_columns) [row])
         (World db1 [])
       = (Summary 1 initial_counts 0, World db1 [])
    /\ (db = ∅ ->
        counts = <["LearningOutcome" := 1%nat]>
                   (<["SubStrand" := 1%nat]>
                      (<["Strand" := 1%nat]>
                         (<["Grade" := 1%nat]>
                            (<["Subject" := 1%nat]> initial_counts))))).
Proof.
  intros Hdb Hrow.
  destruct (resolve_hierarchy_quiet a b c d db 1 initial_counts 0 Hdb)
    as (subject & grade & strand & substrand & sid & gid & stid & ssid
        & c1 & c2 & c3 & c4 & db4 & E4 & R4 & I1 & I2 & I3 & I4 & G4 & W4
        & TL & TK & N1 & N2 & N3 & N4 & Same).
  destruct (import_item_quiet LearningOutcome "LearningOutcome" "description"
              substrand ssid "LearningOutcome" tx db4 1
              (bump "SubStrand" c4 (bump "Strand" c3
                 (bump "Grade" c2 (bump "Subject" c1 initial_counts)))) 0)
    as (item & c5 & db5 & E5 & Q5 & G5 & N5); auto.
  eexists _, db5. split; [|split].
  - rewrite import_one_row.
    erewrite import_row_run;
      [|rewrite (import_row_body_valid _ _ _ _ _ _ _ _ Hrow);
        erewrite bind_ok by exact E4; exact E5].
    reflexivity.
  - assert (R5 : resolved db5 a b c d subject grade strand substrand)
      by (eapply resolved_grows; eauto).
    rewrite import_one_row.
    erewrite import_row_run;
      [|rewrite (import_row_body_valid _ _ _ _ _ _ _ _ Hrow);
        erewrite bind_ok
          by (by apply (resolve_hierarchy_replay a b c d subject grade
                          strand substrand));
        eapply (import_item_found LearningOutcome); eauto].
    reflexivity.
  - intros ->. unfold was_new in *.
    destruct c1; [|by rewrite query_first_empty in N1].
    destruct c2; [|by rewrite query_first_empty in N2].
    destruct c3; [|by rewrite query_first_empty in N3].
    destruct c4; [|by rewrite query_first_empty in N4].
    destruct c5; [reflexivity|]. subst db5.
    rewrite (query_first_table _ _ _ _ TL), query_first_empty in Q5.
    discriminate.
Qed.


















Lemma bump_count kind created cs kind' :
  bump kind created cs !!! kind'
  = if decide (kind = kind')
    then (cs !!! kind' + if created then 1 else 0)%nat
    else cs !!! kind'.
Proof.
  unfold bump. destruct created.
  - destruct (decide (kind = kind')) as [->|N].
    + rewrite lookup_total_insert_eq. lia.
    + by rewrite lookup_total_insert_ne.
  - destruct (decide (kind = kind')); [lia|done].
Qed.

(** C10: a row is not atomic across the levels.  When the six fields are
    non-empty but the ItemType is neither LearningOutcome nor
    KeyInquiryQuestion, the row counts as an error, and still its Subject,
    Grade, Strand and SubStrand are in the committed store afterwards; the
    created count of each of these four kinds has gone up by one exactly
    when the level was not there before, the counts of LearningOutcome and
    KeyInquiryQuestion are what they were, and no learning outcome and no
    key inquiry question is stored. *)
Theorem invalid_item_type_keeps_hierarchy db row a b c d ty tx p cs e :
  has_ids db -> valid_row row a b c d ty tx ->
  ty <> "LearningOutcome" -> ty <> "KeyInquiryQuestion" ->
  exists subject grade strand substrand sid gid stid c1 c2 c3 c4 db4 cs4,
    import_row row (Importer (World db []) p cs e)
    = (inr tt, Importer (World db4 []) (S p) cs4 (S e))
    /\ resolved db4 a b c d subject grade strand substrand
    /\ subject !! "id" = Some sid /\ grade !! "id" = Some gid
    /\ strand !! "id" = Some stid
    /\ was_new db Subject {[ "name" := VStr a ]} c1 subject
    /\ was_new db Grade {[ "name" := VStr b ]} c2 grade
    /\ was_new db Strand
         (<["name" := VStr c]> (<["subject_id" := sid]> {[ "grade_id" := gid ]}))
         c3 strand
    /\ was_new db SubStrand
         (<["name" := VStr d]> {[ "strand_id" := stid ]}) c4 substrand
    /\ grows db db4
    /\ table db4 LearningOutcome = table db LearningOutcome
    /\ table db4 KeyInquiryQuestion = table db KeyInquiryQuestion
    /\ cs4 !!! "Subject" = (cs !!! "Subject" + if c1 then 1 else 0)%nat
    /\ cs4 !!! "Grade" = (cs !!! "Grade" + if c2 then 1 else 0)%nat
    /\ cs4 !!! "Strand" = (cs !!! "Strand" + if c3 then 1 else 0)%nat
    /\ cs4 !!! "SubStrand" = (cs !!! "SubStrand" + if c4 then 1 else 0)%nat
    /\ cs4 !!! "LearningOutcome" = cs !!! "LearningOutcome"
    /\ cs4 !!! "KeyInquiryQuestion" = cs !!! "KeyInquiryQuestion".
Proof.
  intros Hdb Hrow T1 T2.
  destruct (resolve_hierarchy_quiet a b c d db (S p) cs e Hdb)
    as (subject & grade & strand & substrand & sid & gid & stid & ssid
        & c1 & c2 & c3 & c4 & db4 & E4 & R4 & I1 & I2 & I3 & I4 & G4 & W4
        & TL & TK & N1 & N2 & N3 & N4 & Same).
  exists subject, grade, strand, substrand, sid, gid, stid, c1, c2, c3, c4,
    db4.
  eexists. split.
  { erewrite import_row_run;
      [|rewrite (import_row_body_valid _ _ _ _ _ _ _ _ Hrow);
        erewrite bind_ok by exact E4;
        by apply import_item_other].
    reflexivity. }
  do 11 (split; [assumption|]).
  cbn [created_counts]. rewrite !bump_count.
  repeat split;
    repeat (first [rewrite decide_True by reflexivity
                  |rewrite decide_False by discriminate]);
    reflexivity.
Qed.

End ImporterFacts.

(** ** The single-outcome and full-test endpoints *)

Section PayloadFacts.

Implicit Types (db : gmap string (list (gmap string value))).
Implicit Types (fields : list (string * json)).

Lemma q_type_map_lookup k :
  q_type_map !! k
  = if decide (k = "mcq") then Some "multiple_choice"
    else if decide (k ∈ allowed_q) then Some k else None.
Proof.
  assert (E : q_type_map
              = <["mcq" := "multiple_choice"]>
                  (<["multiple_choice" := "multiple_choice"]>
                     (<["short_answer" := "short_answer"]>
                        (<["true_false" := "true_false"]>
                           {[ "fill_in_the_blank" := "fill_in_the_blank" ]}))))
    by reflexivity.
  rewrite E. clear E. unfold allowed_q.
  destruct (decide (k = "mcq")) as [->|N0]; [reflexivity|].
  rewrite lookup_insert_ne by done.
  destruct (decide (k = "multiple_choice")) as [->|N1];
    [reflexivity|rewrite lookup_insert_ne by done].
  destruct (decide (k = "short_answer")) as [->|N2];
    [reflexivity|rewrite lookup_insert_ne by done].
  destruct (decide (k = "true_false")) as [->|N3];
    [reflexivity|rewrite lookup_insert_ne by done].
  destruct (decide (k = "fill_in_the_blank")) as [->|N4];
    [reflexivity|rewrite lookup_singleton_ne by done].
  rewrite decide_False; [done|]. intros H.
  repeat (apply elem_of_cons in H as [H|H]; [done|]). inversion H.
Qed.

Lemma truthy_object fields k v :
  dict_get k fields = Some v -> truthy (JObj fields) = true.
Proof. destruct fields; [discriminate|done]. Qed.

Lemma all_in_object req fields :
  all_in req (JObj fields)
  = Some (forallb (fun f => bool_decide (is_Some (dict_get f fields))) req).
Proof.
  induction req as [|f req IH]; simpl; [done|].
  destruct (bool_decide _); [exact IH|done].
Qed.


Lemma mapped_kind k :
  k ∈ ["mcq"; "multiple_choice"; "short_answer"; "true_false";
       "fill_in_the_blank"] ->
  exists c rest,
    (if decide (k = "mcq") then "multiple_choice" else k) = String c rest
    /\ q_type_map !! k = Some (String c rest).
Proof.
  intros Hk. rewrite q_type_map_lookup.
  destruct (decide (k = "mcq")) as [->|N]; [by eexists _, _|].
  apply elem_of_cons in Hk as [->|Hk]; [done|].
  rewrite decide_True by exact Hk.
  repeat (apply elem_of_cons in Hk as [->|Hk]; [by eexists _, _|]).
  inversion Hk.
Qed.

Lemma fetch_context_reads db lo_id reads answer e :
  fetch_context db lo_id = (reads, answer) -> e ∈ reads ->
  exists t, e = StoreRead t.
Proof.
  unfold fetch_context.
  destruct (get_by_id db LearningOutcome (VInt lo_id)) as [lo|];
    [destruct (related db SubStrand lo "substrand_id") as [ss|];
     [destruct (related db Strand ss "strand_id") as [s|]|]|];
    intros [= <- _] H;
    repeat (apply elem_of_cons in H as [H|H]; [by eauto|]);
    inversion H.
Qed.

Lemma result_emit reads o : result (emit reads o) = result o.
Proof. reflexivity. Qed.

Lemma result_after e o : result (after e o) = result o.
Proof. reflexivity. Qed.

Lemma test_failure_trace e p : AiCall p ∉ trace (test_failure e).
Proof.
  simpl. intros H. apply list_elem_of_singleton in H. discriminate.
Qed.

End PayloadFacts.

Section QuestionFacts.

Context (py_int : json -> option Z) (repr : json -> string)
  (json_loads : string -> string + json)
  (ai_model : option (string -> exn + string)).

Local Notation questions_endpoint :=
  (generate_questions_endpoint py_int repr json_loads ai_model).

Implicit Types (db : gmap string (list (gmap string value))).
Implicit Types (fields : list (string * json)).

(** The head of the endpoint on an object that has the three fields. *)
Lemma questions_endpoint_fields db email fields a b c :
  dict_get "learning_outcome_id" fields = Some a ->
  dict_get "num_questions" fields = Some b ->
  dict_get "question_type" fields = Some c ->
  questions_endpoint db email (Some (JObj fields))
  = match py_int a, py_int b with
    | Some lo_id, Some num_q =>
        if negb ((0 <? num_q) && (num_q <=? 20)) then
          respond 400 (error_body "num_questions must be between 1 and 20")
        else
          match q_type_map !! lower (py_str repr c) with
          | None | Some EmptyString =>
              respond 400
                (error_body
                   "Unsupported question_type. Use one of: ['mcq', 'multiple_choice', 'short_answer', 'true_false', 'fill_in_the_blank']")
          | Some mapped_q_type =>
              match fetch_context db lo_id with
              | (reads, inl answer) => emit reads answer
              | (reads, inr (subject, grade, strand, substrand,
                             outcome_description)) =>
                  emit reads
                    (call_ai json_loads ai_model email lo_id
                       (question_prompt num_q mapped_q_type subject grade
                          strand substrand outcome_description))
              end
          end
    | None, _ => conversion_failure (int_error a)
    | Some _, None => conversion_failure (int_error b)
    end.
Proof.
  intros Ha Hb Hc. unfold generate_questions_endpoint.
  rewrite (truthy_object _ _ _ Ha). simpl negb. cbv iota.
  rewrite all_in_object. simpl forallb. rewrite Ha, Hb, Hc.
  rewrite !bool_decide_eq_true_2 by eauto. simpl andb. cbv iota.
  unfold parse_fields, subscript. rewrite Ha, Hb, Hc.
  destruct (py_int a) as [lo_id|]; [|reflexivity].
  destruct (py_int b) as [num_q|]; reflexivity.
Qed.

(** An object that lacks one of the three fields is turned away. *)
Lemma questions_endpoint_missing db email fields :
  fields <> [] ->
  forallb (fun f => bool_decide (is_Some (dict_get f fields)))
    ["learning_outcome_id"; "num_questions"; "question_type"] = false ->
  questions_endpoint db email (Some (JObj fields))
  = respond 400 (error_body "Missing required fields").
Proof.
  intros Hne Hmiss. unfold generate_questions_endpoint.
  destruct fields as [|f fields]; [done|]. simpl truthy. simpl negb.
  cbv iota. rewrite all_in_object, Hmiss. reflexivity.
Qed.

(** Once both numbers have converted, a count out of range or an unknown
    kind is answered 400 with an empty trace, whatever the store. *)
Lemma questions_endpoint_rejects email fields a b c lo_id num_q :
  dict_get "learning_outcome_id" fields = Some a ->
  dict_get "num_questions" fields = Some b ->
  dict_get "question_type" fields = Some c ->
  py_int a = Some lo_id -> py_int b = Some num_q ->
  ~ (1 <= num_q <= 20)
  \/ lower (py_str repr c)
     ∉ ["mcq"; "multiple_choice"; "short_answer"; "true_false";
        "fill_in_the_blank"] ->
  exists body, forall db,
    questions_endpoint db email (Some (JObj fields))
    = Outcome (Response 400 body) [].
Proof.
  intros Ha Hb Hc Ea Eb Hbad.
  destruct (negb ((0 <? num_q) && (num_q <=? 20))) eqn:Er;
    [eexists; intros db0;
     rewrite (questions_endpoint_fields db0 _ _ _ _ _ Ha Hb Hc), Ea, Eb, Er;
     reflexivity|].
  destruct Hbad as [Hout|Hq].
  - exfalso. apply negb_false_iff, andb_true_iff in Er as [E1 E2]. lia.
  - assert (Hk : q_type_map !! lower (py_str repr c) = None).
    { rewrite q_type_map_lookup.
      rewrite decide_False by (intros E; apply Hq; rewrite E; left).
      rewrite decide_False; [done|]. intros H. apply Hq. by right. }
    eexists; intros db0.
    rewrite (questions_endpoint_fields db0 _ _ _ _ _ Ha Hb Hc), Ea, Eb, Er, Hk.
    reflexivity.
Qed.

(** Validation comes before any lookup, for the requests whose two numbers
    convert: a count outside 1..20, or a kind that, lower-cased, is none of
    the five accepted names, is answered 400 with an empty trace (no read
    of the store, no AI call, no log record), and the answer is the same
    whatever the store holds. *)
Lemma rejected_before_lookup db email fields a b c lo_id num_q :
  dict_get "learning_outcome_id" fields = Some a ->
  dict_get "num_questions" fields = Some b ->
  dict_get "question_type" fields = Some c ->
  py_int a = Some lo_id -> py_int b = Some num_q ->
  ~ (1 <= num_q <= 20)
  \/ lower (py_str repr c)
     ∉ ["mcq"; "multiple_choice"; "short_answer"; "true_false";
        "fill_in_the_blank"] ->
  exists body,
    questions_endpoint db email (Some (JObj fields))
    = Outcome (Response 400 body) []
    /\ no_store_read (trace (questions_endpoint db email (Some (JObj fields))))
    /\ forall db',
         questions_endpoint db' email (Some (JObj fields))
         = questions_endpoint db email (Some (JObj fields)).
Proof.
  intros Ha Hb Hc Ea Eb Hbad.
  destruct (questions_endpoint_rejects email fields a b c lo_id num_q
              Ha Hb Hc Ea Eb Hbad) as [body Hbody].
  exists body. split; [apply Hbody|]. split.
  - rewrite Hbody. simpl. intros t Hin. inversion Hin.
  - intros db'. by rewrite !Hbody.
Qed.

(** A number that does not convert fails the request by the exception that
    [int] raises on it: caught when it is a ValueError or a TypeError, and
    otherwise left to escape, before the count and the kind are looked
    at. *)
Lemma questions_endpoint_unconverted db email fields a b c :
  dict_get "learning_outcome_id" fields = Some a ->
  dict_get "num_questions" fields = Some b ->
  dict_get "question_type" fields = Some c ->
  py_int a = None ->
  questions_endpoint db email (Some (JObj fields))
  = conversion_failure (int_error a).
Proof.
  intros Ha Hb Hc Ea.
  by rewrite (questions_endpoint_fields db _ _ _ _ _ Ha Hb Hc), Ea.
Qed.


(** A request that passes validation and whose context resolves reaches
    the AI call with the rendered prompt. *)
Lemma questions_endpoint_prompt db email fields a b kind lo_id num_q reads
  subject grade strand substrand description :
  dict_get "learning_outcome_id" fields = Some a ->
  dict_get "num_questions" fields = Some b ->
  dict_get "question_type" fields = Some (JStr kind) ->
  py_int a = Some lo_id -> py_int b = Some num_q ->
  1 <= num_q <= 20 ->
  lower kind ∈ ["mcq"; "multiple_choice"; "short_answer"; "true_false";
                "fill_in_the_blank"] ->
  fetch_context db lo_id
  = (reads, inr (subject, grade, strand, substrand, description)) ->
  questions_endpoint db email (Some (JObj fields))
  = emit reads
      (call_ai json_loads ai_model email lo_id
         (question_prompt num_q
            (if decide (lower kind = "mcq") then "multiple_choice"
             else lower kind)
            subject grade strand substrand description)).
Proof.
  intros Ha Hb Hc Ea Eb Hr Hk Hctx.
  rewrite (questions_endpoint_fields db _ _ _ _ _ Ha Hb Hc), Ea, Eb.
  assert ((0 <? num_q) && (num_q <=? 20) = true) as ->
    by (apply andb_true_iff; split; [apply Z.ltb_lt|apply Z.leb_le]; lia).
  simpl negb. cbv iota. simpl py_str.
  destruct (mapped_kind _ Hk) as (c & rest & -> & ->).
  by rewrite Hctx.
Qed.

Lemma parse_questions_trace email lo_id text e :
  e ∈ trace (parse_questions json_loads email lo_id text) ->
  exists level message, e = Log level message.
Proof.
  unfold parse_questions.
  destruct (negb (nonempty (clean_response_text text))).
  - simpl. intros H. apply list_elem_of_singleton in H. eauto.
  - destruct (json_loads (clean_response_text text)) as [err|v].
    + simpl. intros H. apply list_elem_of_singleton in H. eauto.
    + destruct v as [| | | | |items|]; simpl;
        try (intros H; apply list_elem_of_singleton in H; by eauto).
      destruct items; simpl; intros H;
        repeat (apply elem_of_cons in H as [H|H]; [by eauto|]);
        inversion H.
Qed.




(** C7: the shape check of single-outcome mode.  When the AI answers a
    validated request and its cleaned text decodes, a decoded value that
    is not a list fails the request (500, AI generation failed); a decoded
    list is returned with status 200, and for the empty list a warning is
    logged and no error is. *)
Theorem list_shape_is_checked db email fields a b kind lo_id num_q reads
  subject grade strand substrand description generate text v :
  dict_get "learning_outcome_id" fields = Some a ->
  dict_get "num_questions" fields = Some b ->
  dict_get "question_type" fields = Some (JStr kind) ->
  py_int a = Some lo_id -> py_int b = Some num_q ->
  1 <= num_q <= 20 ->
  lower kind ∈ ["mcq"; "multiple_choice"; "short_answer"; "true_false";
                "fill_in_the_blank"] ->
  fetch_context db lo_id
  = (reads, inr (subject, grade, strand, substrand, description)) ->
  ai_model = Some generate ->
  generate (question_prompt num_q
              (if decide (lower kind = "mcq") then "multiple_choice"
               else lower kind)
              subject grade strand substrand description) = inr text ->
  nonempty (clean_response_text text) = true ->
  json_loads (clean_response_text text) = inr v ->
  let answer := questions_endpoint db email (Some (JObj fields)) in
  (is_list v = false ->
   result answer
   = Response 500
       (error_details "AI generation failed."
          "AI response is not a JSON list."))
  /\ (forall items, v = JList items ->
      result answer = Response 200 (JList items))
  /\ (v = JList [] ->
      Log "warning"
        ("AI returned an empty JSON list [] for LO ID " +:+ pretty lo_id
         +:+ ".") ∈ trace answer
      /\ forall message, Log "error" message ∉ trace answer).
Proof.
  intros Ha Hb Hc Ea Eb Hr Hk Hctx Hai Hgen Hne Hv answer.
  assert (E : answer
              = emit reads
                  (after (AiCall (question_prompt num_q
                                    (if decide (lower kind = "mcq")
                                     then "multiple_choice" else lower kind)
                                    subject grade strand substrand
                                    description))
                     (parse_questions json_loads email lo_id text))).
  { unfold answer.
    rewrite (questions_endpoint_prompt db email _ _ _ _ _ _ _ _ _ _ _ _
               Ha Hb Hc Ea Eb Hr Hk Hctx).
    unfold call_ai. by rewrite Hai, Hgen. }
  rewrite E. clear E. unfold parse_questions. rewrite Hne, Hv.
  simpl negb. cbv iota.
  split; [|split].
  - intros Hl. by destruct v.
  - intros items ->. by destruct items.
  - intros ->. simpl. split.
    + apply elem_of_app. right. right. left.
    + intros message H. apply elem_of_app in H as [H|H].
      * destruct (fetch_context_reads _ _ _ _ _ Hctx H) as [t Ht].
        discriminate.
      * repeat (apply elem_of_cons in H as [H|H]; [discriminate|]).
        inversion H.
Qed.

End QuestionFacts.

Section FullTestFacts.

Context (repr : json -> string) (json_loads : string -> string + json)
  (ai_model : option (string -> exn + string))
  (bind_param : json -> option value).

Local Notation full_test_endpoint :=
  (generate_full_test_endpoint repr json_loads ai_model bind_param).

Implicit Types (db : gmap string (list (gmap string value))).
Implicit Types (fields : list (string * json)).

(** The loop only ever reads the store. *)
Lemma build_sections_reads db i topics e :
  e ∈ snd (build_sections repr bind_param db i topics) ->
  exists t, e = StoreRead t.
Proof.
  revert i. induction topics as [|topic topics IH]; intros i.
  - intros H. inversion H.
  - cbn [build_sections]. cbv zeta.
    destruct topic as [| | | | | |tf]; try (intros H; by inversion H).
    destruct (session_get _ _ _ _) as [ex|[strand|]].
    + intros H. apply list_elem_of_singleton in H. eauto.
    + destruct (outcomes_of_strand _ _ _) as [ex|los].
      * intros H.
        repeat (apply elem_of_cons in H as [H|H]; [by eauto|]).
        inversion H.
      * destruct los as [|lo los];
          [|destruct (descriptions (lo :: los)) as [texts|];
            [destruct (strand !! "name")|]];
          cbn [snd]; intros H;
          repeat (apply elem_of_cons in H as [H|H]; [by eauto|]);
          solve [eapply IH; exact H | inversion H].
    + cbn [snd]. intros H. apply elem_of_cons in H as [H|H]; eauto.
Qed.

Lemma build_sections_skipped db i topics :
  Forall
    (fun topic =>
       exists tf, topic = JObj tf
         /\ (session_get bind_param db Strand
               (default JNull (dict_get "strand_id" tf)) = inr None
             \/ (exists strand,
                   session_get bind_param db Strand
                     (default JNull (dict_get "strand_id" tf))
                   = inr (Some strand))
                /\ outcomes_of_strand bind_param db
                     (default JNull (dict_get "strand_id" tf)) = inr []))
    topics ->
  fst (build_sections repr bind_param db i topics) = inr EmptyString.
Proof.
  intros H. revert i. induction H as [|topic topics Ht _ IH]; intros i.
  - reflexivity.
  - destruct Ht as (tf & -> & [Hn|[[strand Hs] Ho]]);
      cbn [build_sections]; cbv zeta.
    + rewrite Hn. simpl. apply IH.
    + rewrite Hs, Ho. simpl. apply IH.
Qed.

Lemma parse_test_trace text p : AiCall p ∉ trace (parse_test json_loads text).
Proof.
  unfold parse_test. destruct (negb _); [simpl; by intros H; inversion H|].
  destruct (json_loads _); [apply test_failure_trace|].
  simpl. intros H. inversion H.
Qed.

Lemma send_test_trace subject grade sections p :
  AiCall p ∈ trace (send_test json_loads ai_model subject grade sections) ->
  sections <> EmptyString
  /\ exists grade_name subject_name,
       p = test_prompt grade_name subject_name sections.
Proof.
  unfold send_test. destruct sections as [|c sections]; simpl.
  - intros H. inversion H.
  - destruct (grade !! "name") as [g|];
      [destruct (subject !! "name") as [s|]|];
      try (intros H; by destruct (test_failure_trace _ _ H)).
    destruct ai_model as [generate|]; [|intros H; by inversion H].
    simpl. intros H. apply elem_of_cons in H as [[= ->]|H].
    + split; [done|]. eauto.
    + exfalso. destruct (generate _).
      * by destruct (test_failure_trace _ _ H).
      * by destruct (parse_test_trace _ _ H).
Qed.

(** Whatever the request, the AI is only ever sent a prompt built around
    a non-empty sections document. *)
Lemma full_test_prompt_has_sections db request p :
  AiCall p ∈ trace (full_test_endpoint db request) ->
  exists grade_name subject_name sections,
    sections <> EmptyString
    /\ p = test_prompt grade_name subject_name sections.
Proof.
  unfold generate_full_test_endpoint.
  destruct request as [[| | | | | |fields]|]; try (intros H; by inversion H).
  destruct (_ || _); [intros H; by inversion H|].
  simpl trace. intros H. apply elem_of_cons in H as [H|H]; [discriminate|].
  destruct (session_get _ _ Subject _) as [e|subject];
    [by destruct (test_failure_trace _ _ H)|].
  simpl in H. apply elem_of_cons in H as [H|H]; [discriminate|].
  destruct (session_get _ _ Grade _) as [e|grade];
    [by destruct (test_failure_trace _ _ H)|].
  destruct subject as [subject|]; [|by inversion H].
  destruct grade as [grade|]; [|by inversion H].
  destruct (build_sections _ _ _ _ _) as [sections reads] eqn:E.
  simpl in H. apply elem_of_app in H as [H|H].
  - pose proof (build_sections_reads db 0
                  (items_of (default JNull (dict_get "topics" fields)))
                  (AiCall p)) as R.
    rewrite E in R. destruct (R H) as [t Ht]. discriminate.
  - destruct sections as [e|sections];
      [by destruct (test_failure_trace _ _ H)|].
    apply send_test_trace in H as (Hne & g & s & ->). eauto.
Qed.

(** C5: full-test mode with nothing to ask.  When every topic of the
    list is an object whose strand does not exist or has no learning
    outcome under its sub-strands, the AI is never called; once the
    request has passed validation and its subject and grade exist, the
    answer is 400, No valid topics with learning outcomes found.  And
    whatever the request, any prompt the AI receives is built around a
    non-empty sections document. *)
Theorem no_valid_topics_fails db fields topics :
  dict_get "topics" fields = Some (JList topics) ->
  Forall
    (fun topic =>
       exists tf, topic = JObj tf
         /\ (session_get bind_param db Strand
               (default JNull (dict_get "strand_id" tf)) = inr None
             \/ (exists strand,
                   session_get bind_param db Strand
                     (default JNull (dict_get "strand_id" tf))
                   = inr (Some strand))
                /\ outcomes_of_strand bind_param db
                     (default JNull (dict_get "strand_id" tf)) = inr []))
    topics ->
  no_ai_call (trace (full_test_endpoint db (Some (JObj fields))))
  /\ (forall subject grade,
        topics <> [] ->
        truthy (default JNull (dict_get "subject_id" fields)) = true ->
        truthy (default JNull (dict_get "grade_id" fields)) = true ->
        session_get bind_param db Subject
          (default JNull (dict_get "subject_id" fields))
        = inr (Some subject) ->
        session_get bind_param db Grade
          (default JNull (dict_get "grade_id" fields))
        = inr (Some grade) ->
        result (full_test_endpoint db (Some (JObj fields)))
        = Response 400
            (error_body "No valid topics with learning outcomes found."))
  /\ (forall request p,
        AiCall p ∈ trace (full_test_endpoint db request) ->
        exists grade_name subject_name sections,
          sections <> EmptyString
          /\ p = test_prompt grade_name subject_name sections).
Proof.
  intros Ht Hskip.
  pose proof (build_sections_skipped db 0 topics Hskip) as Hs.
  split; [|split].
  - intros p. unfold generate_full_test_endpoint. rewrite Ht.
    cbn [default items_of].
    destruct (_ || _); [intros H; by inversion H|].
    simpl trace. intros H.
    apply elem_of_cons in H as [H|H]; [discriminate|].
    destruct (session_get _ _ Subject _) as [e|subject];
      [by destruct (test_failure_trace _ _ H)|].
    simpl in H. apply elem_of_cons in H as [H|H]; [discriminate|].
    destruct (session_get _ _ Grade _) as [e|grade];
      [by destruct (test_failure_trace _ _ H)|].
    destruct subject as [subject|]; [|by inversion H].
    destruct grade as [grade|]; [|by inversion H].
    destruct (build_sections _ _ _ _ _) as [sections reads] eqn:E.
    simpl in Hs. subst sections.
    simpl in H. rewrite app_nil_r in H.
    pose proof (build_sections_reads db 0 topics (AiCall p)) as R.
    rewrite E in R. destruct (R H) as [t Ht']. discriminate.
  - intros subject grade Hne Hts Htg Hsub Hgr.
    unfold generate_full_test_endpoint. rewrite Ht.
    cbn [default items_of is_list forallb]. rewrite Hts, Htg.
    destruct topics as [|topic more]; [done|].
    simpl truthy. simpl negb. simpl orb. cbv iota.
    rewrite Hsub, Hgr. rewrite !result_after.
    destruct (build_sections _ _ _ _ _) as [sections reads] eqn:E.
    simpl in Hs. subst sections. reflexivity.
  - apply full_test_prompt_has_sections.
Qed.

End FullTestFacts.

(** ** The response validator and the accounts *)

Section ValidatorFacts.

Context (json_loads : string -> string + json).

(** C4, as the code has it: the validator trims the raw text and, when
    the trimmed text begins with the JSON-annotated fence (three backquotes
    followed by json), removes that leading fence and the trailing fence of
    three backquotes and trims again; on such text this is what the
    specification describes.  (Text that does not begin with the annotated
    fence keeps its beginning; the cleaning expression is the same.)  An
    empty result is answered with the empty-response failure in both modes,
    whatever the decoder would say.  Otherwise the decoder runs, and when
    it fails the failure is reported: single-outcome mode answers with the
    format error and logs a record that contains the cleaned text, and
    full-test mode answers through its handler. *)
Theorem response_validator_contract email lo_id raw :
  let t := strip raw in
  let clean := clean_response_text raw in
  (forall body, t = "```json" +:+ body ->
     clean = strip (removesuffix "```" body))
  /\ (startswith "```json" t = false ->
      clean = strip (removesuffix "```" t))
  /\ (forall s, removesuffix "```" (s +:+ "```") = s)
  /\ (forall s, (forall before, s <> before +:+ "```") ->
                removesuffix "```" s = s)
  /\ (startswith "```json" t = true -> clean = spec_clean_response_text raw)
  /\ (clean = EmptyString ->
      parse_questions json_loads email lo_id raw
      = Outcome (Response 500 (error_body "AI returned an empty response."))
          [Log "warning"
             ("AI returned an empty string for LO ID " +:+ pretty lo_id)]
      /\ parse_test json_loads raw
         = respond 500 (error_body "AI returned an empty response."))
  /\ (clean <> EmptyString ->
      forall err, json_loads clean = inl err ->
        exists message,
          parse_questions json_loads email lo_id raw
          = Outcome
              (Response 500
                 (error_details "AI response format error (JSON)." err))
              [Log "error" message]
          /\ occurs clean message
          /\ parse_test json_loads raw = test_failure (ValueError err)).
Proof.
  intros t clean. unfold clean, clean_response_text. fold t.
  split; [intros body ->; by rewrite removeprefix_app|].
  split; [intros H; by rewrite removeprefix_other|].
  split; [intros s; apply removesuffix_app|].
  split; [intros s; apply removesuffix_other|].
  split.
  { intros H. unfold spec_clean_response_text. fold t. by rewrite H. }
  split.
  - intros E. unfold parse_questions, parse_test, clean_response_text.
    fold t. rewrite E. split; reflexivity.
  - intros Hne err Herr.
    unfold parse_questions, parse_test, clean_response_text. fold t.
    destruct (strip (removesuffix "```" (removeprefix "```json" t)))
      as [|c rest] eqn:E; [done|].
    simpl nonempty. simpl negb. cbv iota. rewrite Herr.
    eexists. split; [reflexivity|]. split; [|reflexivity].
    apply occurs_later, occurs_later, occurs_later, occurs_here.
Qed.

(** A bare fence: the leading marker survives the cleaning, whereas the
    specification's wording removes it.  And an answer that does not
    decode, in full-test mode: the response and the log record carry the
    decoder's message, and the offending text is in neither. *)
Lemma bare_fence_is_kept :
  let raw := "```" +:+ LF +:+ "[]" +:+ LF +:+ "```" in
  startswith "```" (strip raw) = true
  /\ clean_response_text raw = "```" +:+ LF +:+ "[]"
  /\ spec_clean_response_text raw = "[]"
  /\ clean_response_text raw <> spec_clean_response_text raw
  /\ clean_response_text " oops " = "oops"
  /\ parse_test Examples.loads " oops "
     = Outcome
         (Response 500
            (error_details
               "An internal error occurred during test generation."
               "Expecting value: line 1 column 1 (char 0)"))
         [Log "error"
            "Full test generation failed: Expecting value: line 1 column 1 (char 0)"]
  /\ contains "oops"
       "An internal error occurred during test generation." = false
  /\ contains "oops" "Expecting value: line 1 column 1 (char 0)" = false
  /\ contains "oops"
       "Full test generation failed: Expecting value: line 1 column 1 (char 0)"
     = false.
Proof. vm_compute. repeat split; try reflexivity. discriminate. Qed.

End ValidatorFacts.

Section AccountFacts.

Context (generate_password_hash : string -> string -> string)
  (check_password_hash : string -> string -> bool).
Hypothesis bcrypt_accepts :
  forall salt password,
    check_password_hash (generate_password_hash salt password) password
    = true.

Implicit Types (db : gmap string (list (gmap string value))).

(** What a successful registration stores. *)
Lemma register_created db salt fields email password body db' :
  dict_get "email" fields = Some (JStr email) ->
  dict_get "password" fields = Some (JStr password) ->
  register generate_password_hash db salt (Some (JObj fields))
  = (Response 201 body, db') ->
  let user : gmap string value :=
    <["id" := VInt (next_id (table db User))]>
      (<["password_hash" := VStr (generate_password_hash salt password)]>
         {[ "email" := VStr (lower (strip email)) ]}) in
  nonempty password = true
  /\ query_first db User {[ "email" := VStr (lower (strip email)) ]} = None
  /\ body = user_to_dict user
  /\ db' = <[tablename User := table db User ++ [user]]> db.
Proof.
  intros He Hp. unfold register, read_credentials. rewrite He, Hp.
  cbn [default from_option truthy]. unfold id.
  cbn [truthy].
  destruct (nonempty email); cbn [negb orb]; [|discriminate].
  destruct (nonempty password); cbn [negb orb]; [|discriminate].
  destruct (query_first db User _) as [found|] eqn:Hq; [discriminate|].
  unfold db_insert.
  rewrite lookup_insert_ne, lookup_singleton_ne by done.
  destruct (violates _ _ _); [discriminate|].
  intros [= <- <-]. auto.
Qed.

(** C9, as the code has it: registration stores the address trimmed and
    lower-cased, login normalises the same way, and so after a successful
    registration a login attempt with the same password and a non-empty
    address field that differs from the stored address only in letter case
    or surrounding white space is answered 200 with that account. *)
Theorem login_accepts_variants db salt fields email password body db'
  attempt_fields attempt :
  dict_get "email" fields = Some (JStr email) ->
  dict_get "password" fields = Some (JStr password) ->
  register generate_password_hash db salt (Some (JObj fields))
  = (Response 201 body, db') ->
  dict_get "email" attempt_fields = Some (JStr attempt) ->
  dict_get "password" attempt_fields = Some (JStr password) ->
  same_up_to_case_and_space attempt (lower (strip email)) ->
  attempt <> EmptyString ->
  login check_password_hash db' (Some (JObj attempt_fields))
  = Response 200 body
  /\ (exists id, body = JObj [("id", JInt id);
                             ("email", JStr (lower (strip email)))])
  /\ lower (strip attempt) = lower (strip email).
Proof.
  intros He Hp Hreg Hae Hap Hsame Hne.
  destruct (register_created _ _ _ _ _ _ _ He Hp Hreg)
    as (Hpw & Hmiss & -> & ->).
  pose proof (normalise_variant _ _ Hsame) as Hnorm.
  split; [|split; [|exact Hnorm]].
  - unfold login, read_credentials. rewrite Hae, Hap.
    cbn [default from_option truthy]. unfold id. cbn [truthy].
    rewrite Hpw. destruct attempt as [|c rest]; [done|].
    simpl nonempty. simpl negb. simpl orb. cbv iota.
    rewrite Hnorm. unfold query_first. rewrite table_insert_same.
    unfold query_first in Hmiss. rewrite (find_app_missing _ _ _ Hmiss).
    cbn [find].
    assert (filter_by {[ "email" := VStr (lower (strip email)) ]}
              (<["id" := VInt (next_id (table db User))]>
                 (<["password_hash" :=
                      VStr (generate_password_hash salt password)]>
                    {[ "email" := VStr (lower (strip email)) ]}))
            = true) as ->.
    { apply filter_by_spec, map_singleton_subseteq_l.
      rewrite !lookup_insert_ne by done. apply lookup_singleton_eq. }
    rewrite lookup_insert_ne, lookup_insert_eq by done.
    by rewrite bcrypt_accepts.
  - eexists. unfold user_to_dict.
    rewrite lookup_insert_eq, !lookup_insert_ne, lookup_singleton_eq by done.
    reflexivity.
Qed.

End AccountFacts.

(** ** Invariants of the store *)

Lemma schema_members :
  User ∈ schema /\ Subject ∈ schema /\ Grade ∈ schema /\ Strand ∈ schema
  /\ SubStrand ∈ schema /\ LearningOutcome ∈ schema
  /\ KeyInquiryQuestion ∈ schema.
Proof.
  unfold schema.
  repeat split;
    repeat first [apply list_elem_of_here | apply list_elem_of_further].
Qed.

Section Stepwise.

Variable R : world -> world -> Prop.
Hypothesis R_refl : forall w, R w w.
Hypothesis R_trans : forall a b c, R a b -> R b c -> R a c.
Hypothesis R_commit : forall m params,
  m ∈ schema -> world_steps R (session_add_commit m params).

Lemma get_or_create_steps m defaults kw :
  m ∈ schema -> world_steps R (get_or_create m defaults kw).
Proof.
  intros Hm w res w' E.
  destruct (query_first (committed w) m kw) as [r|] eqn:Hq.
  - rewrite (get_or_create_found _ _ _ _ _ Hq) in E.
    injection E as <- <-. apply R_refl.
  - rewrite (get_or_create_miss _ _ _ _ Hq) in E.
    destruct (session_add_commit m (default ∅ defaults ∪ kw) w)
      as [[e|new] w1] eqn:C;
      pose proof (R_commit m _ Hm _ _ _ C) as HR.
    + destruct e; injection E as <- <-; exact HR.
    + injection E as <- <-; exact HR.
Qed.
















End Stepwise.

Section ConstraintFacts.

Implicit Types (tbl : list (gmap string value)) (r kw : gmap string value).
Implicit Types (db : gmap string (list (gmap string value))) (m : model).

Lemma collides_sym r1 r2 u : collides r1 r2 u = collides r2 r1 u.
Proof.
  unfold collides. induction u as [|c u IH]; simpl; [reflexivity|].
  rewrite IH. f_equal.
  destruct (r1 !! c) as [a|], (r2 !! c) as [b|]; try reflexivity.
  apply bool_decide_ext. split; congruence.
Qed.

Lemma violates_spec m new tbl :
  violates m new tbl = false ->
  forall r u, r ∈ tbl -> u ∈ ["id"] :: uniques m -> collides new r u = false.
Proof.
  intros Hv r u Hr Hu. apply not_true_is_false. intros Hc.
  assert (violates m new tbl = true); [|congruence].
  unfold violates. apply existsb_exists. exists r.
  split; [by apply list_elem_of_In|].
  apply existsb_exists. exists u. split; [by apply list_elem_of_In|done].
Qed.

Lemma db_insert_spec m params tbl tbl' new :
  db_insert m params tbl = Some (tbl', new) ->
  tbl' = tbl ++ [new] /\ params ⊆ new /\ is_Some (new !! "id")
  /\ violates m new tbl = false.
Proof.
  unfold db_insert. intros H.
  destruct (violates m _ tbl) eqn:Hv; [discriminate|].
  injection H as <- <-.
  destruct (params !! "id") as [v|] eqn:Hid.
  - repeat split; eauto.
  - repeat split; auto.
    + by apply insert_subseteq.
    + rewrite lookup_insert_eq. eauto.
Qed.

Lemma unique_rows_nil m : unique_rows m [].
Proof. intros i j r1 r2 u H. by rewrite lookup_nil in H. Qed.

Lemma unique_rows_snoc m tbl new :
  unique_rows m tbl -> violates m new tbl = false ->
  unique_rows m (tbl ++ [new]).
Proof.
  intros Hu Hv i j r1 r2 u Hi Hj Hin Hc.
  apply lookup_snoc_Some in Hi as [[Li Hi]|[Ei <-]];
    apply lookup_snoc_Some in Hj as [[Lj Hj]|[Ej <-]].
  - eapply Hu; eauto.
  - rewrite collides_sym in Hc.
    rewrite (violates_spec _ _ _ Hv r1 u) in Hc; [discriminate| |done].
    by eapply list_elem_of_lookup_2.
  - rewrite (violates_spec _ _ _ Hv r2 u) in Hc; [discriminate| |done].
    by eapply list_elem_of_lookup_2.
  - congruence.
Qed.

Lemma schema_tablename m m' :
  m ∈ schema -> m' ∈ schema -> tablename m = tablename m' -> m = m'.
Proof.
  unfold schema. intros H H'.
  repeat (apply elem_of_cons in H as [->|H]);
    try (by apply elem_of_nil in H);
    repeat (apply elem_of_cons in H' as [->|H']);
    try (by apply elem_of_nil in H'); (reflexivity || discriminate).
Qed.

Lemma table_append db m tbl r :
  tbl = table db m ++ [r] ->
  <[tablename m := tbl]> db = <[tablename m := table db m ++ [r]]> db.
Proof. by intros ->. Qed.

Lemma store_ok_insert db m params tbl' new :
  m ∈ schema -> store_ok db ->
  db_insert m params (table db m) = Some (tbl', new) ->
  store_ok (<[tablename m := tbl']> db).
Proof.
  intros Hm [Hids Huniq] Hins.
  apply db_insert_spec in Hins as (-> & _ & Hid & Hv). split.
  - by apply has_ids_append.
  - intros m' Hm'. destruct (decide (tablename m = tablename m')) as [E|N].
    + rewrite <- (schema_tablename _ _ Hm Hm' E), table_insert_same.
      apply unique_rows_snoc; auto.
    + rewrite table_insert_other by done. auto.
Qed.

Lemma concurrent_write_ok ev db :
  match ev with Race m _ => m ∈ schema | _ => True end ->
  store_ok db -> store_ok (concurrent_write ev db).
Proof.
  destruct ev as [|m cols|msg]; simpl; auto.
  intros Hm Hdb.
  destruct (db_insert m cols (table db m)) as [[tbl' new]|] eqn:E; auto.
  eapply store_ok_insert; eauto.
Qed.

Lemma next_event_ok evs ev rest :
  next_event evs = (ev, rest) -> env_ok evs ->
  match ev with Race m _ => m ∈ schema | _ => True end /\ env_ok rest.
Proof.
  destruct evs as [|e evs]; simpl; intros [= <- <-] H.
  - split; [done|constructor].
  - by apply Forall_cons in H.
Qed.

(** One commit keeps the constraints of the models. *)
Lemma commit_keeps_constraints m params :
  m ∈ schema ->
  world_steps (fun w w' => world_ok w -> world_ok w')
    (session_add_commit m params).
Proof.
  intros Hm w res w' E [Hdb Henv]. unfold session_add_commit in E.
  destruct (next_event (env w)) as [ev rest] eqn:Hev.
  destruct (next_event_ok _ _ _ Hev Henv) as [Hrace Hrest].
  destruct ev as [|m' cols|msg].
  - simpl in E.
    destruct (db_insert m params (table (committed w) m))
      as [[tbl' new]|] eqn:Hins; injection E as <- <-; split; simpl; auto.
    eapply store_ok_insert; eauto.
  - pose proof (concurrent_write_ok (Race m' cols) _ Hrace Hdb) as Hdb1.
    destruct (db_insert m params (table (concurrent_write (Race m' cols)
                                           (committed w)) m))
      as [[tbl' new]|] eqn:Hins; injection E as <- <-; split; simpl; auto.
    eapply store_ok_insert; eauto.
  - injection E as <- <-. split; simpl; auto.
Qed.

Lemma grows_insert db m params tbl' new :
  db_insert m params (table db m) = Some (tbl', new) ->
  grows db (<[tablename m := tbl']> db).
Proof.
  intros Hins. apply db_insert_spec in Hins as (-> & _). apply grows_append.
Qed.





End ConstraintFacts.

(** ** More on find-or-create *)

Section FindOrCreateFacts.

Implicit Types (tbl : list (gmap string value)) (r kw : gmap string value).
Implicit Types (db : gmap string (list (gmap string value))) (m : model).

Lemma query_first_spec db m kw r :
  query_first db m kw = Some r -> r ∈ table db m /\ kw ⊆ r.
Proof.
  intros H. apply find_found in H as [Hin Hf]. split; [done|].
  by apply filter_by_spec.
Qed.

Lemma session_add_commit_spec m params w new w' :
  session_add_commit m params w = (inr new, w') ->
  new ∈ table (committed w') m /\ params ⊆ new.
Proof.
  unfold session_add_commit. destruct (next_event (env w)) as [ev rest].
  set (db1 := concurrent_write ev (committed w)).
  assert (Hgo : match db_insert m params (table db1 m) with
                | Some (tbl', new0) =>
                    (inr new0, World (<[tablename m := tbl']> db1) rest)
                | None => (inl IntegrityError, World db1 rest)
                end = (inr new, w') ->
                new ∈ table (committed w') m /\ params ⊆ new).
  { destruct (db_insert m params (table db1 m)) as [[tbl' new0]|] eqn:Hins;
      [|discriminate].
    intros [= <- <-]. simpl. rewrite table_insert_same.
    apply db_insert_spec in Hins as (-> & Hsub & _). split; [|done].
    apply elem_of_app. right. by apply list_elem_of_singleton. }
  destruct ev; auto. discriminate.
Qed.

(** The row find-or-create returns is stored and carries what it was
    looked up or created with. *)
Lemma get_or_create_row m defaults kw w r created w' :
  get_or_create m defaults kw w = (inr (Some r, created), w') ->
  r ∈ table (committed w') m
  /\ (if created then default ∅ defaults ∪ kw ⊆ r else kw ⊆ r).
Proof.
  intros E. destruct (query_first (committed w) m kw) as [r0|] eqn:Hq.
  - rewrite (get_or_create_found _ _ _ _ _ Hq) in E.
    injection E as <- <- <-. by apply query_first_spec in Hq.
  - rewrite (get_or_create_miss _ _ _ _ Hq) in E.
    destruct (session_add_commit m (default ∅ defaults ∪ kw) w)
      as [[e|new] w1] eqn:C.
    + destruct e; try discriminate. injection E as E <- <-.
      by apply query_first_spec in E.
    + injection E as <- <- <-.
      by apply session_add_commit_spec in C.
Qed.

(** X3: what find-or-create hands back.  When [get_or_create] returns a
    row, that row is in the table of the committed store; a row that was
    found carries the keywords, a row that was created carries the
    defaults laid over the keywords (defaults win), and without defaults it
    carries the keywords in both cases. *)
Theorem get_or_create_returns_match m defaults kw w r created w' :
  get_or_create m defaults kw w = (inr (Some r, created), w') ->
  r ∈ table (committed w') m
  /\ (if created then default ∅ defaults ∪ kw ⊆ r else kw ⊆ r)
  /\ (defaults = None -> kw ⊆ r).
Proof.
  intros E. destruct (get_or_create_row _ _ _ _ _ _ _ E) as [H1 H2].
  split; [done|]. split; [done|].
  intros ->. destruct created; [|done].
  simpl in H2. by rewrite (left_id_L ∅ (∪)) in H2.
Qed.


Lemma filter_none {A} (P : A -> Prop) `{forall x, Decision (P x)}
  (l : list A) :
  (forall y, y ∈ l -> ~ P y) -> filter P l = [].
Proof.
  induction l as [|a l IH]; intros Hn; [reflexivity|].
  rewrite filter_cons_False by (apply Hn; left).
  apply IH. intros y Hy. apply Hn. by right.
Qed.

Lemma filter_unique {A} (P : A -> Prop) `{forall x, Decision (P x)}
  (l : list A) x :
  (forall i j a b, l !! i = Some a -> l !! j = Some b -> P a -> P b -> i = j) ->
  x ∈ l -> P x -> filter P l = [x].
Proof.
  induction l as [|a l IH]; intros Hu Hx Px; [by apply elem_of_nil in Hx|].
  assert (Hl : forall i j a b, l !! i = Some a -> l !! j = Some b ->
                 P a -> P b -> i = j).
  { intros i j c d Hi Hj Pc Pd.
    assert (S i = S j) by (eapply Hu; eauto). congruence. }
  destruct (decide (P a)) as [Pa|Na].
  - rewrite filter_cons_True by done.
    assert (Hrest : forall y, y ∈ l -> ~ P y).
    { intros y Hy Py. apply list_elem_of_lookup_1 in Hy as [j Hj].
      assert (0%nat = S j) by (eapply (Hu 0%nat (S j) a y); eauto).
      discriminate. }
    rewrite (filter_none P l Hrest).
    apply elem_of_cons in Hx as [->|Hx]; [reflexivity|].
    by destruct (Hrest x Hx).
  - rewrite filter_cons_False by done.
    apply elem_of_cons in Hx as [->|Hx]; [done|]. by apply IH.
Qed.

Lemma collides_same_key kw r1 r2 u :
  kw ⊆ r1 -> kw ⊆ r2 -> (forall c, c ∈ u -> is_Some (kw !! c)) ->
  collides r1 r2 u = true.
Proof.
  intros H1 H2 Hu. unfold collides. apply forallb_forall. intros c Hc.
  apply list_elem_of_In in Hc. destruct (Hu c Hc) as [v Hv].
  rewrite (lookup_weaken _ _ _ _ Hv H1), (lookup_weaken _ _ _ _ Hv H2).
  by apply bool_decide_eq_true.
Qed.

Lemma get_or_create_keeps_constraints m defaults kw :
  m ∈ schema ->
  world_steps (fun w w' => world_ok w -> world_ok w')
    (get_or_create m defaults kw).
Proof.
  intros Hm. apply get_or_create_steps; auto.
  intros m' params Hm'. by apply commit_keeps_constraints.
Qed.

(** X5: no duplicate keys under a race.  For a mapped class with a
    unique column set that the keywords cover, on a store that meets the
    constraints and with other writers going through the mapped classes,
    after [get_or_create] has returned a row that row is the one and only
    row of the table that carries the keywords. *)
Theorem get_or_create_single_match m kw w r created w' u :
  m ∈ schema -> store_ok (committed w) -> env_ok (env w) ->
  u ∈ uniques m -> (forall c, c ∈ u -> is_Some (kw !! c)) ->
  get_or_create m None kw w = (inr (Some r, created), w') ->
  filter (fun x => kw ⊆ x) (table (committed w') m) = [r].
Proof.
  intros Hm Hdb Henv Hu Hcov E.
  destruct (get_or_create_keeps_constraints m None kw Hm _ _ _ E)
    as [[_ Huniq] _]; [by split|].
  destruct (get_or_create_row _ _ _ _ _ _ _ E) as (Hin & Hsub).
  assert (Hkw : kw ⊆ r).
  { destruct created; [|done].
    simpl in Hsub. by rewrite (left_id_L ∅ (∪)) in Hsub. }
  apply filter_unique; auto.
  intros i j a b Hi Hj Ha Hb. eapply (Huniq m Hm i j a b u); eauto.
  - by right.
  - by eapply collides_same_key.
Qed.

Lemma next_id_snoc tbl r :
  r !! "id" = Some (VInt (next_id tbl)) ->
  next_id (tbl ++ [r]) = next_id tbl + 1.
Proof.
  intros Hr. unfold next_id in *. rewrite foldr_app. simpl. rewrite Hr.
  set (f := fun (r : gmap string value) acc =>
              match r !! "id" with
              | Some (VInt n) => Z.max n acc
              | _ => acc
              end).
  assert (f_cases : forall x, (exists n, forall acc, f x acc = Z.max n acc)
                              \/ (forall acc, f x acc = acc)).
  { intros x. unfold f. destruct (x !! "id") as [[n|]|]; eauto. }
  clearbody f.
  assert (H : forall l a, 0 <= a ->
            0 <= foldr f 0 l /\ foldr f a l = Z.max a (foldr f 0 l)).
  { intros l a Ha. induction l as [|x l [IH1 IH2]]; cbn [foldr].
    - split; lia.
    - destruct (f_cases x) as [[n Hn]|Hn].
      + rewrite !Hn. split; lia.
      + rewrite !Hn. split; lia. }
  destruct (H tbl (Z.max (1 + foldr f 0 tbl) 0)) as [H0 ->]; [lia|]. lia.
Qed.

Lemma db_insert_fresh m params tbl :
  uniques m = [] -> params !! "id" = None ->
  db_insert m params tbl
  = Some (tbl ++ [<["id" := VInt (next_id tbl)]> params],
          <["id" := VInt (next_id tbl)]> params).
Proof.
  intros Hu Hid. unfold db_insert. rewrite Hid.
  set (new := <["id" := VInt (next_id tbl)]> params).
  assert (Hv : violates m new tbl = false); [|by rewrite Hv].
  unfold violates. rewrite Hu. apply not_true_is_false. intros Hex.
  apply existsb_exists in Hex as (r & Hr & Hex).
  apply list_elem_of_In in Hr. simpl in Hex.
  unfold new in Hex. rewrite lookup_insert_eq in Hex.
  destruct (r !! "id") as [b|] eqn:Hb; [|discriminate].
  rewrite andb_true_r, orb_false_r in Hex. apply bool_decide_eq_true in Hex.
  subst b. pose proof (next_id_above _ _ _ Hr Hb). lia.
Qed.

(** X6: duplicates where nothing is declared unique.  For a mapped
    class without a unique column set (LearningOutcome,
    KeyInquiryQuestion), when another writer inserts the same keywords
    between our lookup and our commit, [get_or_create] still reports
    created=True, and the table ends with two distinct rows that both
    carry the keywords. *)
Theorem get_or_create_duplicates_under_race m kw db rest :
  uniques m = [] -> kw !! "id" = None -> query_first db m kw = None ->
  let n := next_id (table db m) in
  let theirs := <["id" := VInt n]> kw in
  let ours := <["id" := VInt (n + 1)]> kw in
  get_or_create m None kw (World db (Race m kw :: rest))
  = (inr (Some ours, true),
     World (<[tablename m := table db m ++ [theirs; ours]]> db) rest)
  /\ kw ⊆ theirs /\ kw ⊆ ours /\ theirs <> ours.
Proof.
  intros Hu Hid Hq n theirs ours. split; [|split; [|split]].
  - rewrite get_or_create_miss by exact Hq.
    rewrite (session_add_commit_run _ _ _ _ (Race m kw) rest);
      [|reflexivity|discriminate].
    cbn [concurrent_write default]. rewrite (left_id_L ∅ (∪)).
    rewrite (db_insert_fresh m kw (table db m) Hu Hid), table_insert_same.
    rewrite (db_insert_fresh _ _ _ Hu Hid).
    rewrite next_id_snoc by apply lookup_insert_eq.
    rewrite insert_insert_eq, <- app_assoc. reflexivity.
  - by apply insert_subseteq.
  - by apply insert_subseteq.
  - intros E. assert (H : theirs !! "id" = ours !! "id") by (by rewrite E).
    unfold theirs, ours in H. rewrite !lookup_insert_eq in H.
    injection H. lia.
Qed.

End FindOrCreateFacts.

(** ** Whole files on a store nobody else writes to *)

Section QuietRunFacts.

Implicit Types (r kw : gmap string value) (m : model) (st : importer).
Implicit Types (db : gmap string (list (gmap string value))).
Implicit Types (cs : gmap string nat).

Lemma accounted_refl db cs : accounted db cs db cs.
Proof. intros kind m _. reflexivity. Qed.

Lemma accounted_trans db1 cs1 db2 cs2 db3 cs3 :
  accounted db1 cs1 db2 cs2 -> accounted db2 cs2 db3 cs3 ->
  accounted db1 cs1 db3 cs3.
Proof.
  intros H12 H23 kind m Hin.
  specialize (H12 kind m Hin). specialize (H23 kind m Hin). lia.
Qed.

Lemma advances_refl db cs : has_ids db -> advances db cs db cs.
Proof.
  intros H. split; [apply grows_refl|]. split; [done|apply accounted_refl].
Qed.

Lemma advances_trans db1 cs1 db2 cs2 db3 cs3 :
  advances db1 cs1 db2 cs2 -> advances db2 cs2 db3 cs3 ->
  advances db1 cs1 db3 cs3.
Proof.
  intros (G1 & _ & A1) (G2 & I2 & A2). split; [|split]; auto.
  - eapply grows_trans; eauto.
  - eapply accounted_trans; eauto.
Qed.

Lemma kinds_tablename k m k' m' :
  (k, m) ∈ kinds -> (k', m') ∈ kinds ->
  (k = k' <-> tablename m = tablename m').
Proof.
  unfold kinds. intros H H'.
  repeat (apply elem_of_cons in H as [H|H]; [injection H as -> ->|]);
    try (by apply elem_of_nil in H);
    repeat (apply elem_of_cons in H' as [H'|H']; [injection H' as -> ->|]);
    try (by apply elem_of_nil in H'); split; (reflexivity || discriminate).
Qed.

Lemma accounted_created db cs kind m r :
  (kind, m) ∈ kinds ->
  accounted db cs (<[tablename m := table db m ++ [r]]> db)
    (bump kind true cs).
Proof.
  intros Hin k' m' Hin'. unfold bump.
  destruct (decide (kind = k')) as [<-|N].
  - pose proof (proj1 (kinds_tablename _ _ _ _ Hin Hin') eq_refl) as E.
    unfold table at 1. rewrite <- E, lookup_insert_eq. simpl.
    rewrite lookup_total_insert_eq, length_app. simpl.
    unfold table. rewrite E. lia.
  - assert (tablename m <> tablename m')
      by (intros E; by apply (kinds_tablename _ _ _ _ Hin Hin') in E).
    rewrite table_insert_other by done.
    by rewrite lookup_total_insert_ne.
Qed.

(** One quiet find-or-create and its count. *)
Lemma get_or_create_effect kind m kw db cs :
  (kind, m) ∈ kinds -> kw !! "id" = None -> key_within m kw -> has_ids db ->
  exists r created db',
    get_or_create m None kw (World db []) = (inr (Some r, created), World db' [])
    /\ query_first db' m kw = Some r
    /\ advances db cs db' (bump kind created cs)
    /\ (is_Some (query_first db m kw) -> db' = db /\ created = false).
Proof.
  intros Hin Hid Hkey Hdb. destruct (query_first db m kw) as [r|] eqn:Hq.
  - exists r, false, db. split; [|split; [|split]]; auto.
    + by apply (get_or_create_found m None kw (World db [])).
    + by apply advances_refl.
  - eexists _, true, _.
    split; [by apply get_or_create_missing|].
    split; [|split].
    + unfold query_first. rewrite table_insert_same.
      unfold query_first in Hq. rewrite (find_app_missing _ _ _ Hq). simpl.
      by rewrite filter_by_fresh.
    + split; [apply grows_append|]. split.
      * apply has_ids_append; [done|]. rewrite lookup_insert_eq. eauto.
      * by apply accounted_created.
    + intros [? ?]. discriminate.
Qed.

Lemma kinds_members :
  ("Subject", Subject) ∈ kinds /\ ("Grade", Grade) ∈ kinds
  /\ ("Strand", Strand) ∈ kinds /\ ("SubStrand", SubStrand) ∈ kinds
  /\ ("LearningOutcome", LearningOutcome) ∈ kinds
  /\ ("KeyInquiryQuestion", KeyInquiryQuestion) ∈ kinds.
Proof.
  unfold kinds.
  repeat split;
    repeat first [apply list_elem_of_here | apply list_elem_of_further].
Qed.

Lemma resolve_hierarchy_effect a b c d db p cs e :
  has_ids db ->
  exists subject grade strand substrand ssid db4 cs4,
    resolve_hierarchy a b c d (Importer (World db []) p cs e)
    = (inr (Some substrand), Importer (World db4 []) p cs4 e)
    /\ resolved db4 a b c d subject grade strand substrand
    /\ substrand !! "id" = Some ssid
    /\ advances db cs db4 cs4.
Proof.
  intros Hdb.
  destruct kinds_members as (M1 & M2 & M3 & M4 & _).
  destruct (key_subject a) as (Ka1 & Ka2 & _).
  destruct (key_subject b) as (Kb1 & _ & Kb2).
  destruct (get_or_create_effect _ _ _ db cs M1 Ka1 Ka2 Hdb)
    as (subject & c1 & db1 & E1 & Q1 & A1 & _).
  pose proof (proj1 (proj2 A1)) as Hdb1.
  destruct (get_or_create_effect _ _ _ db1 (bump "Subject" c1 cs) M2 Kb1 Kb2
              Hdb1)
    as (grade & c2 & db2 & E2 & Q2 & A2 & _).
  pose proof (proj1 (proj2 A2)) as Hdb2.
  destruct (has_ids_query _ _ _ _ Hdb1 Q1) as [sid I1].
  destruct (has_ids_query _ _ _ _ Hdb2 Q2) as [gid I2].
  destruct (key_strand c sid gid) as (Kc1 & Kc2).
  destruct (get_or_create_effect _ _ _ db2
              (bump "Grade" c2 (bump "Subject" c1 cs)) M3 Kc1 Kc2 Hdb2)
    as (strand & c3 & db3 & E3 & Q3 & A3 & _).
  pose proof (proj1 (proj2 A3)) as Hdb3.
  destruct (has_ids_query _ _ _ _ Hdb3 Q3) as [stid I3].
  destruct (key_substrand d stid) as (Kd1 & Kd2).
  destruct (get_or_create_effect _ _ _ db3
              (bump "Strand" c3 (bump "Grade" c2 (bump "Subject" c1 cs)))
              M4 Kd1 Kd2 Hdb3)
    as (substrand & c4 & db4 & E4 & Q4 & A4 & _).
  pose proof (proj1 (proj2 A4)) as Hdb4.
  destruct (has_ids_query _ _ _ _ Hdb4 Q4) as [ssid I4].
  exists subject, grade, strand, substrand, ssid, db4. eexists.
  split.
  { unfold resolve_hierarchy.
    erewrite bind_ok by (apply with_session_run; exact E1).
    cbv beta iota. unfold count_created at 1.
    erewrite bind_ok by reflexivity.
    cbn [session processed_count created_counts error_count].
    erewrite bind_ok by (apply with_session_run; exact E2).
    cbv beta iota. unfold count_created at 1.
    erewrite bind_ok by reflexivity.
    cbn [session processed_count created_counts error_count].
    erewrite bind_ok by (apply attr_ok; exact I1).
    erewrite bind_ok by (apply attr_ok; exact I2).
    erewrite bind_ok by (apply with_session_run; exact E3).
    cbv beta iota. unfold count_created at 1.
    erewrite bind_ok by reflexivity.
    cbn [session processed_count created_counts error_count].
    erewrite bind_ok by (apply attr_ok; exact I3).
    erewrite bind_ok by (apply with_session_run; exact E4).
    cbv beta iota. unfold count_created at 1.
    erewrite bind_ok by reflexivity. reflexivity. }
  split.
  { exists sid, gid, stid.
    pose proof (proj1 A2) as G2. pose proof (proj1 A3) as G3.
    pose proof (proj1 A4) as G4.
    repeat split; auto.
    - eapply grows_query; [|exact Q1].
      eapply grows_trans; [exact G2|]. eapply grows_trans; eauto.
    - eapply grows_query; [|exact Q2]. eapply grows_trans; eauto.
    - eapply grows_query; [|exact Q3]. exact G4. }
  split; [exact I4|].
  eapply advances_trans; [exact A1|]. eapply advances_trans; [exact A2|].
  eapply advances_trans; [exact A3|exact A4].
Qed.

Lemma field_run {S} row col (s : S) :
  field row col s
  = match field_text row col with
    | Some v => (inr v, s)
    | None => (inl AttributeError, s)
    end.
Proof.
  unfold field, field_text. destruct (row !! col) as [[x|]|]; reflexivity.
Qed.

(** The [try] block, by the fields of the line. *)
Lemma import_row_body_fields row st :
  import_row_body row st
  = match row_fields row with
    | Some (a, b, c, d, ty, tx) =>
        if forallb nonempty [a; b; c; d; ty; tx]
        then bind (resolve_hierarchy a b c d)
               (fun substrand => import_item substrand ty tx) st
        else incr_error st
    | None => (inl AttributeError, st)
    end.
Proof.
  unfold import_row_body, row_fields.
  unfold bind at 1. rewrite field_run.
  destruct (field_text row "Subject") as [a|]; [|reflexivity].
  unfold bind at 1. rewrite field_run.
  destruct (field_text row "Grade") as [b|]; [|reflexivity].
  unfold bind at 1. rewrite field_run.
  destruct (field_text row "Strand") as [c|]; [|reflexivity].
  unfold bind at 1. rewrite field_run.
  destruct (field_text row "SubStrand") as [d|]; [|reflexivity].
  unfold bind at 1. rewrite field_run.
  destruct (field_text row "ItemType") as [ty|]; [|reflexivity].
  unfold bind at 1. rewrite field_run.
  destruct (field_text row "ItemText") as [tx|]; [|reflexivity].
  by destruct (forallb nonempty _).
Qed.

Lemma import_item_effect m kind col substrand ssid tx db p cs e :
  (m = LearningOutcome /\ kind = "LearningOutcome" /\ col = "description"
   \/ m = KeyInquiryQuestion /\ kind = "KeyInquiryQuestion"
      /\ col = "question_text") ->
  substrand !! "id" = Some ssid -> has_ids db ->
  exists db5 cs5,
    import_item (Some substrand) kind tx (Importer (World db []) p cs e)
    = (inr tt, Importer (World db5 []) p cs5 e)
    /\ is_Some (query_first db5 m
                  (<["substrand_id" := ssid]> {[ col := VStr tx ]}))
    /\ advances db cs db5 cs5.
Proof.
  intros Hm Hid Hdb.
  assert (Hcol : col <> "id") by (destruct Hm as [(_&_&->)|(_&_&->)]; done).
  destruct (key_item col ssid tx Hcol) as (K1 & K2 & K3).
  assert (Hk : key_within m (<["substrand_id" := ssid]> {[ col := VStr tx ]}))
    by (destruct Hm as [(->&_&_)|(->&_&_)]; assumption).
  assert (Hin : (kind, m) ∈ kinds).
  { destruct Hm as [(->&->&_)|(->&->&_)]; apply kinds_members. }
  destruct (get_or_create_effect kind m _ db cs Hin K1 Hk Hdb)
    as (item & c5 & db5 & E5 & Q5 & A5 & _).
  exists db5, (bump kind c5 cs). split; [|split; [eauto|exact A5]].
  unfold import_item.
  destruct Hm as [(-> & -> & ->)|(-> & -> & ->)].
  - rewrite String.eqb_refl.
    erewrite bind_ok by (apply attr_ok; exact Hid).
    erewrite bind_ok by (apply with_session_run; exact E5).
    reflexivity.
  - assert (String.eqb "KeyInquiryQuestion" "LearningOutcome" = false)
      as -> by reflexivity.
    rewrite String.eqb_refl.
    erewrite bind_ok by (apply attr_ok; exact Hid).
    erewrite bind_ok by (apply with_session_run; exact E5).
    reflexivity.
Qed.

Lemma settled_grows db db' row :
  grows db db' -> settled db row -> settled db' row.
Proof.
  intros Hg. unfold settled.
  destruct (row_fields row) as [[[[[[a b] c] d] ty] tx]|]; [|done].
  intros H Hne.
  destruct (H Hne) as (subject & grade & strand & substrand & ssid
                       & R & I & L & K).
  exists subject, grade, strand, substrand, ssid.
  split; [by eapply resolved_grows|]. split; [done|].
  split; intros Hty.
  - destruct (L Hty) as [x Hx]. exists x. by eapply grows_query.
  - destruct (K Hty) as [x Hx]. exists x. by eapply grows_query.
Qed.

(** A settled line changes neither the store nor the counts. *)
Lemma settled_replay db row p cs e :
  settled db row ->
  import_row row (Importer (World db []) p cs e)
  = (inr tt, Importer (World db []) (S p) cs
               (if bad_row row then S e else e)).
Proof.
  intros Hs. unfold settled in Hs. unfold bad_row.
  destruct (row_fields row) as [[[[[[a b] c] d] ty] tx]|] eqn:Hf.
  - destruct (forallb nonempty [a; b; c; d; ty; tx]) eqn:Hne.
    + destruct (Hs eq_refl) as (subject & grade & strand & substrand & ssid
                                & R & I & L & K).
      assert (Hres : forall st, committed (session st) = db ->
                resolve_hierarchy a b c d st = (inr (Some substrand), st)).
      { intros st <-.
        by apply (resolve_hierarchy_replay a b c d subject grade strand). }
      destruct (String.eqb ty "LearningOutcome") eqn:T1.
      { apply String.eqb_eq in T1. destruct (L T1) as [item Hq].
        erewrite import_row_run;
          [|rewrite import_row_body_fields, Hf, Hne;
            erewrite bind_ok by (by apply Hres);
            eapply (import_item_found LearningOutcome); eauto].
        reflexivity. }
      destruct (String.eqb ty "KeyInquiryQuestion") eqn:T2.
      { apply String.eqb_eq in T2. destruct (K T2) as [item Hq].
        erewrite import_row_run;
          [|rewrite import_row_body_fields, Hf, Hne;
            erewrite bind_ok by (by apply Hres);
            eapply (import_item_found KeyInquiryQuestion); eauto].
        reflexivity. }
      apply String.eqb_neq in T1, T2.
      erewrite import_row_run;
        [|rewrite import_row_body_fields, Hf, Hne;
          erewrite bind_ok by (by apply Hres);
          by apply import_item_other].
      reflexivity.
    + erewrite import_row_run;
        [|rewrite import_row_body_fields, Hf, Hne; reflexivity].
      reflexivity.
  - erewrite import_row_run;
      [|rewrite import_row_body_fields, Hf; reflexivity].
    reflexivity.
Qed.

(** What one line does to a store nobody else writes to. *)
Lemma import_row_effect db row p cs e :
  has_ids db ->
  exists db' cs',
    import_row row (Importer (World db []) p cs e)
    = (inr tt, Importer (World db' []) (S p) cs'
                 (if bad_row row then S e else e))
    /\ advances db cs db' cs' /\ settled db' row.
Proof.
  intros Hdb. unfold settled, bad_row.
  destruct (row_fields row) as [[[[[[a b] c] d] ty] tx]|] eqn:Hf.
  - destruct (forallb nonempty [a; b; c; d; ty; tx]) eqn:Hne.
    + destruct (resolve_hierarchy_effect a b c d db (S p) cs e Hdb)
        as (subject & grade & strand & substrand & ssid & db4 & cs4
            & E4 & R4 & I4 & A4).
      pose proof (proj1 (proj2 A4)) as Hdb4.
      destruct (String.eqb ty "LearningOutcome") eqn:T1.
      { apply String.eqb_eq in T1. subst ty.
        destruct (import_item_effect LearningOutcome "LearningOutcome"
                    "description" substrand ssid tx db4 (S p) cs4 e)
          as (db5 & cs5 & E5 & Q5 & A5); auto.
        exists db5, cs5. split; [|split].
        - erewrite import_row_run;
            [|rewrite import_row_body_fields, Hf, Hne;
              erewrite bind_ok by exact E4; exact E5].
          reflexivity.
        - eapply advances_trans; eauto.
        - intros _. exists subject, grade, strand, substrand, ssid.
          split; [eapply resolved_grows; [apply A5|exact R4]|].
          split; [done|]. split; [done|discriminate]. }
      destruct (String.eqb ty "KeyInquiryQuestion") eqn:T2.
      { apply String.eqb_eq in T2. subst ty.
        destruct (import_item_effect KeyInquiryQuestion "KeyInquiryQuestion"
                    "question_text" substrand ssid tx db4 (S p) cs4 e)
          as (db5 & cs5 & E5 & Q5 & A5); auto.
        exists db5, cs5. split; [|split].
        - erewrite import_row_run;
            [|rewrite import_row_body_fields, Hf, Hne;
              erewrite bind_ok by exact E4; exact E5].
          reflexivity.
        - eapply advances_trans; eauto.
        - intros _. exists subject, grade, strand, substrand, ssid.
          split; [eapply resolved_grows; [apply A5|exact R4]|].
          split; [done|]. split; [discriminate|done]. }
      apply String.eqb_neq in T1, T2.
      exists db4, cs4. split; [|split].
      * erewrite import_row_run;
          [|rewrite import_row_body_fields, Hf, Hne;
            erewrite bind_ok by exact E4; by apply import_item_other].
        reflexivity.
      * exact A4.
      * intros _. exists subject, grade, strand, substrand, ssid.
        split; [done|]. split; [done|]. split; intros; congruence.
    + exists db, cs. split; [|split].
      * erewrite import_row_run;
          [|rewrite import_row_body_fields, Hf, Hne; reflexivity].
        reflexivity.
      * by apply advances_refl.
      * discriminate.
  - exists db, cs. split; [|split].
    + erewrite import_row_run;
        [|rewrite import_row_body_fields, Hf; reflexivity].
      reflexivity.
    + by apply advances_refl.
    + done.
Qed.

Lemma count_bad_cons row rows :
  length (filter (fun x => bad_row x = true) (row :: rows))
  = ((if bad_row row then 1 else 0)
     + length (filter (fun x => bad_row x = true) rows))%nat.
Proof.
  destruct (bad_row row) eqn:B.
  - by rewrite filter_cons_True.
  - rewrite filter_cons_False; [done|]. by rewrite B.
Qed.

Lemma import_rows_effect rows db p cs e :
  has_ids db ->
  exists db' cs',
    import_rows rows (Importer (World db []) p cs e)
    = (inr tt,
       Importer (World db' []) (p + length rows) cs'
         (e + length (filter (fun x => bad_row x = true) rows)))
    /\ advances db cs db' cs' /\ Forall (settled db') rows.
Proof.
  revert db p cs e. induction rows as [|row rows IH]; intros db p cs e Hdb.
  - exists db, cs. cbn [import_rows length]. rewrite filter_nil.
    cbn [length]. rewrite !Nat.add_0_r. split; [done|]. split; [by apply advances_refl|].
    constructor.
  - destruct (import_row_effect db row p cs e Hdb)
      as (db1 & cs1 & E1 & A1 & S1).
    destruct (IH db1 (S p) cs1 (if bad_row row then S e else e)
                (proj1 (proj2 A1)))
      as (db2 & cs2 & E2 & A2 & S2).
    exists db2, cs2. split; [|split].
    + cbn [import_rows]. erewrite bind_ok by exact E1. rewrite E2.
      rewrite count_bad_cons. cbn [length].
      f_equal. f_equal; [lia|destruct (bad_row row); lia].
    + eapply advances_trans; eauto.
    + constructor; [|done]. eapply settled_grows; [apply A2|done].
Qed.

Lemma import_rows_replay rows db p cs e :
  Forall (settled db) rows ->
  import_rows rows (Importer (World db []) p cs e)
  = (inr tt,
     Importer (World db []) (p + length rows) cs
       (e + length (filter (fun x => bad_row x = true) rows))).
Proof.
  revert p e. induction rows as [|row rows IH]; intros p e Hs.
  - cbn [import_rows length]. rewrite filter_nil. cbn [length].
    by rewrite !Nat.add_0_r.
  - apply Forall_cons in Hs as [H1 H2].
    cbn [import_rows]. erewrite bind_ok by (by apply settled_replay).
    rewrite IH by done. rewrite count_bad_cons. cbn [length].
    f_equal. f_equal; [lia|destruct (bad_row row); lia].
Qed.

Lemma header_complete fieldnames :
  required_columns ⊆ fieldnames ->
  forallb (fun col => bool_decide (col ∈ fieldnames)) required_columns = true.
Proof.
  intros H. apply forallb_forall. intros c Hc. apply bool_decide_eq_true.
  apply H. by apply list_elem_of_In.
Qed.

(** A whole file on a store nobody else writes to. *)
Lemma import_file_effect path fieldnames rows db :
  required_columns ⊆ fieldnames -> has_ids db ->
  exists db' cs',
    import_curriculum path (CsvFile (Some fieldnames) rows) (World db [])
    = (Summary (length rows) cs'
         (length (filter (fun x => bad_row x = true) rows)), World db' [])
    /\ advances db initial_counts db' cs' /\ Forall (settled db') rows.
Proof.
  intros Hh Hdb. unfold import_curriculum.
  rewrite (header_complete _ Hh). simpl negb. cbv iota.
  destruct (import_rows_effect rows db 0 initial_counts 0 Hdb)
    as (db' & cs' & E & A & S).
  exists db', cs'. rewrite E. simpl. auto.
Qed.

Lemma import_file_replay path fieldnames rows db :
  required_columns ⊆ fieldnames -> Forall (settled db) rows ->
  import_curriculum path (CsvFile (Some fieldnames) rows) (World db [])
  = (Summary (length rows) initial_counts
       (length (filter (fun x => bad_row x = true) rows)), World db []).
Proof.
  intros Hh Hs. unfold import_curriculum.
  rewrite (header_complete _ Hh). simpl negb. cbv iota.
  by rewrite (import_rows_replay rows db 0 initial_counts 0 Hs).
Qed.

(** X7: importing a whole file twice.  On a store whose rows have
    primary keys and with nobody else writing, for every file whose header
    has the six columns, whatever its rows (good or bad, learning outcomes
    or key inquiry questions): the second run on the store the first run
    left reports no created item of any kind and the same number of
    errors, and leaves the store as it is. *)
Theorem import_file_twice path fieldnames rows db :
  required_columns ⊆ fieldnames -> has_ids db ->
  exists counts errors db1,
    import_curriculum path (CsvFile (Some fieldnames) rows) (World db [])
    = (Summary (length rows) counts errors, World db1 [])
    /\ import_curriculum path (CsvFile (Some fieldnames) rows) (World db1 [])
       = (Summary (length rows) initial_counts errors, World db1 []).
Proof.
  intros Hh Hdb.
  destruct (import_file_effect path fieldnames rows db Hh Hdb)
    as (db1 & cs1 & E & _ & S).
  eexists _, _, db1. split; [exact E|]. by apply import_file_replay.
Qed.

(** X8: the summary counts rows.  With nobody else writing, the
    created count the summary reports for each of the six kinds is exactly
    the number of rows the table of that kind has gained. *)
Theorem import_counts_are_rows path fieldnames rows db :
  required_columns ⊆ fieldnames -> has_ids db ->
  exists counts errors db1,
    import_curriculum path (CsvFile (Some fieldnames) rows) (World db [])
    = (Summary (length rows) counts errors, World db1 [])
    /\ forall kind m, (kind, m) ∈ kinds ->
         (length (table db1 m)
          = length (table db m) + counts !!! kind)%nat.
Proof.
  intros Hh Hdb.
  destruct (import_file_effect path fieldnames rows db Hh Hdb)
    as (db1 & cs1 & E & (_ & _ & A) & _).
  eexists _, _, db1. split; [exact E|].
  intros kind m Hin. specialize (A kind m Hin).
  assert (initial_counts !!! kind = 0%nat) as Hz; [|lia].
  unfold kinds in Hin.
  repeat (apply elem_of_cons in Hin as [Hin|Hin];
          [injection Hin as -> ->; reflexivity|]).
  by apply elem_of_nil in Hin.
Qed.


End QuietRunFacts.

Section HeaderFacts.

(** X10: the header is checked before any row.  When one of the six
    required columns is missing from the header the command stops with the
    message about the required columns, no row is processed and the world
    is untouched, whatever the rows are; a file without a header line ends
    in the summary with no row processed and one error. *)
Theorem header_is_checked_before_rows path fieldnames rows w col :
  col ∈ required_columns -> col ∉ fieldnames ->
  import_curriculum path (CsvFile (Some fieldnames) rows) w
  = (Aborted
       "Error: CSV file missing required columns (Subject, Grade, Strand, SubStrand, ItemType, ItemText)",
     w)
  /\ import_curriculum path (CsvFile None rows) w
     = (Summary 0 initial_counts 1, w).
Proof.
  intros Hreq Hmiss. split; [|reflexivity]. unfold import_curriculum.
  assert (forallb (fun c => bool_decide (c ∈ fieldnames)) required_columns
          = false) as ->; [|reflexivity].
  apply not_true_is_false. intros H. rewrite forallb_forall in H.
  apply list_elem_of_In in Hreq. specialize (H col Hreq).
  by apply bool_decide_eq_true in H.
Qed.

End HeaderFacts.

(** ** Fenced answers *)

Section FenceFacts.

Context (json_loads : string -> string + json).

Local Arguments String.append !_ _ / : simpl nomatch.

Lemma rstrip_app_kept s t :
  rstrip t = t -> t <> EmptyString -> rstrip (s +:+ t) = s +:+ t.
Proof.
  intros Ht Hne. induction s as [|c s IH]; simpl; [exact Ht|].
  rewrite IH. destruct (s +:+ t) eqn:E; [|reflexivity].
  destruct s; simpl in E; [congruence|discriminate].
Qed.

Lemma fenced_core_is_trimmed inner :
  strip ("```json" +:+ inner +:+ "```") = "```json" +:+ inner +:+ "```".
Proof.
  unfold strip.
  assert (lstrip ("```json" +:+ inner +:+ "```")
          = "```json" +:+ inner +:+ "```") as -> by reflexivity.
  rewrite <- app_assoc_str. by apply rstrip_app_kept.
Qed.

(** X11: unwrapping a fenced answer.  An answer made of the
    JSON-annotated fence, the payload and the closing fence, with any
    white space around each of them, is cleaned to the trimmed payload; so
    when that payload decodes, single-outcome mode answers 200 with the
    decoded list and full-test mode answers 200 with the decoded value. *)
Theorem fenced_answer_is_unwrapped pad1 ws1 body ws2 pad2 :
  blank pad1 = true -> blank ws1 = true ->
  blank ws2 = true -> blank pad2 = true ->
  let text := pad1 +:+ "```json" +:+ ws1 +:+ body +:+ ws2 +:+ "```" +:+ pad2 in
  clean_response_text text = strip body
  /\ (forall email lo_id items,
        strip body <> EmptyString ->
        json_loads (strip body) = inr (JList items) ->
        result (parse_questions json_loads email lo_id text)
        = Response 200 (JList items))
  /\ (forall v,
        strip body <> EmptyString -> json_loads (strip body) = inr v ->
        parse_test json_loads text = respond 200 v).
Proof.
  intros B1 B2 B3 B4 text.
  assert (E : clean_response_text text = strip body).
  { unfold text, clean_response_text.
    assert (pad1 +:+ "```json" +:+ ws1 +:+ body +:+ ws2 +:+ "```" +:+ pad2
            = pad1 +:+ ("```json" +:+ (ws1 +:+ body +:+ ws2) +:+ "```")
                +:+ pad2) as ->.
    { f_equal. rewrite !app_assoc_str. reflexivity. }
    rewrite strip_padded by done. rewrite fenced_core_is_trimmed.
    rewrite removeprefix_app, removesuffix_app. by apply strip_padded. }
  split; [exact E|]. split.
  - intros email lo_id items Hne Hv. unfold parse_questions. rewrite E.
    destruct (strip body) as [|ch rest] eqn:Hs; [done|].
    simpl nonempty. simpl negb. cbv iota. rewrite Hv.
    by destruct items.
  - intros v Hne Hv. unfold parse_test. rewrite E.
    destruct (strip body) as [|ch rest] eqn:Hs; [done|].
    simpl nonempty. simpl negb. cbv iota. by rewrite Hv.
Qed.

(** X12: an answer without fences.  When the trimmed text neither
    begins with the JSON-annotated fence nor ends with a fence, cleaning is
    trimming, and cleaning the cleaned text again changes nothing. *)
Theorem unfenced_answer_is_trimmed text :
  startswith "```json" (strip text) = false ->
  (forall before, strip text <> before +:+ "```") ->
  clean_response_text text = strip text
  /\ clean_response_text (clean_response_text text)
     = clean_response_text text.
Proof.
  intros Hp Hs.
  assert (E : forall t, strip t = strip text ->
            clean_response_text t = strip text).
  { intros t Ht. unfold clean_response_text. rewrite Ht.
    rewrite removeprefix_other by done.
    rewrite removesuffix_other by done. apply strip_idem. }
  split; [by apply E|]. rewrite (E text) by done. apply E, strip_idem.
Qed.

End FenceFacts.

(** ** Every request of the generation endpoints *)

Section QuestionRequestFacts.

Context (py_int : json -> option Z) (repr : json -> string)
  (json_loads : string -> string + json)
  (ai_model : option (string -> exn + string)).

Local Notation questions_endpoint :=
  (generate_questions_endpoint py_int repr json_loads ai_model).

Implicit Types (db : gmap string (list (gmap string value))).
Implicit Types (fields : list (string * json)).

Ltac in_list :=
  repeat first [apply list_elem_of_here | apply list_elem_of_further].

Lemma q_type_map_values k v : q_type_map !! k = Some v -> v ∈ allowed_q.
Proof.
  rewrite q_type_map_lookup.
  destruct (decide (k = "mcq")); [intros [= <-]; unfold allowed_q; left|].
  destruct (decide (k ∈ allowed_q)); [by intros [= <-]|discriminate].
Qed.

(** Membership tests raise exactly on payloads that are no containers. *)
Lemma all_in_raises f req data :
  all_in (f :: req) data = None ->
  data = JNull \/ (exists b, data = JBool b) \/ (exists n, data = JInt n)
  \/ exists x, data = JFloat x.
Proof.
  destruct data as [|b|n|x|s|items|fields]; eauto 6.
  - intros H. exfalso. revert H. generalize (f :: req).
    induction l as [|g l IH]; simpl; [discriminate|].
    destruct (contains g s); [exact IH|discriminate].
  - intros H. exfalso. revert H. generalize (f :: req).
    induction l as [|g l IH]; simpl; [discriminate|].
    destruct (existsb (is_str g) items); [exact IH|discriminate].
  - rewrite all_in_object. discriminate.
Qed.

(** After the membership test the conversions either give the three
    values, or fail by a TypeError of the subscript, or by the exception
    that [int] raises on the identifier or on the count. *)
Lemma parse_fields_inv data :
  all_in ["learning_outcome_id"; "num_questions"; "question_type"] data
  = Some true ->
  match parse_fields py_int repr data with
  | inl e =>
      e = TypeError
      \/ exists fields k x,
           data = JObj fields
           /\ k ∈ ["learning_outcome_id"; "num_questions"]
           /\ dict_get k fields = Some x /\ py_int x = None
           /\ e = int_error x
  | inr (lo_id, num_q, q) =>
      exists fields b c,
        data = JObj fields
        /\ dict_get "num_questions" fields = Some b
        /\ py_int b = Some num_q
        /\ dict_get "question_type" fields = Some c
        /\ q = lower (py_str repr c)
  end.
Proof.
  destruct data as [|b|n|x|s|items|fields]; try discriminate;
    try (intros _; by left).
  rewrite all_in_object. intros [= H]. simpl in H.
  apply andb_true_iff in H as [Ha H]. apply andb_true_iff in H as [Hb H].
  apply andb_true_iff in H as [Hc _].
  apply bool_decide_eq_true in Ha as [a Ha].
  apply bool_decide_eq_true in Hb as [b Hb].
  apply bool_decide_eq_true in Hc as [c Hc].
  unfold parse_fields, subscript. rewrite Ha, Hb, Hc.
  destruct (py_int a) as [lo_id|] eqn:Ea.
  - destruct (py_int b) as [num_q|] eqn:Eb.
    + exists fields, b, c. auto.
    + right. exists fields, "num_questions", b.
      repeat split; auto. in_list.
  - right. exists fields, "learning_outcome_id", a.
    repeat split; auto. in_list.
Qed.

Lemma conversion_failure_inv e :
  conversion_failure e
  = respond 400 (error_body "Invalid data types for required fields")
  \/ conversion_failure e = Outcome (Unhandled e) []
     /\ e <> TypeError /\ forall msg, e <> ValueError msg.
Proof. destruct e; simpl; auto; right; repeat split; discriminate. Qed.

Lemma int_error_inv x :
  int_error x = TypeError \/ (exists msg, int_error x = ValueError msg)
  \/ int_error x = OverflowError /\ exists neg, x = JFloat (Infinite neg).
Proof.
  destruct x as [| | |[| |]| | |]; simpl; eauto.
Qed.

(** The ways a request can go: turned away with 400 and an empty trace; a
    crash on a payload that is a number or a boolean; a crash on an
    identifier or a count that is an infinite number; or on to the lookup
    of the context with a count in range and a mapped kind. *)
Lemma questions_endpoint_inv db email request :
  (exists body,
     questions_endpoint db email request = Outcome (Response 400 body) [])
  \/ (questions_endpoint db email request = Outcome (Unhandled TypeError) []
      /\ exists data, request = Some data /\ truthy data = true
           /\ ((exists b, data = JBool b) \/ (exists n, data = JInt n)
               \/ exists x, data = JFloat x))
  \/ (questions_endpoint db email request
      = Outcome (Unhandled OverflowError) []
      /\ exists fields k neg,
           request = Some (JObj fields)
           /\ k ∈ ["learning_outcome_id"; "num_questions"]
           /\ dict_get k fields = Some (JFloat (Infinite neg)))
  \/ (exists fields b c lo_id num_q kind,
        request = Some (JObj fields)
        /\ dict_get "num_questions" fields = Some b
        /\ py_int b = Some num_q
        /\ dict_get "question_type" fields = Some c
        /\ q_type_map !! lower (py_str repr c) = Some kind
        /\ 1 <= num_q <= 20 /\ kind ∈ allowed_q
        /\ questions_endpoint db email request
           = match fetch_context db lo_id with
             | (reads, inl answer) => emit reads answer
             | (reads, inr (subject, grade, strand, substrand,
                            outcome_description)) =>
                 emit reads
                   (call_ai json_loads ai_model email lo_id
                      (question_prompt num_q kind subject grade strand
                         substrand outcome_description))
             end).
Proof.
  unfold generate_questions_endpoint.
  destruct request as [data|]; [|left; eauto].
  destruct (truthy data) eqn:Ht; simpl negb; cbv iota; [|left; eauto].
  destruct (all_in _ data) as [[|]|] eqn:Hall; [| left; eauto |].
  - pose proof (parse_fields_inv data Hall) as Hp.
    destruct (parse_fields py_int repr data) as [e|[[lo_id num_q] q]].
    { destruct Hp as [->|(fields & k & x & -> & Hk & Hx & Ex & ->)];
        [left; simpl; eauto|].
      destruct (int_error_inv x) as [E|[[msg E]|[E [neg ->]]]]; rewrite E.
      - left. simpl. eauto.
      - left. simpl. eauto.
      - right. right. left. split; [reflexivity|]. eauto 6. }
    destruct Hp as (fields & b & c & -> & Hb & Eb & Hc & ->).
    destruct ((0 <? num_q) && (num_q <=? 20)) eqn:Hr; simpl negb; cbv iota;
      [|left; eauto].
    apply andb_true_iff in Hr as [H1 H2].
    apply Z.ltb_lt in H1. apply Z.leb_le in H2.
    destruct (q_type_map !! lower (py_str repr c)) as [[|ch kind]|] eqn:Hq;
      [left; eauto| |left; eauto].
    right. right. right.
    exists fields, b, c, lo_id, num_q, (String ch kind).
    repeat split; auto; try lia. by eapply q_type_map_values.
  - right. left. split; [reflexivity|]. exists data.
    split; [done|]. split; [done|].
    apply all_in_raises in Hall as [->|H]; [discriminate|exact H].
Qed.

Lemma fetch_context_answer db lo_id reads answer :
  fetch_context db lo_id = (reads, inl answer) ->
  (exists body, result answer = Response 404 body
                \/ result answer = Response 500 body)
  /\ forall p, AiCall p ∉ trace answer.
Proof.
  unfold fetch_context.
  destruct (get_by_id db LearningOutcome (VInt lo_id)) as [lo|];
    [destruct (related db SubStrand lo "substrand_id") as [ss|];
     [destruct (related db Strand ss "strand_id") as [s|];
      [destruct (related db Subject s "subject_id") as [subj|];
       [destruct (related db Grade s "grade_id") as [gr|];
        [destruct (context_names subj gr s ss lo)|]|]|]|]|];
    intros [= _ <-]; (split; [eexists; simpl; eauto|]);
    intros p H; simpl in H;
    repeat (apply elem_of_cons in H as [H|H]; [discriminate|]);
    inversion H.
Qed.

Lemma call_ai_result email lo_id prompt :
  exists body,
    result (call_ai json_loads ai_model email lo_id prompt) = Response 200 body
    \/ result (call_ai json_loads ai_model email lo_id prompt)
       = Response 500 body.
Proof.
  unfold call_ai. destruct ai_model as [generate|]; [|simpl; eauto].
  rewrite result_after. destruct (generate prompt) as [e|text];
    [simpl; eauto|].
  unfold parse_questions.
  destruct (negb _); [simpl; eauto|].
  destruct (json_loads _) as [err|v]; [simpl; eauto|].
  destruct v as [| | | | |items|]; try (simpl; by eauto).
  destruct items; simpl; eauto.
Qed.

Lemma call_ai_sends email lo_id prompt p :
  AiCall p ∈ trace (call_ai json_loads ai_model email lo_id prompt) ->
  p = prompt /\ is_Some ai_model.
Proof.
  unfold call_ai. destruct ai_model as [generate|].
  - intros H. split; [|eauto]. simpl in H.
    apply elem_of_cons in H as [[= ->]|H]; [done|]. exfalso.
    destruct (generate prompt) as [e|text].
    + simpl in H. apply list_elem_of_singleton in H. discriminate.
    + apply parse_questions_trace in H as (l & m & H). discriminate.
  - simpl. intros H. apply list_elem_of_singleton in H. discriminate.
Qed.

(** X13: what reaches the AI in single-outcome mode.  Whatever the
    request, a prompt that the endpoint sends to the AI is the rendered
    document for a count between 1 and 20, one of the four mapped kinds,
    and the five names of a learning outcome whose context resolved in the
    store; and it is only sent when an AI client is configured. *)
Theorem questions_prompt_is_validated db email request p :
  AiCall p ∈ trace (questions_endpoint db email request) ->
  exists lo_id num_q kind reads subject grade strand substrand description,
    1 <= num_q <= 20 /\ kind ∈ allowed_q
    /\ fetch_context db lo_id
       = (reads, inr (subject, grade, strand, substrand, description))
    /\ p = question_prompt num_q kind subject grade strand substrand
             description
    /\ is_Some ai_model.
Proof.
  destruct (questions_endpoint_inv db email request)
    as [[body ->]|[[-> _]|[[-> _]|(fields & b & c & lo_id & num_q & kind
                                   & _ & _ & _ & _ & _ & Hr & Hk & ->)]]];
    [intros H; inversion H..|].
  destruct (fetch_context db lo_id)
    as [reads [answer|[[[[subject grade] strand] substrand] description]]]
    eqn:Hctx; simpl; intros H; apply elem_of_app in H as [H|H].
  - destruct (fetch_context_reads _ _ _ _ _ Hctx H) as [t Ht]. discriminate.
  - by destruct (proj2 (fetch_context_answer _ _ _ _ Hctx) p).
  - destruct (fetch_context_reads _ _ _ _ _ Hctx H) as [t Ht]. discriminate.
  - apply call_ai_sends in H as [-> Hai].
    exists lo_id, num_q, kind, reads, subject, grade, strand, substrand,
      description. auto.
Qed.

(** X14: the answers of the single-outcome endpoint.  Every response
    has status 200, 400, 404 or 500.  The view lets an exception escape in
    two cases only, both before any read of the store or call of the AI:
    a TypeError when the payload is a number or a boolean (the membership
    test on it), and an OverflowError when the identifier or the count is
    an infinite number.  A non-zero integer and true are such payloads. *)
Theorem questions_endpoint_statuses db email request :
  match result (questions_endpoint db email request) with
  | Response status _ => status ∈ [200; 400; 404; 500]
  | Unhandled e =>
      trace (questions_endpoint db email request) = []
      /\ (e = TypeError
          /\ (exists data, request = Some data
                /\ ((exists b, data = JBool b) \/ (exists n, data = JInt n)
                    \/ exists x, data = JFloat x))
          \/ e = OverflowError
             /\ exists fields k neg,
                  request = Some (JObj fields)
                  /\ k ∈ ["learning_outcome_id"; "num_questions"]
                  /\ dict_get k fields = Some (JFloat (Infinite neg)))
  end
  /\ (forall n, n <> 0 ->
        questions_endpoint db email (Some (JInt n))
        = Outcome (Unhandled TypeError) [])
  /\ questions_endpoint db email (Some (JBool true))
     = Outcome (Unhandled TypeError) [].
Proof.
  split; [|split].
  - destruct (questions_endpoint_inv db email request)
      as [[body ->]|[[-> (data & Hreq & _ & Hd)]|[[-> Hreq]
          |(fields & b & c & lo_id & num_q & kind
            & _ & _ & _ & _ & _ & Hr & Hk & ->)]]].
    + simpl. in_list.
    + simpl. split; [done|]. left. eauto.
    + simpl. split; [done|]. right. eauto.
    + destruct (fetch_context db lo_id)
        as [reads [answer|[[[[subject grade] strand] substrand] description]]]
        eqn:Hctx; rewrite result_emit.
      * destruct (fetch_context_answer _ _ _ _ Hctx) as [[body [->| ->]] _];
          in_list.
      * destruct (call_ai_result email lo_id
                    (question_prompt num_q kind subject grade strand
                       substrand description)) as [body [->| ->]];
          in_list.
  - intros n Hn. unfold generate_questions_endpoint. simpl.
    by destruct (n =? 0) eqn:E; [apply Z.eqb_eq in E|].
  - reflexivity.
Qed.

(** X15: a malformed kind or count never reaches the store.  For a
    payload object whose count does not convert to a number in 1..20, or
    whose kind, lower-cased, is none of the five accepted names, the trace
    is empty (no read of the store, no AI call, no log record); the answer
    is 400, or else the OverflowError of an infinite identifier or count
    has escaped. *)
Theorem bad_request_never_reaches_store db email fields b c :
  dict_get "num_questions" fields = Some b ->
  dict_get "question_type" fields = Some c ->
  (forall n, py_int b = Some n -> ~ (1 <= n <= 20))
  \/ lower (py_str repr c)
     ∉ ["mcq"; "multiple_choice"; "short_answer"; "true_false";
        "fill_in_the_blank"] ->
  trace (questions_endpoint db email (Some (JObj fields))) = []
  /\ ((exists body,
         result (questions_endpoint db email (Some (JObj fields)))
         = Response 400 body)
      \/ result (questions_endpoint db email (Some (JObj fields)))
         = Unhandled OverflowError
         /\ exists k neg,
              k ∈ ["learning_outcome_id"; "num_questions"]
              /\ dict_get k fields = Some (JFloat (Infinite neg))).
Proof.
  intros Hb Hc Hbad.
  destruct (questions_endpoint_inv db email (Some (JObj fields)))
    as [[body ->]|[[_ (data & [= <-] & _ & [[? ?]|[[? ?]|[? ?]]])]
        |[[-> (fields' & k & neg & [= <-] & Hk & Hx)]
         |(fields' & b' & c' & lo_id & num_q & kind
           & [= <-] & Hb' & Eb & Hc' & Hq & Hr & Hk & _)]]];
    try discriminate.
  - split; [done|]. left. simpl. eauto.
  - split; [done|]. right. simpl. eauto.
  - exfalso. rewrite Hb in Hb'. injection Hb' as <-.
    rewrite Hc in Hc'. injection Hc' as <-.
    destruct Hbad as [Hn|Hq'].
    + by apply (Hn num_q).
    + apply Hq'. rewrite q_type_map_lookup in Hq.
      destruct (decide (lower (py_str repr c) = "mcq")) as [->|N];
        [left|].
      destruct (decide (lower (py_str repr c) ∈ allowed_q)) as [Hin|];
        [|discriminate].
      by right.
Qed.

(** X16: an unknown learning outcome.  For a request that passes
    validation and whose identifier is the key of no learning outcome, the
    answer is 404 with the identifier in the message, after one read of
    the learning outcomes and nothing else: no other table is read and the
    AI is not called. *)
Theorem unknown_outcome_is_not_found db email fields a b c lo_id num_q :
  dict_get "learning_outcome_id" fields = Some a ->
  dict_get "num_questions" fields = Some b ->
  dict_get "question_type" fields = Some c ->
  py_int a = Some lo_id -> py_int b = Some num_q -> 1 <= num_q <= 20 ->
  is_Some (q_type_map !! lower (py_str repr c)) ->
  (forall r, r ∈ table db LearningOutcome -> r !! "id" <> Some (VInt lo_id)) ->
  questions_endpoint db email (Some (JObj fields))
  = Outcome
      (Response 404
         (error_body ("Learning Outcome ID " +:+ pretty lo_id
                      +:+ " not found.")))
      [StoreRead "learning_outcomes"].
Proof.
  intros Ha Hb Hc Ea Eb Hr [kind Hk] Hnone.
  rewrite (questions_endpoint_fields _ _ _ _ db _ _ _ _ _ Ha Hb Hc), Ea, Eb.
  assert ((0 <? num_q) && (num_q <=? 20) = true) as ->
    by (apply andb_true_iff; split; [apply Z.ltb_lt|apply Z.leb_le]; lia).
  simpl negb. cbv iota. rewrite Hk.
  assert (Hmiss : get_by_id db LearningOutcome (VInt lo_id) = None).
  { unfold get_by_id.
    destruct (find _ (table db LearningOutcome)) as [r|] eqn:Hf; [|done].
    apply find_found in Hf as [Hin Hid]. apply bool_decide_eq_true in Hid.
    by destruct (Hnone r Hin). }
  pose proof (q_type_map_values _ _ Hk) as Hin.
  destruct kind as [|ch kind].
  { exfalso. unfold allowed_q in Hin.
    repeat (apply elem_of_cons in Hin as [Hin|Hin]; [discriminate|]).
    inversion Hin. }
  unfold fetch_context. rewrite Hmiss. reflexivity.
Qed.

End QuestionRequestFacts.

Section TestRequestFacts.

Context (repr : json -> string) (json_loads : string -> string + json)
  (ai_model : option (string -> exn + string))
  (bind_param : json -> option value).

Local Notation full_test_endpoint :=
  (generate_full_test_endpoint repr json_loads ai_model bind_param).
Local Notation sections_of := (build_sections repr bind_param).

Implicit Types (db : gmap string (list (gmap string value))).
Implicit Types (fields : list (string * json)).

Local Arguments String.append !_ _ / : simpl nomatch.

Ltac in_list :=
  repeat first [apply list_elem_of_here | apply list_elem_of_further].

(** X17: the sections of a topic list compose.  The sections built
    for a list of topics followed by another are the sections of the first
    followed by those of the second, numbered on from the position the
    second list starts at, with the reads of both; an exception in the
    first list stops the loop before the second is looked at.  So a
    section carries the position of its topic in the request, whether or
    not earlier topics were skipped. *)
Theorem build_sections_app db i first rest :
  build_sections repr bind_param db i (first ++ rest)
  = match build_sections repr bind_param db i first with
    | (inl e, reads) => (inl e, reads)
    | (inr sections, reads) =>
        match build_sections repr bind_param db (i + Z.of_nat (length first)) rest with
        | (inl e, more) => (inl e, reads ++ more)
        | (inr others, more) => (inr (sections +:+ others), reads ++ more)
        end
    end.
Proof.
  revert i. induction first as [|topic first IH]; intros i.
  - cbn [app length build_sections]. rewrite Z.add_0_r.
    destruct (build_sections repr bind_param db i rest) as [[e|s] more];
      reflexivity.
  - cbn [app build_sections]. cbv zeta. rewrite IH.
    replace (i + Z.of_nat (length (topic :: first)))
      with (i + 1 + Z.of_nat (length first)) by (cbn [length]; lia).
    destruct topic as [| | | | | |tf]; try reflexivity.
    destruct (session_get _ _ _ _) as [ex|[strand|]]; [reflexivity| |].
    + destruct (outcomes_of_strand _ _ _) as [ex|los]; [reflexivity|].
      destruct (build_sections repr bind_param db (i + 1) first)
        as [[e1|s1] r1];
        destruct (build_sections repr bind_param db
                    (i + 1 + Z.of_nat (length first))
                    rest) as [[e2|s2] r2];
        destruct los as [|lo los]; cbn [fst snd]; try reflexivity;
        destruct (descriptions (lo :: los)) as [texts|];
        try reflexivity;
        destruct (strand !! "name") as [name|]; try reflexivity.
      by rewrite app_assoc_str.
    + destruct (build_sections repr bind_param db (i + 1) first)
        as [[e1|s1] r1];
        destruct (build_sections repr bind_param db
                    (i + 1 + Z.of_nat (length first))
                    rest) as [[e2|s2] r2]; reflexivity.
Qed.

Lemma parse_test_result text :
  exists body,
    result (parse_test json_loads text) = Response 200 body
    \/ result (parse_test json_loads text) = Response 500 body.
Proof.
  unfold parse_test. destruct (negb _); [simpl; eauto|].
  destruct (json_loads _); simpl; eauto.
Qed.

Lemma send_test_result subject grade sections :
  exists status body,
    result (send_test json_loads ai_model subject grade sections)
    = Response status body
    /\ status ∈ [200; 400; 500]
    /\ (status = 200 -> is_Some ai_model).
Proof.
  unfold send_test. destruct (negb _).
  { eexists _, _. split; [reflexivity|]. split; [in_list|discriminate]. }
  destruct (grade !! "name") as [g|];
    [destruct (subject !! "name") as [s|]|];
    try (eexists _, _; split; [reflexivity|]; split; [in_list|discriminate]).
  destruct ai_model as [generate|];
    [|eexists _, _; split; [reflexivity|]; split; [in_list|discriminate]].
  rewrite result_after. destruct (generate _) as [e|text].
  - eexists _, _. split; [reflexivity|]. split; [in_list|discriminate].
  - destruct (parse_test_result text) as [body [->| ->]];
      eexists _, _; (split; [reflexivity|]); (split; [in_list|eauto]).
Qed.

Lemma full_test_result db request :
  match result (full_test_endpoint db request) with
  | Response status _ =>
      status ∈ [200; 400; 404; 500] /\ (status = 200 -> is_Some ai_model)
  | Unhandled e =>
      e = AttributeError
      /\ exists data, request = Some data
                      /\ forall fields, data <> JObj fields
  end.
Proof.
  unfold generate_full_test_endpoint.
  destruct request as [[| | | | | |fields]|];
    try (simpl; split; [reflexivity|]; eexists; split; [reflexivity|];
         intros; discriminate).
  2:{ simpl. split; [in_list|discriminate]. }
  destruct (_ || _); [simpl; split; [in_list|discriminate]|].
  rewrite result_after.
  destruct (session_get _ _ Subject _) as [e|subject];
    [simpl; split; [in_list|discriminate]|].
  rewrite result_after.
  destruct (session_get _ _ Grade _) as [e|grade];
    [simpl; split; [in_list|discriminate]|].
  destruct subject as [subject|]; [|simpl; split; [in_list|discriminate]].
  destruct grade as [grade|]; [|simpl; split; [in_list|discriminate]].
  destruct (build_sections _ _ _ _ _) as [[e|sections] reads];
    rewrite result_emit; [simpl; split; [in_list|discriminate]|].
  destruct (send_test_result subject grade sections)
    as (status & body & -> & Hs & Hai).
  split; [|exact Hai].
  repeat (apply elem_of_cons in Hs as [->|Hs]; [in_list|]). inversion Hs.
Qed.

(** X18: the answers of the full-test endpoint.  Every response has
    status 200, 400, 404 or 500, and the view lets an exception escape
    exactly when the payload is JSON but not an object (an AttributeError
    of its [get]). *)
Theorem full_test_statuses db request :
  match result (generate_full_test_endpoint repr json_loads ai_model
                  bind_param db request) with
  | Response status _ => status ∈ [200; 400; 404; 500]
  | Unhandled e =>
      e = AttributeError
      /\ exists data, request = Some data
                      /\ forall fields, data <> JObj fields
  end
  /\ (forall data, (forall fields, data <> JObj fields) ->
        full_test_endpoint db (Some data)
        = Outcome (Unhandled AttributeError) []).
Proof.
  split.
  - pose proof (full_test_result db request) as H.
    destruct (result (full_test_endpoint db request)); [tauto|exact H].
  - intros data Hd. destruct data; try reflexivity. by destruct (Hd fields).
Qed.

End TestRequestFacts.

(** X19: without an AI client nothing is generated.  When no AI model
    is configured, neither generation endpoint ever calls the AI and
    neither ever answers 200, whatever the request and the store. *)
Theorem no_client_no_generation py_int repr json_loads bind_param db email
  request :
  let single :=
    generate_questions_endpoint py_int repr json_loads None db email request in
  let full :=
    generate_full_test_endpoint repr json_loads None bind_param db request in
  no_ai_call (trace single) /\ no_ai_call (trace full)
  /\ (forall body, result single <> Response 200 body)
  /\ (forall body, result full <> Response 200 body).
Proof.
  intros single full. split; [|split; [|split]].
  - intros p H.
    destruct (questions_endpoint_inv py_int repr json_loads None db email
                request)
      as [[body E]|[[E _]|[[E _]|(fields & b & c & lo_id & num_q & kind
                                  & _ & _ & _ & _ & _ & Hr & Hk & E)]]];
      unfold single in H; rewrite E in H; try (by inversion H).
    destruct (fetch_context db lo_id)
      as [reads [answer|[[[[subject grade] strand] substrand] description]]]
      eqn:Hctx; simpl in H; apply elem_of_app in H as [H|H].
    + destruct (fetch_context_reads _ _ _ _ _ Hctx H) as [t Ht]. discriminate.
    + by destruct (proj2 (fetch_context_answer _ _ _ _ Hctx) p).
    + destruct (fetch_context_reads _ _ _ _ _ Hctx H) as [t Ht]. discriminate.
    + apply list_elem_of_singleton in H. discriminate.
  - intros p H.
    unfold full, generate_full_test_endpoint in H.
    destruct request as [[| | | | | |fields]|]; try (by inversion H).
    destruct (_ || _); [by inversion H|].
    simpl trace in H. apply elem_of_cons in H as [H|H]; [discriminate|].
    destruct (session_get _ _ Subject _) as [e|subject];
      [by destruct (test_failure_trace _ _ H)|].
    simpl in H. apply elem_of_cons in H as [H|H]; [discriminate|].
    destruct (session_get _ _ Grade _) as [e|grade];
      [by destruct (test_failure_trace _ _ H)|].
    destruct subject as [subject|]; [|by inversion H].
    destruct grade as [grade|]; [|by inversion H].
    destruct (build_sections _ _ _ _ _) as [sections reads] eqn:E.
    simpl in H. apply elem_of_app in H as [H|H].
    + pose proof (build_sections_reads repr bind_param db 0
                    (items_of (default JNull (dict_get "topics" fields)))
                    (AiCall p)) as R.
      rewrite E in R. destruct (R H) as [t Ht]. discriminate.
    + destruct sections as [e|sections];
        [by destruct (test_failure_trace _ _ H)|].
      unfold send_test in H. destruct (negb _); [by inversion H|].
      destruct (grade !! "name"); [destruct (subject !! "name")|];
        try (by destruct (test_failure_trace _ _ H)).
      by inversion H.
  - intros body H.
    destruct (questions_endpoint_inv py_int repr json_loads None db email
                request)
      as [[b0 E]|[[E _]|[[E _]|(fields & b & c & lo_id & num_q & kind
                                & _ & _ & _ & _ & _ & Hr & Hk & E)]]];
      unfold single in H; rewrite E in H; try discriminate.
    destruct (fetch_context db lo_id)
      as [reads [answer|[[[[subject grade] strand] substrand] description]]]
      eqn:Hctx; rewrite result_emit in H.
    + destruct (fetch_context_answer _ _ _ _ Hctx) as [[b1 [E'|E']] _];
        rewrite E' in H; discriminate.
    + discriminate.
  - intros body H.
    pose proof (full_test_result repr json_loads None bind_param db request)
      as S.
    unfold full in H. rewrite H in S. destruct S as [_ S].
    destruct (S eq_refl) as [? ?]. discriminate.
Qed.

(** ** The read endpoints, the accounts and the session loader *)

Section ReadFacts.

Context (py_int : json -> option Z) (name_le : string -> string -> bool).

Implicit Types (db : gmap string (list (gmap string value))).
Implicit Types (args : gmap string string).

Lemma given_spec v : given v = true <-> exists n, v = Some n /\ n <> 0.
Proof.
  destruct v as [n|]; simpl.
  - rewrite negb_true_iff, Z.eqb_neq. split; [eauto|].
    by intros (k & [= <-] & H).
  - split; [discriminate|]. by intros (k & H & _).
Qed.

Lemma query_all_spec db m kw r :
  r ∈ query_all db m kw <-> kw ⊆ r /\ r ∈ table db m.
Proof. unfold query_all. apply list_elem_of_filter. Qed.

Lemma sorted_lookup {A} (R : relation A) (l : list A) i j a b :
  StronglySorted R l -> (i < j)%nat ->
  l !! i = Some a -> l !! j = Some b -> R a b.
Proof.
  intros HS. revert i j. induction HS as [|x l HS IH Hx]; intros i j Hij Hi Hj.
  - by rewrite lookup_nil in Hi.
  - destruct j as [|j]; [lia|]. simpl in Hj. destruct i as [|i].
    + injection Hi as <-. rewrite Forall_forall in Hx. apply Hx.
      by eapply list_elem_of_lookup_2.
    + simpl in Hi. apply (IH i j); [lia|done..].
Qed.

(** X20: the strands endpoint.  With all=true every strand is listed,
    whatever the other arguments.  Otherwise a subject or grade identifier
    that is missing, does not convert, or is 0 gives 400 without a read of
    the store; and for two non-zero identifiers the answer lists, after one
    read, exactly the strands of that subject and grade, each as often as
    it is stored, and in ascending order of name when the collation is a
    total and transitive order. *)
Theorem strands_are_filtered_and_sorted db args :
  (args !! "all" = Some "true" ->
   result (get_strands py_int name_le (inr db) args)
   = Response 200
       (JList (to_dict ["id"; "name"; "subject_id"; "grade_id"]
                 <$> order_by_name name_le (table db Strand))))
  /\ (args !! "all" <> Some "true" ->
      (forall s g, arg_int py_int args "subject_id" = Some s ->
                   arg_int py_int args "grade_id" = Some g ->
                   s = 0 \/ g = 0) ->
      forall store,
        get_strands py_int name_le store args
        = respond 400 (error_body "subject_id and grade_id are required"))
  /\ (forall s g,
        args !! "all" <> Some "true" ->
        arg_int py_int args "subject_id" = Some s ->
        arg_int py_int args "grade_id" = Some g -> s <> 0 -> g <> 0 ->
        exists rows,
          get_strands py_int name_le (inr db) args
          = Outcome
              (Response 200
                 (JList (to_dict ["id"; "name"; "subject_id"; "grade_id"]
                           <$> rows)))
              [StoreRead "strands"]
          /\ rows ≡ₚ query_all db Strand
                       (<["subject_id" := VInt s]> {[ "grade_id" := VInt g ]})
          /\ (forall r, r ∈ rows <->
                r ∈ table db Strand /\ r !! "subject_id" = Some (VInt s)
                /\ r !! "grade_id" = Some (VInt g))
          /\ ((forall a b, name_le a b = true \/ name_le b a = true) ->
              (forall a b c, name_le a b = true -> name_le b c = true ->
                             name_le a c = true) ->
              forall i j r1 r2, (i <= j)%nat ->
                rows !! i = Some r1 -> rows !! j = Some r2 ->
                name_le (name_of r1) (name_of r2) = true)).
Proof.
  split; [|split].
  - intros Hall. unfold get_strands.
    by rewrite bool_decide_eq_true_2 by done.
  - intros Hall Hmiss store. unfold get_strands.
    rewrite bool_decide_eq_false_2 by done.
    destruct (arg_int py_int args "subject_id") as [s|];
      [|reflexivity].
    destruct (arg_int py_int args "grade_id") as [g|];
      [|simpl; by rewrite andb_false_r].
    destruct (Hmiss s g eq_refl eq_refl) as [-> | ->]; simpl;
      [reflexivity|by rewrite andb_false_r].
  - intros s g Hall Hs Hg Ns Ng. eexists. split; [|split; [|split]].
    + unfold get_strands. rewrite bool_decide_eq_false_2 by done.
      rewrite Hs, Hg. simpl.
      apply Z.eqb_neq in Ns, Ng. rewrite Ns, Ng. reflexivity.
    + apply merge_sort_Permutation.
    + intros r. unfold order_by_name. rewrite merge_sort_Permutation.
      rewrite query_all_spec. split.
      * intros [Hsub Hin]. split; [done|]. split.
        -- eapply lookup_weaken; [|exact Hsub]. apply lookup_insert_eq.
        -- eapply lookup_weaken; [|exact Hsub].
           rewrite lookup_insert_ne by done. apply lookup_singleton_eq.
      * intros (Hin & H1 & H2). split; [|done].
        apply map_subseteq_spec. intros k v Hk.
        apply lookup_insert_Some in Hk as [[<- <-]|[_ Hk]]; [done|].
        by apply lookup_singleton_Some in Hk as [<- <-].
    + intros Htotal Htrans i j r1 r2 Hij H1 H2.
      assert (HS : StronglySorted (by_name name_le)
                     (order_by_name name_le
                        (query_all db Strand
                           (<["subject_id" := VInt s]>
                              {[ "grade_id" := VInt g ]})))).
      { apply StronglySorted_merge_sort.
        - intros x y z. unfold by_name. apply Htrans.
        - intros x y. unfold by_name. apply Htotal. }
      destruct (decide (i = j)) as [->|Hne].
      * rewrite H1 in H2. injection H2 as <-.
        by destruct (Htotal (name_of r1) (name_of r1)).
      * apply (sorted_lookup _ _ i j r1 r2 HS); [lia|done..].
Qed.

End ReadFacts.

Section OutcomeListFacts.

Context (py_int : json -> option Z).

Implicit Types (db : gmap string (list (gmap string value))).
Implicit Types (args : gmap string string).

(** X21: the learning-outcomes endpoint.  A sub-strand identifier
    that is missing, does not convert, or is 0 gives 400; otherwise a
    failing engine gives 500 with the fixed message, and a working one the
    outcomes of exactly that sub-strand, each as often as it is stored, in
    ascending order of primary key. *)
Theorem outcomes_are_filtered_and_sorted db args :
  ((forall n, arg_int py_int args "substrand_id" = Some n -> n = 0) ->
   forall store,
     get_learning_outcomes py_int store args
     = respond 400 (error_body "substrand_id is required"))
  /\ (forall n,
        arg_int py_int args "substrand_id" = Some n -> n <> 0 ->
        (forall e,
           result (get_learning_outcomes py_int (inl e) args)
           = Response 500 (error_body "Server error"))
        /\ exists rows,
             get_learning_outcomes py_int (inr db) args
             = Outcome
                 (Response 200
                    (JList (to_dict ["id"; "description"; "substrand_id"]
                              <$> rows)))
                 [StoreRead "learning_outcomes"]
             /\ rows ≡ₚ query_all db LearningOutcome
                          {[ "substrand_id" := VInt n ]}
             /\ (forall r, r ∈ rows <->
                   r ∈ table db LearningOutcome
                   /\ r !! "substrand_id" = Some (VInt n))
             /\ forall i j r1 r2, (i <= j)%nat ->
                  rows !! i = Some r1 -> rows !! j = Some r2 ->
                  id_of r1 <= id_of r2).
Proof.
  split.
  - intros Hmiss store. unfold get_learning_outcomes.
    destruct (arg_int py_int args "substrand_id") as [n|]; [|reflexivity].
    by rewrite (Hmiss n eq_refl).
  - intros n Hn Nn.
    assert (Hg : given (arg_int py_int args "substrand_id") = true)
      by (apply given_spec; eauto).
    split.
    { intros e. unfold get_learning_outcomes. by rewrite Hg. }
    eexists. split; [|split; [|split]].
    + unfold get_learning_outcomes. rewrite Hg, Hn. reflexivity.
    + apply merge_sort_Permutation.
    + intros r. unfold order_by_id. rewrite merge_sort_Permutation.
      rewrite query_all_spec. split.
      * intros [Hsub Hin]. split; [done|].
        eapply lookup_weaken; [|exact Hsub]. apply lookup_singleton_eq.
      * intros (Hin & H1). split; [|done].
        by apply map_singleton_subseteq_l.
    + intros i j r1 r2 Hij H1 H2.
      assert (HS : StronglySorted by_id
                     (order_by_id
                        (query_all db LearningOutcome
                           {[ "substrand_id" := VInt n ]}))).
      { apply StronglySorted_merge_sort.
        - intros x y z. unfold by_id. lia.
        - intros x y. unfold by_id. lia. }
      destruct (decide (i = j)) as [->|Hne].
      * rewrite H1 in H2. injection H2 as <-. lia.
      * apply (sorted_lookup _ _ i j r1 r2 HS); [lia|done..].
Qed.

End OutcomeListFacts.

Section MoreAccountFacts.

Context (py_int : json -> option Z)
  (generate_password_hash : string -> string -> string)
  (check_password_hash : string -> string -> bool).

Implicit Types (db : gmap string (list (gmap string value))).
Implicit Types (fields : list (string * json)).

Lemma read_credentials_inv request email password :
  read_credentials request = Credentials email password ->
  exists fields,
    request = Some (JObj fields)
    /\ dict_get "email" fields = Some email
    /\ dict_get "password" fields = Some password
    /\ truthy email = true /\ truthy password = true.
Proof.
  unfold read_credentials.
  destruct request as [[| | | | | |fields]|]; try discriminate.
  destruct (dict_get "email" fields) as [a|] eqn:Ha;
    destruct (dict_get "password" fields) as [b|] eqn:Hb;
    cbn [default from_option]; unfold id; cbn [truthy negb orb];
    try discriminate;
    try (destruct (truthy a); discriminate).
  destruct (truthy a) eqn:Ta; cbn [negb orb]; [|discriminate].
  destruct (truthy b) eqn:Tb; cbn [negb]; [|discriminate].
  intros [= <- <-]. eauto 10.
Qed.

(** X22: a login only succeeds for a stored account.  When [login]
    answers 200, the payload is an object with a string address and a
    string password, the users table holds a row whose address is the
    trimmed, lower-cased address of the request, the hash check accepted
    the password against the hash of that row, and the body is that row's
    public view.  And every 401 has the same body, whether the address is
    unknown or the password wrong. *)
Theorem login_needs_account_and_password db request :
  (forall body,
     login check_password_hash db request = Response 200 body ->
     exists fields email password user password_hash,
       request = Some (JObj fields)
       /\ dict_get "email" fields = Some (JStr email)
       /\ dict_get "password" fields = Some (JStr password)
       /\ user ∈ table db User
       /\ user !! "email" = Some (VStr (lower (strip email)))
       /\ user !! "password_hash" = Some (VStr password_hash)
       /\ check_password_hash password_hash password = true
       /\ body = user_to_dict user)
  /\ (forall body,
        login check_password_hash db request = Response 401 body ->
        body = error_body "Invalid credentials").
Proof.
  unfold login. split; intros body.
  - destruct (read_credentials request) as [| | |email password] eqn:Hc;
      try discriminate.
    apply read_credentials_inv in Hc as (fields & -> & He & Hp & _ & _).
    destruct email as [| | | |email| |]; try discriminate.
    destruct (query_first db User _) as [user|] eqn:Hq; [|discriminate].
    destruct password as [| | | |password| |]; try discriminate.
    destruct (user !! "password_hash") as [[|password_hash]|] eqn:Hh;
      try discriminate.
    destruct (check_password_hash password_hash password) eqn:Hk;
      [|discriminate].
    intros [= <-]. apply query_first_spec in Hq as [Hin Hsub].
    exists fields, email, password, user, password_hash.
    repeat split; auto.
    eapply lookup_weaken; [|exact Hsub]. apply lookup_singleton_eq.
  - destruct (read_credentials request) as [| | |email password];
      try discriminate.
    destruct email as [| | | |email| |]; try discriminate.
    destruct (query_first db User _) as [user|]; [|by intros [= <-]].
    destruct password as [| | | |password| |]; try discriminate.
    destruct (user !! "password_hash") as [[|password_hash]|];
      try discriminate.
    destruct (check_password_hash password_hash password);
      [discriminate|by intros [= <-]].
Qed.

(** X23: registering an address twice.  After a successful
    registration, a registration with an address that differs from the
    stored one only in letter case or surrounding white space, and any
    password, is answered 409, Email exists, and leaves the store as it
    is. *)
Theorem register_twice_conflicts db salt fields email password body db'
  salt' fields' attempt password' :
  dict_get "email" fields = Some (JStr email) ->
  dict_get "password" fields = Some (JStr password) ->
  register generate_password_hash db salt (Some (JObj fields))
  = (Response 201 body, db') ->
  dict_get "email" fields' = Some (JStr attempt) ->
  dict_get "password" fields' = Some password' ->
  truthy password' = true ->
  same_up_to_case_and_space attempt (lower (strip email)) ->
  attempt <> EmptyString ->
  register generate_password_hash db' salt' (Some (JObj fields'))
  = (Response 409 (error_body "Email exists"), db').
Proof.
  intros He Hp Hreg Hae Hap Htp Hsame Hne.
  destruct (register_created _ _ _ _ _ _ _ _ He Hp Hreg)
    as (Hpw & Hmiss & -> & ->).
  pose proof (normalise_variant _ _ Hsame) as Hnorm.
  unfold register, read_credentials. rewrite Hae, Hap.
  cbn [default from_option truthy]. unfold id. cbn [truthy].
  rewrite Htp. destruct attempt as [|ch rest]; [done|].
  simpl nonempty. simpl negb. simpl orb. cbv iota.
  rewrite Hnorm. unfold query_first. rewrite table_insert_same.
  unfold query_first in Hmiss. rewrite (find_app_missing _ _ _ Hmiss).
  cbn [find].
  assert (filter_by {[ "email" := VStr (lower (strip email)) ]}
            (<["id" := VInt (next_id (table db User))]>
               (<["password_hash" :=
                    VStr (generate_password_hash salt password)]>
                  {[ "email" := VStr (lower (strip email)) ]}))
          = true) as ->.
  { apply filter_by_spec, map_singleton_subseteq_l.
    rewrite !lookup_insert_ne by done. apply lookup_singleton_eq. }
  reflexivity.
Qed.

(** X24: what registration does to the store.  Whatever the request,
    [register] only appends to the store and keeps the constraints of the
    models; and the store is unchanged unless the answer is 201. *)
Theorem register_keeps_constraints db salt request :
  let store' := snd (register generate_password_hash db salt request) in
  grows db store'
  /\ (store_ok db -> store_ok store')
  /\ (forall status body,
        fst (register generate_password_hash db salt request)
        = Response status body -> status <> 201 -> store' = db)
  /\ (forall e,
        fst (register generate_password_hash db salt request) = Unhandled e ->
        store' = db).
Proof.
  intros store'. unfold store', register.
  destruct (read_credentials request) as [| | |email password];
    try (simpl; split; [apply grows_refl|by auto]).
  destruct email as [| | | |email| |];
    try (simpl; split; [apply grows_refl|by auto]).
  destruct (query_first db User _) as [found|];
    [simpl; split; [apply grows_refl|by auto]|].
  destruct password as [| | | |password| |];
    try (simpl; split; [apply grows_refl|by auto]).
  destruct (db_insert User _ (table db User)) as [[tbl' user]|] eqn:Hins;
    [|simpl; split; [apply grows_refl|by auto]].
  cbn [fst snd]. split; [exact (grows_insert db User _ tbl' user Hins)|]. split.
  - intros Hdb. eapply (store_ok_insert db User); eauto. apply schema_members.
  - split; [|discriminate]. intros status body [= <- _] H. done.
Qed.

Lemma get_by_id_new db m r n :
  n = next_id (table db m) -> r !! "id" = Some (VInt n) ->
  get_by_id (<[tablename m := table db m ++ [r]]> db) m (VInt n) = Some r.
Proof.
  intros Hn Hr. unfold get_by_id. rewrite table_insert_same.
  rewrite find_app_missing.
  - simpl. by rewrite bool_decide_eq_true_2.
  - destruct (find _ (table db m)) as [x|] eqn:Hf; [|done].
    apply find_found in Hf as [Hin Hid]. apply bool_decide_eq_true in Hid.
    pose proof (next_id_above _ _ _ Hin Hid). lia.
Qed.

(** X25: the session loader finds a registered account.  After a
    successful registration the body carries the new primary key and the
    normalised address; the loader, given an identifier that converts to
    that key, returns the row whose public view is that body; given one
    that does not convert, or an engine that fails, it returns no user. *)
Theorem registered_user_is_loaded db salt fields email password body db' :
  dict_get "email" fields = Some (JStr email) ->
  dict_get "password" fields = Some (JStr password) ->
  register generate_password_hash db salt (Some (JObj fields))
  = (Response 201 body, db') ->
  exists n user,
    body = JObj [("id", JInt n); ("email", JStr (lower (strip email)))]
    /\ user_to_dict user = body
    /\ (forall user_id, py_int user_id = Some n ->
          load_user py_int (inr db') user_id = Some user)
    /\ (forall user_id, py_int user_id = None ->
          load_user py_int (inr db') user_id = None)
    /\ (forall user_id e, load_user py_int (inl e) user_id = None).
Proof.
  intros He Hp Hreg.
  destruct (register_created _ _ _ _ _ _ _ _ He Hp Hreg)
    as (Hpw & Hmiss & -> & ->).
  eexists _, _. split; [|split; [reflexivity|split; [|split]]].
  - unfold user_to_dict.
    rewrite lookup_insert_eq, !lookup_insert_ne, lookup_singleton_eq by done.
    reflexivity.
  - intros user_id Hid. unfold load_user. rewrite Hid.
    apply get_by_id_new; [reflexivity|apply lookup_insert_eq].
  - intros user_id Hid. unfold load_user. by rewrite Hid.
  - intros user_id e. unfold load_user. by destruct (py_int user_id).
Qed.

End MoreAccountFacts.

(** ** Worked examples *)

Import Examples.

Local Notation questions :=
  (generate_questions_endpoint int_of repr_of loads (ai "[]")).
Local Notation full_test :=
  (generate_full_test_endpoint repr_of loads (ai "{}") key_of).

Lemma has_ids_empty : has_ids ∅.
Proof. intros t rows r H. by rewrite lookup_empty in H. Qed.

Lemma valid_math_row :
  valid_row math_row "Math" "Grade4" "Numbers" "Addition" "LearningOutcome"
    "Add two digit numbers".
Proof. repeat split; eexists; split; reflexivity. Qed.

Lemma valid_odd_row :
  valid_row odd_row "Math" "Grade4" "Numbers" "Addition" "Assessment"
    "Add two digit numbers".
Proof. repeat split; eexists; split; reflexivity. Qed.

Lemma check_hash salt password : check (hash salt password) password = true.
Proof.
  unfold check, hash. apply bool_decide_eq_true. by rewrite removesuffix_app.
Qed.

(** The example of the specification, run twice. *)
Lemma import_twice_creates_nothing_witness :
  has_ids ∅
  /\ valid_row math_row "Math" "Grade4" "Numbers" "Addition"
       "LearningOutcome" "Add two digit numbers"
  /\ exists counts db1,
       import_curriculum "curriculum.csv"
         (CsvFile (Some required_columns) [math_row]) (World ∅ [])
       = (Summary 1 counts 0, World db1 [])
       /\ import_curriculum "curriculum.csv"
            (CsvFile (Some required_columns) [math_row]) (World db1 [])
          = (Summary 1 initial_counts 0, World db1 [])
       /\ counts = <["LearningOutcome" := 1%nat]>
                     (<["SubStrand" := 1%nat]>
                        (<["Strand" := 1%nat]>
                           (<["Grade" := 1%nat]>
                              (<["Subject" := 1%nat]> initial_counts)))).
Proof.
  split; [exact has_ids_empty|]. split; [exact valid_math_row|].
  destruct (import_twice_creates_nothing "curriculum.csv" ∅ math_row "Math"
              "Grade4" "Numbers" "Addition" "Add two digit numbers"
              has_ids_empty valid_math_row)
    as (counts & db1 & E1 & E2 & E3).
  exists counts, db1. split; [exact E1|]. split; [exact E2|].
  apply E3. reflexivity.
Defined.

(** The race of find-or-create on a concrete store: another writer inserts
    the same subject between our lookup and our commit. *)
Lemma get_or_create_contract_witness :
  let db : gmap string (list (gmap string value)) := ∅ in
  let kw : gmap string value := {[ "name" := VStr "Math" ]} in
  let other := Race Subject {[ "name" := VStr "Math" ]} in
  get_or_create Subject None kw (World db [other])
  = (inr (Some (<["id" := VInt 1]> kw), false),
     World (<["subjects" := [<["id" := VInt 1]> kw]]> db) [])
  /\ get_or_create Subject None kw (World db [])
     = (inr (Some (<["id" := VInt 1]> kw), true),
        World (<["subjects" := [<["id" := VInt 1]> kw]]> db) []).
Proof.
  intros db kw other.
  destruct (get_or_create_contract Subject None kw db [other])
    as (_ & _ & Hrace & _).
  destruct (get_or_create_contract Subject None kw db [])
    as (_ & _ & _ & Halone).
  split.
  - destruct (Hrace other []) as [E _];
      [reflexivity | reflexivity | discriminate | reflexivity |].
    exact E.
  - destruct Halone as (E & _);
      [reflexivity | reflexivity | reflexivity | reflexivity
      | apply key_subject |].
    exact E.
Defined.



(** A bare-fence-free, JSON-annotated answer, and an answer that does not
    decode. *)
Lemma response_validator_contract_witness :
  clean_response_text ("```json" +:+ LF +:+ "[]" +:+ LF +:+ "```") = "[]"
  /\ parse_test loads "```json```"
     = respond 500 (error_body "AI returned an empty response.")
  /\ exists message,
       parse_questions loads "teacher@example.com" 1 " oops "
       = Outcome
           (Response 500
              (error_details "AI response format error (JSON)."
                 "Expecting value: line 1 column 1 (char 0)"))
           [Log "error" message]
       /\ occurs "oops" message.
Proof.
  destruct (response_validator_contract loads "teacher@example.com" 1
              ("```json" +:+ LF +:+ "[]" +:+ LF +:+ "```"))
    as (Hjson & _).
  destruct (response_validator_contract loads "teacher@example.com" 1
              "```json```") as (_ & _ & _ & _ & _ & Hempty & _).
  destruct (response_validator_contract loads "teacher@example.com" 1
              " oops ") as (_ & _ & _ & _ & _ & _ & Hfail).
  split; [|split].
  - rewrite (Hjson (LF +:+ "[]" +:+ LF +:+ "```")) by reflexivity.
    reflexivity.
  - destruct Hempty as [_ E]; [reflexivity|exact E].
  - destruct (Hfail ltac:(discriminate)
                "Expecting value: line 1 column 1 (char 0)"
                ltac:(reflexivity)) as (message & E & Hoccurs & _).
    exists message. split; [exact E|exact Hoccurs].
Defined.

(** A strand without outcomes and a strand that does not exist. *)
Lemma no_valid_topics_fails_witness :
  no_ai_call (trace (full_test bare_school (Some (JObj test_request))))
  /\ result (full_test bare_school (Some (JObj test_request)))
     = Response 400
         (error_body "No valid topics with learning outcomes found.").
Proof.
  destruct (no_valid_topics_fails repr_of loads (ai "{}") key_of bare_school
              test_request
              [JObj [("strand_id", JInt 1)];
               JObj [("strand_id", JInt 99); ("num_questions", JInt 2)]])
    as (Hquiet & Hfails & _).
  - reflexivity.
  - constructor; [|constructor; [|constructor]].
    + eexists. split; [reflexivity|]. right. split.
      * eexists. vm_compute. reflexivity.
      * vm_compute. reflexivity.
    + eexists. split; [reflexivity|]. left. vm_compute. reflexivity.
  - split; [exact Hquiet|].
    eapply Hfails; [discriminate | reflexivity | reflexivity
                    | vm_compute; reflexivity | vm_compute; reflexivity].
Defined.

(** A request for no question at all. *)
Lemma rejected_before_lookup_witness :
  exists body,
    questions school "teacher@example.com"
      (Some (JObj (question_request 0 "mcq")))
    = Outcome (Response 400 body) []
    /\ no_store_read
         (trace (questions school "teacher@example.com"
                   (Some (JObj (question_request 0 "mcq")))))
    /\ questions ∅ "teacher@example.com"
         (Some (JObj (question_request 0 "mcq")))
       = questions school "teacher@example.com"
           (Some (JObj (question_request 0 "mcq"))).
Proof.
  destruct (rejected_before_lookup int_of repr_of loads (ai "[]") school
              "teacher@example.com" (question_request 0 "mcq")
              (JInt 1) (JInt 0) (JStr "mcq") 1 0)
    as (body & E & Hquiet & Hsame);
    [reflexivity | reflexivity | reflexivity | reflexivity | reflexivity
    | left; lia |].
  exists body. split; [exact E|]. split; [exact Hquiet|apply Hsame].
Defined.

(** C6, as the code has it: validation does not turn every malformed
    request away.  The body with learning_outcome_id 1e999 (which the
    decoder reads as the float infinity), num_questions 0 and
    question_type essay has a count outside 1..20 and a kind outside the
    accepted names, and yet it is not answered with a validation error: the
    conversion of the identifier raises OverflowError, which the handler
    of ValueError and TypeError lets through, and the exception leaves the
    view.  No store is read on the way. *)
Theorem overflowing_id_escapes_validation :
  let body :=
    JObj [("learning_outcome_id", JFloat (Infinite false));
          ("num_questions", JInt 0); ("question_type", JStr "essay")] in
  (forall db email,
     questions db email (Some body) = Outcome (Unhandled OverflowError) [])
  /\ int_of (JInt 0) = Some 0 /\ ~ (1 <= 0 <= 20)
  /\ lower "essay" ∉ ["mcq"; "multiple_choice"; "short_answer";
                       "true_false"; "fill_in_the_blank"].
Proof.
  intros body. split; [|split; [reflexivity|split; [lia|]]].
  - intros db email.
    apply (questions_endpoint_unconverted int_of repr_of loads (ai "[]") db
             email _ (JFloat (Infinite false)) (JInt 0) (JStr "essay"));
      reflexivity.
  - vm_compute. intros H.
    repeat (apply elem_of_cons in H as [H|H]; [discriminate|]).
    inversion H.
Qed.

(** The AI answers with an empty list. *)
Lemma list_shape_is_checked_witness :
  result (questions school "teacher@example.com"
            (Some (JObj (question_request 3 "MCQ"))))
  = Response 200 (JList [])
  /\ Log "warning" "AI returned an empty JSON list [] for LO ID 1."
     ∈ trace (questions school "teacher@example.com"
                (Some (JObj (question_request 3 "MCQ")))).
Proof.
  assert (Hrange : 1 <= 3 <= 20) by lia.
  assert (Hkind : lower "MCQ" ∈ ["mcq"; "multiple_choice"; "short_answer";
                                 "true_false"; "fill_in_the_blank"])
    by (vm_compute; left).
  destruct (list_shape_is_checked int_of repr_of loads (ai "[]") school
              "teacher@example.com" (question_request 3 "MCQ") (JInt 1)
              (JInt 3) "MCQ" 1 3
              [StoreRead "learning_outcomes"; StoreRead "substrands";
               StoreRead "strands"; StoreRead "subjects"; StoreRead "grades"]
              "Math" "Grade4" "Numbers" "Addition" "Add two digit numbers"
              (fun _ => inr "[]") "[]" (JList []))
    as (_ & Hlist & Hempty);
    [reflexivity | reflexivity | reflexivity | reflexivity | reflexivity
    | exact Hrange | exact Hkind | vm_compute; reflexivity | reflexivity
    | reflexivity | reflexivity | reflexivity |].
  split; [apply Hlist; reflexivity|].
  destruct Hempty as [Hwarn _]; [reflexivity|exact Hwarn].
Defined.


(** Mixed case and padding at login. *)
Lemma login_accepts_variants_witness :
  let registration :=
    register hash ∅ "salt"
      (Some (JObj (credentials_request " Teacher@Example.COM " "secret"))) in
  fst registration
  = Response 201 (JObj [("id", JInt 1);
                        ("email", JStr "teacher@example.com")])
  /\ login check (snd registration)
       (Some (JObj (credentials_request "TEACHER@example.com  " "secret")))
     = Response 200 (JObj [("id", JInt 1);
                           ("email", JStr "teacher@example.com")]).
Proof.
  intros registration. split; [reflexivity|].
  destruct (login_accepts_variants hash check check_hash ∅ "salt"
              (credentials_request " Teacher@Example.COM " "secret")
              " Teacher@Example.COM " "secret"
              (JObj [("id", JInt 1); ("email", JStr "teacher@example.com")])
              (snd registration)
              (credentials_request "TEACHER@example.com  " "secret")
              "TEACHER@example.com  ") as (E & _);
    [reflexivity | reflexivity | reflexivity | reflexivity | reflexivity
    | | discriminate | exact E].
  exists EmptyString, "TEACHER@example.com", "  ".
  repeat split.
Defined.

(** The unknown item type on the empty store: the four levels stay and
    are counted, the leaf is not. *)
Lemma invalid_item_type_keeps_hierarchy_witness :
  has_ids ∅
  /\ valid_row odd_row "Math" "Grade4" "Numbers" "Addition" "Assessment"
       "Add two digit numbers"
  /\ exists subject grade strand substrand db4 cs4,
       import_row odd_row (Importer (World ∅ []) 0 initial_counts 0)
       = (inr tt, Importer (World db4 []) 1 cs4 1)
       /\ resolved db4 "Math" "Grade4" "Numbers" "Addition" subject grade
            strand substrand
       /\ table db4 LearningOutcome = []
       /\ table db4 KeyInquiryQuestion = []
       /\ cs4 !!! "Subject" = 1%nat /\ cs4 !!! "Grade" = 1%nat
       /\ cs4 !!! "Strand" = 1%nat /\ cs4 !!! "SubStrand" = 1%nat
       /\ cs4 !!! "LearningOutcome" = 0%nat
       /\ cs4 !!! "KeyInquiryQuestion" = 0%nat.
Proof.
  split; [exact has_ids_empty|]. split; [exact valid_odd_row|].
  destruct (invalid_item_type_keeps_hierarchy ∅ odd_row "Math" "Grade4"
              "Numbers" "Addition" "Assessment" "Add two digit numbers"
              0%nat initial_counts 0%nat has_ids_empty valid_odd_row)
    as (subject & grade & strand & substrand & sid & gid & stid
        & c1 & c2 & c3 & c4 & db4 & cs4 & E & R & I1 & I2 & I3 & N1 & N2
        & N3 & N4 & G & TL & TK & K1 & K2 & K3 & K4 & K5 & K6);
    [discriminate | discriminate |].
  unfold was_new in N1, N2, N3, N4.
  destruct c1; [|by rewrite query_first_empty in N1].
  destruct c2; [|by rewrite query_first_empty in N2].
  destruct c3; [|by rewrite query_first_empty in N3].
  destruct c4; [|by rewrite query_first_empty in N4].
  exists subject, grade, strand, substrand, db4, cs4.
  split; [exact E|]. split; [exact R|]. split; [exact TL|].
  split; [exact TK|].
  split; [exact K1|]. split; [exact K2|]. split; [exact K3|].
  split; [exact K4|]. split; [exact K5|exact K6].
Defined.


(** The address of an account registered with white space only is stored
    empty; a login with the empty address, which is that stored address, is
    turned away as missing credentials. *)
Lemma blank_address_cannot_log_in :
  let registration :=
    register hash ∅ "salt"
      (Some (JObj (credentials_request " " "secret"))) in
  fst registration
  = Response 201 (JObj [("id", JInt 1); ("email", JStr EmptyString)])
  /\ same_up_to_case_and_space EmptyString (lower (strip " "))
  /\ login check (snd registration)
       (Some (JObj (credentials_request EmptyString "secret")))
     = Response 400 (error_body "Missing credentials").
Proof.
  split; [reflexivity|]. split; [|reflexivity].
  exists EmptyString, EmptyString, EmptyString. repeat split.
Qed.

(** ** More worked examples *)

Import Fixtures.

Lemma store_ok_empty : store_ok ∅.
Proof.
  split; [exact has_ids_empty|]. intros m _. apply unique_rows_nil.
Qed.



Lemma get_or_create_returns_match_witness :
  let kw : gmap string value := {[ "name" := VStr "Math" ]} in
  let r : gmap string value := <["id" := VInt 1]> kw in
  get_or_create Subject None kw (World ∅ [])
  = (inr (Some r, true), World (<["subjects" := [r]]> ∅) [])
  /\ r ∈ table (<["subjects" := [r]]> ∅) Subject /\ kw ⊆ r.
Proof.
  intros kw r.
  assert (E : get_or_create Subject None kw (World ∅ [])
              = (inr (Some r, true), World (<["subjects" := [r]]> ∅) [])).
  { exact (get_or_create_missing Subject kw ∅ eq_refl
             (proj1 (proj2 (key_subject "Math"))) eq_refl). }
  split; [exact E|].
  destruct (get_or_create_returns_match Subject None kw _ _ _ _ E)
    as (Hin & _ & Hsub).
  split; [exact Hin|]. apply Hsub. reflexivity.
Defined.

Lemma get_or_create_duplicates_under_race_witness :
  let kw : gmap string value :=
    <["substrand_id" := VInt 1]>
      {[ "description" := VStr "Add two digit numbers" ]} in
  get_or_create LearningOutcome None kw
    (World ∅ [Race LearningOutcome kw])
  = (inr (Some (<["id" := VInt 2]> kw), true),
     World (<["learning_outcomes" :=
                [<["id" := VInt 1]> kw; <["id" := VInt 2]> kw]]> ∅) []).
Proof.
  intros kw.
  destruct (get_or_create_duplicates_under_race LearningOutcome kw ∅ [])
    as (E & _); [reflexivity..|].
  exact E.
Defined.

Lemma get_or_create_single_match_witness :
  let kw : gmap string value := {[ "name" := VStr "Math" ]} in
  let r : gmap string value := <["id" := VInt 1]> kw in
  get_or_create Subject None kw (World ∅ [Race Subject kw])
  = (inr (Some r, false), World (<["subjects" := [r]]> ∅) [])
  /\ filter (fun x => kw ⊆ x) (table (<["subjects" := [r]]> ∅) Subject)
     = [r].
Proof.
  intros kw r.
  assert (E : get_or_create Subject None kw (World ∅ [Race Subject kw])
              = (inr (Some r, false), World (<["subjects" := [r]]> ∅) []))
    by (vm_compute; reflexivity).
  split; [exact E|].
  pose proof (get_or_create_single_match Subject kw
                (World ∅ [Race Subject kw]) r false
                (World (<["subjects" := [r]]> ∅) []) ["name"]) as H.
  apply H.
  - apply schema_members.
  - exact store_ok_empty.
  - repeat constructor.
  - apply list_elem_of_here.
  - intros c Hc. apply list_elem_of_singleton in Hc as ->.
    exists (VStr "Math"). reflexivity.
  - exact E.
Defined.

Lemma import_file_twice_witness :
  exists counts errors db1,
    import_curriculum "curriculum.csv"
      (CsvFile (Some required_columns) [math_row; odd_row; blank_row])
      (World ∅ [])
    = (Summary 3 counts errors, World db1 [])
    /\ import_curriculum "curriculum.csv"
         (CsvFile (Some required_columns) [math_row; odd_row; blank_row])
         (World db1 [])
       = (Summary 3 initial_counts errors, World db1 []).
Proof.
  apply (import_file_twice "curriculum.csv" required_columns
           [math_row; odd_row; blank_row] ∅);
    [reflexivity|exact has_ids_empty].
Defined.

Lemma import_counts_are_rows_witness :
  exists counts errors db1,
    import_curriculum "curriculum.csv"
      (CsvFile (Some required_columns) [math_row; odd_row; blank_row])
      (World ∅ [])
    = (Summary 3 counts errors, World db1 [])
    /\ forall kind m, (kind, m) ∈ kinds ->
         (length (table db1 m) = length (table ∅ m) + counts !!! kind)%nat.
Proof.
  apply (import_counts_are_rows "curriculum.csv" required_columns
           [math_row; odd_row; blank_row] ∅);
    [reflexivity|exact has_ids_empty].
Defined.


Lemma header_is_checked_before_rows_witness :
  import_curriculum "curriculum.csv"
    (CsvFile (Some ["Subject"; "Grade"; "ItemType"; "ItemText"]) [math_row])
    (World ∅ [])
  = (Aborted
       "Error: CSV file missing required columns (Subject, Grade, Strand, SubStrand, ItemType, ItemText)",
     World ∅ []).
Proof.
  apply (header_is_checked_before_rows "curriculum.csv"
           ["Subject"; "Grade"; "ItemType"; "ItemText"] [math_row]
           (World ∅ []) "Strand").
  - unfold required_columns. do 2 apply list_elem_of_further.
    apply list_elem_of_here.
  - intros H.
    repeat (apply elem_of_cons in H as [H|H]; [discriminate|]).
    inversion H.
Defined.

Lemma fenced_answer_is_unwrapped_witness :
  let text := " " +:+ "```json" +:+ LF +:+ "[]" +:+ LF +:+ "```"
              +:+ EmptyString in
  clean_response_text text = "[]"
  /\ result (parse_questions loads "teacher@example.com" 1 text)
     = Response 200 (JList [])
  /\ parse_test loads text = respond 200 (JList []).
Proof.
  intros text.
  destruct (fenced_answer_is_unwrapped loads " " LF "[]" LF EmptyString)
    as (E & Hq & Ht); [reflexivity..|].
  split; [exact E|]. split.
  - apply Hq; [discriminate|reflexivity].
  - apply Ht; [discriminate|reflexivity].
Defined.

Lemma unfenced_answer_is_trimmed_witness :
  clean_response_text " [] " = "[]"
  /\ clean_response_text (clean_response_text " [] ")
     = clean_response_text " [] ".
Proof.
  assert (Es : strip " [] " = "[]") by reflexivity.
  destruct (unfenced_answer_is_trimmed " [] ") as (E1 & E2).
  - reflexivity.
  - intros before H. rewrite Es in H.
    apply (f_equal String.length) in H. rewrite length_app_str in H.
    simpl in H. lia.
  - split; [by rewrite E1|exact E2].
Defined.

Lemma questions_prompt_is_validated_witness :
  let prompt := question_prompt 3 "multiple_choice" "Math" "Grade4"
                  "Numbers" "Addition" "Add two digit numbers" in
  AiCall prompt
  ∈ trace (questions school "teacher@example.com"
             (Some (JObj (question_request 3 "MCQ"))))
  /\ exists lo_id num_q kind reads subject grade strand substrand description,
       1 <= num_q <= 20 /\ kind ∈ allowed_q
       /\ fetch_context school lo_id
          = (reads, inr (subject, grade, strand, substrand, description))
       /\ prompt = question_prompt num_q kind subject grade strand substrand
                     description
       /\ is_Some (ai "[]").
Proof.
  intros prompt.
  assert (H : AiCall prompt
              ∈ trace (questions school "teacher@example.com"
                         (Some (JObj (question_request 3 "MCQ"))))).
  { vm_compute. do 5 apply list_elem_of_further. apply list_elem_of_here. }
  split; [exact H|].
  exact (questions_prompt_is_validated int_of repr_of loads (ai "[]") school
           "teacher@example.com" (Some (JObj (question_request 3 "MCQ")))
           prompt H).
Defined.

Lemma unknown_outcome_is_not_found_witness :
  questions ∅ "teacher@example.com" (Some (JObj (question_request 3 "mcq")))
  = Outcome
      (Response 404 (error_body "Learning Outcome ID 1 not found."))
      [StoreRead "learning_outcomes"].
Proof.
  pose proof (unknown_outcome_is_not_found int_of repr_of loads (ai "[]") ∅
                "teacher@example.com" (question_request 3 "mcq")
                (JInt 1) (JInt 3) (JStr "mcq") 1 3) as H.
  apply H; try reflexivity.
  - lia.
  - eexists. vm_compute. reflexivity.
  - intros r Hr. inversion Hr.
Defined.

Lemma bad_request_never_reaches_store_witness :
  let fields :=
    [("learning_outcome_id", JFloat (Infinite false));
     ("num_questions", JInt 0); ("question_type", JStr "essay")] in
  trace (questions school "teacher@example.com" (Some (JObj fields))) = []
  /\ ((exists body,
         result (questions school "teacher@example.com" (Some (JObj fields)))
         = Response 400 body)
      \/ result (questions school "teacher@example.com" (Some (JObj fields)))
         = Unhandled OverflowError
         /\ exists k neg,
              k ∈ ["learning_outcome_id"; "num_questions"]
              /\ dict_get k fields = Some (JFloat (Infinite neg))).
Proof.
  intros fields.
  pose proof (bad_request_never_reaches_store int_of repr_of loads (ai "[]")
                school "teacher@example.com" fields (JInt 0) (JStr "essay"))
    as H.
  apply H; [reflexivity|reflexivity|].
  left. intros n [= <-]. lia.
Defined.

Lemma register_twice_conflicts_witness :
  let registration :=
    register hash ∅ "salt"
      (Some (JObj (credentials_request " Teacher@Example.COM " "secret"))) in
  fst registration
  = Response 201 (JObj [("id", JInt 1);
                        ("email", JStr "teacher@example.com")])
  /\ register hash (snd registration) "pepper"
       (Some (JObj (credentials_request "TEACHER@example.com  " "other")))
     = (Response 409 (error_body "Email exists"), snd registration).
Proof.
  intros registration. split; [reflexivity|].
  pose proof (register_twice_conflicts hash ∅ "salt"
                (credentials_request " Teacher@Example.COM " "secret")
                " Teacher@Example.COM " "secret"
                (JObj [("id", JInt 1); ("email", JStr "teacher@example.com")])
                (snd registration) "pepper"
                (credentials_request "TEACHER@example.com  " "other")
                "TEACHER@example.com  " (JStr "other")) as H.
  apply H; try reflexivity.
  - exists EmptyString, "TEACHER@example.com", "  ". repeat split.
  - discriminate.
Defined.

Lemma registered_user_is_loaded_witness :
  let registration :=
    register hash ∅ "salt"
      (Some (JObj (credentials_request " Teacher@Example.COM " "secret"))) in
  exists user,
    load_user text_int (inr (snd registration)) (JStr "1") = Some user
    /\ user_to_dict user
       = JObj [("id", JInt 1); ("email", JStr "teacher@example.com")]
    /\ load_user text_int (inr (snd registration)) (JStr "one") = None.
Proof.
  intros registration.
  destruct (registered_user_is_loaded text_int hash ∅ "salt"
              (credentials_request " Teacher@Example.COM " "secret")
              " Teacher@Example.COM " "secret"
              (JObj [("id", JInt 1); ("email", JStr "teacher@example.com")])
              (snd registration))
    as (n & user & Hbody & Hdict & Hload & Hnone & _);
    [reflexivity..|].
  injection Hbody as <-.
  exists user. split; [by apply Hload|]. split; [exact Hdict|].
  by apply Hnone.
Defined.

Lemma strands_are_filtered_and_sorted_witness :
  let args : gmap string string :=
    <["subject_id" := "1"]> {[ "grade_id" := "1" ]} in
  exists rows,
    get_strands text_int String.leb (inr bigger_school) args
    = Outcome
        (Response 200
           (JList (to_dict ["id"; "name"; "subject_id"; "grade_id"] <$> rows)))
        [StoreRead "strands"]
    /\ rows ≡ₚ query_all bigger_school Strand
                 (<["subject_id" := VInt 1]> {[ "grade_id" := VInt 1 ]}).
Proof.
  intros args.
  destruct (strands_are_filtered_and_sorted text_int String.leb
              bigger_school args) as (_ & _ & H).
  destruct (H 1 1) as (rows & E & P & _);
    [discriminate | reflexivity | reflexivity | lia | lia |].
  exists rows. split; [exact E|exact P].
Defined.

Lemma outcomes_are_filtered_and_sorted_witness :
  let args : gmap string string := {[ "substrand_id" := "1" ]} in
  exists rows,
    get_learning_outcomes text_int (inr bigger_school) args
    = Outcome
        (Response 200
           (JList (to_dict ["id"; "description"; "substrand_id"] <$> rows)))
        [StoreRead "learning_outcomes"]
    /\ rows ≡ₚ query_all bigger_school LearningOutcome
                 {[ "substrand_id" := VInt 1 ]}
    /\ get_learning_outcomes text_int (inr bigger_school)
         {[ "substrand_id" := "0" ]}
       = respond 400 (error_body "substrand_id is required").
Proof.
  intros args.
  destruct (outcomes_are_filtered_and_sorted text_int bigger_school args)
    as (_ & H).
  destruct (H 1) as (_ & rows & E & P & _); [reflexivity | lia |].
  destruct (outcomes_are_filtered_and_sorted text_int bigger_school
              {[ "substrand_id" := "0" ]}) as (Hzero & _).
  exists rows. split; [exact E|]. split; [exact P|].
  apply Hzero. intros n [= <-]. reflexivity.
Defined.
